(** * bili_downloader: stream selection, chunked download, merge and job
    coordination.

    A shallow embedding of [download/video_downloader.py] and of
    [gui/download_thread.py].

    Conventions of the embedding.
    - A Python [str] is a [string] holding its UTF-8 text: a character is
      a byte that does not continue one, with the continuation bytes after
      it, and [len] and slices count characters.  File names and titles are
      any text.  Codec names and URLs are ASCII text, on which
      [lower]/[upper] fold the letters and [re], [urlparse] and [strip()]
      are given; what a percent-escape of a URL decodes to is any text.
    - A stream dict of the DASH payload is the record [Stream]; a key that
      is absent is [None], so [d.get(k, dflt)] is [default dflt (k d)].
    - [sorted(xs, key=k)] and [xs.sort(key=k)] are stable: the list they
      produce is the one stable insertion gives, [sorted_by].
    - The file system is a finite map from paths to the bytes written;
      creating a directory, opening a file for writing and deleting a file
      succeed, and renaming fails only for a missing source.
    - The HTTP client, the metadata service, [ffmpeg] and the cancel flag
      are the environment: a script of what each call answers. *)

From Stdlib Require Import ZArith List Ascii Bool Lia Permutation Sorted.
From stdpp Require Import base option list gmap strings pretty.

Open Scope Z_scope.

(** ** Python built-ins used by the code *)

Module Py.

Definition ascii_lower (c : ascii) : ascii :=
  let n := nat_of_ascii c in
  if (Nat.leb 65 n && Nat.leb n 90)%bool then ascii_of_nat (n + 32) else c.

Definition ascii_upper (c : ascii) : ascii :=
  let n := nat_of_ascii c in
  if (Nat.leb 97 n && Nat.leb n 122)%bool then ascii_of_nat (n - 32) else c.

Fixpoint str_map (f : ascii -> ascii) (s : string) : string :=
  match s with
  | EmptyString => EmptyString
  | String c r => String (f c) (str_map f r)
  end.

(** [s.lower()] and [s.upper()]. *)
Definition lower (s : string) : string := str_map ascii_lower s.
Definition upper (s : string) : string := str_map ascii_upper s.

(** [s.startswith(p)]. *)
Definition startswith (s p : string) : bool := String.prefix p s.

(** [needle in hay] on strings. *)
Fixpoint contains (needle hay : string) : bool :=
  String.prefix needle hay
  || match hay with
     | EmptyString => false
     | String _ r => contains needle r
     end.

(** [for i, x in enumerate(xs): if p(x): return i]; [None] when the loop
    ends without a hit. *)
Fixpoint first_index_from {A} (i : nat) (p : A -> bool) (xs : list A)
  : option nat :=
  match xs with
  | [] => None
  | x :: r => if p x then Some i else first_index_from (S i) p r
  end.

Definition first_index {A} (p : A -> bool) (xs : list A) : option nat :=
  first_index_from 0 p xs.

(** [xs.index(x)]: the first position of [x], [None] for [ValueError]. *)
Definition index (x : Z) (xs : list Z) : option nat :=
  first_index (Z.eqb x) xs.

End Py.

(** ** Stable sorting by a key *)

Section StableSort.
Context {A K : Type}.
Variable key : A -> K.
Variable ltb : K -> K -> bool.

(** [x] goes in front of the first element whose key is not smaller:
    elements that were behind [x] and compare equal stay behind it. *)
Fixpoint insert_by (x : A) (l : list A) : list A :=
  match l with
  | [] => [x]
  | y :: r => if ltb (key y) (key x) then y :: insert_by x r else x :: y :: r
  end.

Fixpoint sorted_by (l : list A) : list A :=
  match l with
  | [] => []
  | x :: r => insert_by x (sorted_by r)
  end.

End StableSort.

(** ** Stream selection ([download/video_downloader.py]) *)

(** One stream dict of the DASH payload, with the keys the code reads. *)
Record Stream := mkStream {
  stream_id : option Z;
  stream_codecs : option string;
  stream_base_url : option string;
  stream_baseUrl : option string;
  stream_backup_url : option (list string);
  stream_backupUrl : option (list string)
}.

(** [dash["flac"]] and [dash["dolby"]]: only their ["audio"] key is read. *)
Record FlacData := mkFlac { flac_audio : option Stream }.
Record DolbyData := mkDolby { dolby_audio : option (list Stream) }.

Record DashData := mkDash {
  dash_video : option (list Stream);
  dash_audio : option (list Stream);
  dash_flac : option FlacData;
  dash_dolby : option DolbyData
}.

Definition AUDIO_QUALITY_PRIORITY : list Z :=
  [30251; 30250; 30280; 30232; 30216].

Definition VIDEO_QUALITY_PRIORITY : list Z :=
  [127; 126; 125; 120; 116; 112; 80; 74; 64; 32; 16].

Definition CODEC_PRIORITY : list string := ["hev"; "av01"; "avc"].

(** Tuples of two ints compare lexicographically. *)
Definition pair_ltb (a b : nat * nat) : bool :=
  Nat.ltb (fst a) (fst b) || (Nat.eqb (fst a) (fst b) && Nat.ltb (snd a) (snd b)).

Definition quality_rank (stream : Stream) : nat :=
  let quality := default 0 (stream_id stream) in
  match Py.index quality VIDEO_QUALITY_PRIORITY with
  | Some i => i
  | None => 999%nat
  end.

Definition codec_rank (stream : Stream) : nat :=
  let codecs := Py.lower (default "" (stream_codecs stream)) in
  match Py.first_index (fun codec => Py.contains codec codecs) CODEC_PRIORITY with
  | Some i => i
  | None => 999%nat
  end.

Definition sort_key (stream : Stream) : nat * nat :=
  (quality_rank stream, codec_rank stream).

Definition select_best_video_stream (dash_data : DashData) : option Stream :=
  let video_streams := default [] (dash_video dash_data) in
  match video_streams with
  | [] => None
  | _ :: _ => hd_error (sorted_by sort_key pair_ltb video_streams)
  end.

(** [DownloadThread._select_video_stream], [quality] being [self.quality]. *)
Definition id_is (quality : Z) (s : Stream) : bool :=
  match stream_id s with
  | Some i => Z.eqb i quality
  | None => false
  end.

Definition _select_video_stream (quality : Z) (dash_data : DashData)
  : option Stream :=
  if Z.eqb quality 0 then select_best_video_stream dash_data
  else
    let video_streams := default [] (dash_video dash_data) in
    let matching_streams := List.filter (id_is quality) video_streams in
    match matching_streams with
    | _ :: _ => hd_error (sorted_by codec_rank Nat.ltb matching_streams)
    | [] => select_best_video_stream dash_data
    end.

(** *** Audio selection *)

Definition present {A} (o : option A) : bool :=
  match o with Some _ => true | None => false end.

(** Truth value of a stream dict: it has at least one key. *)
Definition stream_truthy (s : Stream) : bool :=
  present (stream_id s) || present (stream_codecs s)
  || present (stream_base_url s) || present (stream_baseUrl s)
  || present (stream_backup_url s) || present (stream_backupUrl s).

(** [(best_audio, best_priority)]. *)
Definition audio_state : Type := option Stream * nat.

(** Body of [for stream in audio_streams]. *)
Definition audio_loop_body (st : audio_state) (stream : Stream) : audio_state :=
  let audio_id := default 0 (stream_id stream) in
  match Py.index audio_id AUDIO_QUALITY_PRIORITY with
  | Some priority =>
      if Nat.ltb priority (snd st) then (Some stream, priority) else st
  | None =>
      match fst st with
      | None => (Some stream, snd st)
      | Some _ => st
      end
  end.

(** The block run for the flac track ([default_id] 30251) and for the first
    dolby track ([default_id] 30250): [ValueError] is passed over. *)
Definition consider_special (default_id : Z) (st : audio_state)
    (candidate : Stream) : audio_state :=
  let cand_id := default default_id (stream_id candidate) in
  match Py.index cand_id AUDIO_QUALITY_PRIORITY with
  | Some priority =>
      if Nat.ltb priority (snd st) then (Some candidate, priority) else st
  | None => st
  end.

(** [flac_data and flac_data.get("audio")], when it is truthy. *)
Definition flac_candidate (dash_data : DashData) : option Stream :=
  match dash_flac dash_data with
  | Some flac_data =>
      match flac_audio flac_data with
      | Some flac_audio => if stream_truthy flac_audio then Some flac_audio else None
      | None => None
      end
  | None => None
  end.

(** [dolby_audios[0]], when [dolby_data.get("audio")] is a non-empty list. *)
Definition dolby_candidate (dash_data : DashData) : option Stream :=
  match dash_dolby dash_data with
  | Some dolby_data =>
      match dolby_audio dolby_data with
      | Some dolby_audios => hd_error dolby_audios
      | None => None
      end
  | None => None
  end.

Definition after_audio_streams (dash_data : DashData) : audio_state :=
  fold_left audio_loop_body (default [] (dash_audio dash_data)) (None, 999%nat).

Definition after_flac (dash_data : DashData) : audio_state :=
  match flac_candidate dash_data with
  | Some flac_audio => consider_special 30251 (after_audio_streams dash_data) flac_audio
  | None => after_audio_streams dash_data
  end.

Definition after_dolby (dash_data : DashData) : audio_state :=
  match dolby_candidate dash_data with
  | Some dolby_audio => consider_special 30250 (after_flac dash_data) dolby_audio
  | None => after_flac dash_data
  end.

Definition select_best_audio_stream (dash_data : DashData) : option Stream :=
  fst (after_dolby dash_data).

(** ** File names ([sanitize_filename]) *)

Module PyStr.

Fixpoint all_chars (p : ascii -> bool) (s : string) : bool :=
  match s with
  | EmptyString => true
  | String c r => p c && all_chars p r
  end.

(** [s.lstrip(chars)], [s.rstrip(chars)] and [s.strip(chars)], the set of
    characters given as a predicate. *)
Fixpoint lstrip (p : ascii -> bool) (s : string) : string :=
  match s with
  | EmptyString => EmptyString
  | String c r => if p c then lstrip p r else s
  end.

Fixpoint rstrip (p : ascii -> bool) (s : string) : string :=
  match s with
  | EmptyString => EmptyString
  | String c r =>
      match rstrip p r with
      | EmptyString => if p c then EmptyString else String c EmptyString
      | r' => String c r'
      end
  end.

Definition strip (p : ascii -> bool) (s : string) : string :=
  rstrip p (lstrip p s).

(** The bytes 10xxxxxx, which continue a character of the UTF-8 text. *)
Definition continuation (c : ascii) : bool :=
  let n := nat_of_ascii c in Nat.leb 128 n && Nat.leb n 191.

Fixpoint count_chars (s : string) : nat :=
  match s with
  | EmptyString => O
  | String c r => if continuation c then count_chars r else S (count_chars r)
  end.

(** [len(s)]: the number of characters. *)
Definition len (s : string) : Z := Z.of_nat (count_chars s).

(** The first [n] characters: a character is taken with the bytes that
    continue it. *)
Fixpoint take_chars (n : nat) (s : string) : string :=
  match s with
  | EmptyString => EmptyString
  | String c r =>
      if continuation c then String c (take_chars n r)
      else match n with
           | O => EmptyString
           | S k => String c (take_chars k r)
           end
  end.

(** [s[:n]], for [n] of either sign. *)
Definition slice_to (n : Z) (s : string) : string :=
  if Z.leb 0 n then take_chars (Z.to_nat n) s
  else take_chars (Z.to_nat (len s + n)) s.

(** [s[n:]] for [n >= 0]. *)
Fixpoint drop (n : nat) (s : string) : string :=
  match n, s with
  | O, _ => s
  | S k, EmptyString => EmptyString
  | S k, String _ r => drop k r
  end.

Fixpoint last_char (s : string) : option ascii :=
  match s with
  | EmptyString => None
  | String c r =>
      match last_char r with
      | Some c' => Some c'
      | None => Some c
      end
  end.

Definition first_char (s : string) : option ascii :=
  match s with
  | EmptyString => None
  | String c _ => Some c
  end.

End PyStr.

(** The character class of [illegal_chars]: the controls 0x00 to 0x1f and
    the nine characters < > : (double quote) / (backslash) | ? and the
    star, by code. *)
Definition illegal_chars (c : ascii) : bool :=
  let n := nat_of_ascii c in
  Nat.leb n 31
  || existsb (Nat.eqb n) [60; 62; 58; 34; 47; 92; 124; 63; 42]%nat.

Definition space_or_dot (c : ascii) : bool :=
  let n := nat_of_ascii c in Nat.eqb n 32 || Nat.eqb n 46.

Definition sanitize_filename (filename : string) (max_length : Z) : string :=
  let filename := Py.str_map (fun c => if illegal_chars c then "_"%char else c) filename in
  let filename := PyStr.strip space_or_dot filename in
  let filename :=
    if Z.ltb max_length (PyStr.len filename) then PyStr.slice_to max_length filename
    else filename in
  match filename with
  | EmptyString => "video"
  | _ => filename
  end.

(** The default [max_length=200]. *)
Definition sanitize_filename_default (filename : string) : string :=
  sanitize_filename filename 200.

(** ** Identifier parsing ([parse_video_url]) *)

(** The pieces of [re], [int] and [urllib.parse] the parser calls: [re],
    [strip()] and [urlparse] on ASCII text, [int] and the decoding of
    percent-escapes on any text. *)
Module PyLib.

Definition code (c : ascii) : nat := nat_of_ascii c.

Definition in_range (lo hi : nat) (c : ascii) : bool :=
  Nat.leb lo (code c) && Nat.leb (code c) hi.

Definition is_char (n : nat) (c : ascii) : bool := Nat.eqb (code c) n.

Definition is_digit : ascii -> bool := in_range 48 57.
Definition is_alpha (c : ascii) : bool := in_range 65 90 c || in_range 97 122 c.
Definition is_alnum (c : ascii) : bool := is_alpha c || is_digit c.

(** What [str.strip()] takes off ASCII text. *)
Definition is_space (c : ascii) : bool :=
  in_range 9 13 c || in_range 28 32 c.

Definition digit_value (c : ascii) : Z := Z.of_nat (code c) - 48.

(** [int(s)] for a string of digits. *)
Fixpoint digits_value (acc : Z) (s : string) : Z :=
  match s with
  | EmptyString => acc
  | String c r => digits_value (10 * acc + digit_value c) r
  end.

(** The digits of an [int] literal: single underscores may stand between
    digits. [None] is [ValueError]. *)
Fixpoint int_digits (acc : Z) (after_digit : bool) (s : string) : option Z :=
  match s with
  | EmptyString => if after_digit then Some acc else None
  | String c r =>
      if is_digit c then int_digits (10 * acc + digit_value c) true r
      else if is_char 95 c && after_digit then
        match r with
        | EmptyString => None
        | _ => int_digits acc false r
        end
      else None
  end.

(** The blanks [int] passes over in ASCII text: those of C's [isspace]. *)
Definition is_c_space (c : ascii) : bool := in_range 9 13 c || is_char 32 c.

(** [int(s)] for ASCII text: blanks around, an optional sign, digits. *)
Definition int_literal (s : string) : option Z :=
  match PyStr.strip is_c_space s with
  | String c r =>
      if is_char 43 c then int_digits 0 false r
      else if is_char 45 c then Z.opp <$> int_digits 0 false r
      else int_digits 0 false (String c r)
  | EmptyString => None
  end.

Definition is_ascii (c : ascii) : bool := Nat.ltb (code c) 128.

Definition byte (c : ascii) : Z := Z.of_nat (code c).

(** The six bits a continuation byte carries. *)
Definition low6 (c : ascii) : Z := byte c - 128.

(** The characters of a UTF-8 text, by code; [None] for bytes that are no
    well-formed text (in a [str] they stand as U+FFFD). *)
Fixpoint utf8_decode (s : string) : option (list Z) :=
  match s with
  | EmptyString => Some []
  | String a r =>
      let x := byte a in
      if x <? 128 then cons x <$> utf8_decode r
      else if (194 <=? x) && (x <=? 223) then
        match r with
        | String b r1 =>
            if PyStr.continuation b
            then cons ((x - 192) * 64 + low6 b) <$> utf8_decode r1
            else None
        | _ => None
        end
      else if (224 <=? x) && (x <=? 239) then
        match r with
        | String b (String c r2) =>
            if PyStr.continuation b && PyStr.continuation c
               && negb ((x =? 224) && (byte b <? 160))
               && negb ((x =? 237) && (160 <=? byte b))
            then cons ((x - 224) * 4096 + low6 b * 64 + low6 c) <$> utf8_decode r2
            else None
        | _ => None
        end
      else if (240 <=? x) && (x <=? 244) then
        match r with
        | String b (String c (String d r3)) =>
            if PyStr.continuation b && PyStr.continuation c && PyStr.continuation d
               && negb ((x =? 240) && (byte b <? 144))
               && negb ((x =? 244) && (144 <=? byte b))
            then cons ((x - 240) * 262144 + low6 b * 4096 + low6 c * 64 + low6 d)
                   <$> utf8_decode r3
            else None
        | _ => None
        end
      else None
  end.

(** The blanks above U+007F ([Py_UNICODE_ISSPACE]). *)
Definition unicode_space (cp : Z) : bool :=
  existsb (Z.eqb cp) [133; 160; 5760; 8232; 8233; 8239; 8287; 12288]
  || ((8192 <=? cp) && (cp <=? 8202)).

(** The digit zero of each run of ten decimal digits above U+007F (the
    characters of category Nd, Unicode 14.0). *)
Definition decimal_zeros : list Z :=
  [1632; 1776; 1984; 2406; 2534; 2662; 2790; 2918; 3046; 3174; 3302; 3430;
   3558; 3664; 3792; 3872; 4160; 4240; 6112; 6160; 6470; 6608; 6784; 6800;
   6992; 7088; 7232; 7248; 42528; 43216; 43264; 43472; 43504; 43600; 44016;
   65296; 66720; 68912; 69734; 69872; 69942; 70096; 70384; 70736; 70864;
   71248; 71360; 71472; 71904; 72016; 72784; 73040; 73120; 92768; 92864;
   93008; 120782; 120792; 120802; 120812; 120822; 123200; 123632; 125264;
   130032].

(** [Py_UNICODE_TODECIMAL]. *)
Definition unicode_decimal (cp : Z) : option Z :=
  (fun z => cp - z)
    <$> List.find (fun z => (z <=? cp) && (cp <? z + 10)) decimal_zeros.

(** What [int] makes of one character of a text that is not ASCII: a
    blank is a space, a decimal digit its ASCII digit; [None] when the
    character is neither. *)
Definition to_ascii (cp : Z) : option ascii :=
  if cp <? 127 then Some (ascii_of_nat (Z.to_nat cp))
  else if unicode_space cp then Some " "%char
  else (fun d => ascii_of_nat (Z.to_nat (48 + d))) <$> unicode_decimal cp.

Fixpoint string_of (cs : list ascii) : string :=
  match cs with
  | [] => EmptyString
  | c :: r => String c (string_of r)
  end.

(** [int(s)]; [None] is [ValueError].  ASCII text is read as it stands;
    other text has its blanks and decimal digits turned into ASCII first. *)
Definition int (s : string) : option Z :=
  if PyStr.all_chars is_ascii s then int_literal s
  else
    match utf8_decode s with
    | Some cps =>
        match mapM to_ascii cps with
        | Some cs => int_literal (string_of cs)
        | None => None
        end
    | None => None
    end.

Fixpoint take_while (p : ascii -> bool) (s : string) : string :=
  match s with
  | EmptyString => EmptyString
  | String c r => if p c then String c (take_while p r) else EmptyString
  end.

(** [re.match(r'^av(\d+)$', s, re.IGNORECASE)], giving group 1; the
    argument has no line break at its end, [strip()] having run. *)
Definition match_av (s : string) : option string :=
  match s with
  | String a (String v (String d r)) =>
      if (is_char 97 a || is_char 65 a) && (is_char 118 v || is_char 86 v)
         && PyStr.all_chars is_digit (String d r)
      then Some (String d r) else None
  | _ => None
  end.

Definition bv_here (s : string) : bool :=
  match s with
  | String b (String v r) =>
      (is_char 66 b || is_char 98 b) && (is_char 86 v || is_char 118 v)
      && Nat.eqb (String.length (String.substring 0 10 r)) 10
      && PyStr.all_chars is_alnum (String.substring 0 10 r)
  | _ => false
  end.

(** [re.search(r'(BV[a-zA-Z0-9]{10})', s, re.IGNORECASE)], group 1. *)
Fixpoint search_bv (s : string) : option string :=
  match s with
  | EmptyString => None
  | String _ r => if bv_here s then Some (String.substring 0 12 s) else search_bv r
  end.

Definition av_here (s : string) : option string :=
  match s with
  | String a (String v r) =>
      if (is_char 97 a || is_char 65 a) && (is_char 118 v || is_char 86 v)
      then match take_while is_digit r with
           | EmptyString => None
           | ds => Some ds
           end
      else None
  | _ => None
  end.

(** [re.search(r'av(\d+)', s, re.IGNORECASE)], group 1. *)
Fixpoint search_av (s : string) : option string :=
  match s with
  | EmptyString => None
  | String _ r =>
      match av_here s with
      | Some ds => Some ds
      | None => search_av r
      end
  end.

(** [s.find(c)] for a class of characters. *)
Fixpoint find (p : ascii -> bool) (s : string) : option nat :=
  match s with
  | EmptyString => None
  | String c r => if p c then Some O else S <$> find p r
  end.

(** [s.split(c, 1)] when [c] occurs. *)
Definition split_once (p : ascii -> bool) (s : string) : option (string * string) :=
  match find p s with
  | Some i => Some (String.substring 0 i s, PyStr.drop (S i) s)
  | None => None
  end.

Fixpoint remove_chars (p : ascii -> bool) (s : string) : string :=
  match s with
  | EmptyString => EmptyString
  | String c r => if p c then remove_chars p r else String c (remove_chars p r)
  end.

Record ParseResult := mkParseResult {
  scheme : string;
  netloc : string;
  path : string;
  params : string;
  query : string;
  fragment : string
}.

Definition scheme_char (c : ascii) : bool :=
  is_alnum c || is_char 43 c || is_char 45 c || is_char 46 c.

Definition uses_params : list string :=
  [""; "ftp"; "hdl"; "prospero"; "http"; "imap"; "https"; "shttp"; "rtsp";
   "rtspu"; "sip"; "sips"; "mms"; "sftp"; "tel"].

Fixpoint rfind_from (i : nat) (p : ascii -> bool) (s : string) (last : option nat)
  : option nat :=
  match s with
  | EmptyString => last
  | String c r => rfind_from (S i) p r (if p c then Some i else last)
  end.

Fixpoint split_all_aux (p : ascii -> bool) (cur : string -> string) (s : string)
  : list string :=
  match s with
  | EmptyString => [cur EmptyString]
  | String c r =>
      if p c then cur EmptyString :: split_all_aux p (fun x => x) r
      else split_all_aux p (fun x => cur (String c x)) r
  end.

(** [s.split(c)]. *)
Definition split_all (p : ascii -> bool) (s : string) : list string :=
  split_all_aux p (fun x => x) s.

(** [ipaddress.IPv4Address(s)] accepts [s]: four octets between dots, each
    of one to three digits without a leading zero, at most 255. *)
Definition _parse_octet (s : string) : bool :=
  match s with
  | EmptyString => false
  | String c r =>
      PyStr.all_chars is_digit s
      && Nat.leb (String.length s) 3
      && (String.eqb s "0" || negb (is_char 48 c))
      && (digits_value 0 s <=? 255)
  end.

Definition ipv4_address (s : string) : bool :=
  negb (present (find (is_char 47) s))
  && negb (String.eqb s EmptyString)
  && let octets := split_all (is_char 46) s in
     Nat.eqb (length octets) 4 && forallb _parse_octet octets.

Definition is_hex (c : ascii) : bool :=
  is_digit c || in_range 97 102 c || in_range 65 70 c.

(** [_parse_hextet]: one to four hexadecimal digits. *)
Definition _parse_hextet (s : string) : bool :=
  PyStr.all_chars is_hex s
  && Nat.leb (String.length s) 4
  && negb (String.eqb s EmptyString).

(** The positions from [i] on of the empty strings of [parts]. *)
Fixpoint empty_at (i : nat) (parts : list string) : list nat :=
  match parts with
  | [] => []
  | p :: r =>
      if String.eqb p EmptyString then i :: empty_at (S i) r else empty_at (S i) r
  end.

Definition is_empty (o : option string) : bool :=
  match o with
  | Some EmptyString => true
  | _ => false
  end.

(** [IPv6Address._ip_int_from_string] raises nothing on [ip_str]. *)
Definition ipv6_int_from_string (ip_str : string) : bool :=
  match ip_str with
  | EmptyString => false
  | _ =>
      let parts := split_all (is_char 58) ip_str in
      if Nat.ltb (length parts) 3 then false
      else
        let tail := List.last parts EmptyString in
        let suffix_ok :=
          if present (find (is_char 46) tail) then ipv4_address tail else true in
        (* an IPv4 suffix is put back as two hextets *)
        let parts :=
          if present (find (is_char 46) tail)
          then (removelast parts ++ ["0"; "0"])%list else parts in
        if negb suffix_ok then false
        else if Nat.ltb 9 (length parts) then false
        else
          let n := length parts in
          let first_empty := is_empty (List.nth_error parts 0) in
          let last_empty := is_empty (List.nth_error parts (n - 1)) in
          match empty_at 1 (firstn (n - 2) (skipn 1 parts)) with
          | [] =>
              Nat.eqb n 8 && negb first_empty && negb last_empty
              && forallb _parse_hextet parts
          | [skip_index] =>
              let parts_hi := skip_index in
              let parts_lo := (n - skip_index - 1)%nat in
              let hi_ok := if first_empty then Nat.eqb (parts_hi - 1) 0 else true in
              let lo_ok := if last_empty then Nat.eqb (parts_lo - 1) 0 else true in
              let parts_hi := if first_empty then (parts_hi - 1)%nat else parts_hi in
              let parts_lo := if last_empty then (parts_lo - 1)%nat else parts_lo in
              hi_ok && lo_ok
              && Nat.leb (parts_hi + parts_lo + 1) 8
              && forallb _parse_hextet (firstn parts_hi parts)
              && forallb _parse_hextet (skipn (n - parts_lo) parts)
          | _ => false
          end
  end.

(** [ipaddress.IPv6Address(s)] accepts [s]: no slash, a scope after [%]
    that is not empty and holds no other [%], and the address itself. *)
Definition ipv6_address (s : string) : bool :=
  negb (present (find (is_char 47) s))
  && match split_once (is_char 37) s with
     | None => ipv6_int_from_string s
     | Some (addr, scope_id) =>
         negb (String.eqb scope_id EmptyString)
         && negb (present (find (is_char 37) scope_id))
         && ipv6_int_from_string addr
     end.

(** [_check_bracketed_host(hostname)] raises nothing: the host is an
    IPvFuture literal ([v], hexadecimal digits, a dot, something) or an
    IPv6 address; an IPv4 address in brackets is refused. *)
Definition _check_bracketed_host (hostname : string) : bool :=
  let ip_address := negb (ipv4_address hostname) && ipv6_address hostname in
  match hostname with
  | String c r =>
      if is_char 118 c then
        match take_while is_hex r with
        | EmptyString => false
        | hex =>
            match PyStr.drop (String.length hex) r with
            | String dot (String _ _) => is_char 46 dot
            | _ => false
            end
        end
      else ip_address
  | EmptyString => ip_address
  end.

(** [s.rpartition(c)[2]]: what follows the last [c], all of [s] without
    one. *)
Definition after_last (p : ascii -> bool) (s : string) : string :=
  match rfind_from 0 p s None with
  | Some i => PyStr.drop (S i) s
  | None => s
  end.

(** [_check_bracketed_netloc(netloc)] raises nothing. *)
Definition _check_bracketed_netloc (netloc : string) : bool :=
  let hostname_and_port := after_last (is_char 64) netloc in
  match split_once (is_char 91) hostname_and_port with
  | Some (before_bracket, bracketed) =>
      match before_bracket with
      | String _ _ => false
      | EmptyString =>
          match split_once (is_char 93) bracketed with
          | Some (hostname, port) =>
              match port with
              | EmptyString => _check_bracketed_host hostname
              | String c _ => is_char 58 c && _check_bracketed_host hostname
              end
          | None => _check_bracketed_host bracketed
          end
      end
  | None =>
      match split_once (is_char 58) hostname_and_port with
      | Some (hostname, _) => _check_bracketed_host hostname
      | None => _check_bracketed_host hostname_and_port
      end
  end.

(** [urlparse(url)]: the scheme, the network location after [//], the
    fragment after [#], the query after [?] and the parameters after [;]
    in the last path segment are split off. [None] is the [ValueError] of a
    bracket without its partner in the network location, or of a bracketed
    host that is no IPv6 or IPvFuture address. *)
Definition urlparse (url : string) : option ParseResult :=
  let url := PyStr.lstrip (in_range 0 32) url in
  let url := remove_chars (fun c => is_char 9 c || is_char 10 c || is_char 13 c) url in
  let '(scheme, url) :=
    match find (is_char 58) url with
    | Some (S i) =>
        let head := String.substring 0 (S i) url in
        if match url with String c _ => is_alpha c | _ => false end
           && PyStr.all_chars scheme_char head
        then (Py.lower head, PyStr.drop (S (S i)) url)
        else (EmptyString, url)
    | _ => (EmptyString, url)
    end in
  let split_netloc :=
    if String.prefix "//" url then
      let rest := PyStr.drop 2 url in
      match find (fun c => is_char 47 c || is_char 63 c || is_char 35 c) rest with
      | Some i => (String.substring 0 i rest, PyStr.drop i rest)
      | None => (rest, EmptyString)
      end
    else (EmptyString, url) in
  let '(netloc, url) := split_netloc in
  let has c := present (find (is_char c) netloc) in
  if xorb (has 91%nat) (has 93%nat) then None
  else if has 91%nat && has 93%nat && negb (_check_bracketed_netloc netloc) then None
  else
    let '(url, fragment) :=
      match split_once (is_char 35) url with
      | Some (u, f) => (u, f)
      | None => (url, EmptyString)
      end in
    let '(url, query) :=
      match split_once (is_char 63) url with
      | Some (u, q) => (u, q)
      | None => (url, EmptyString)
      end in
    let '(url, params) :=
      if existsb (String.eqb scheme) uses_params then
        let start := default O (rfind_from 0 (is_char 47) url None) in
        match find (is_char 59) (PyStr.drop start url) with
        | Some i => (String.substring 0 (start + i) url, PyStr.drop (S (start + i)) url)
        | None => (url, EmptyString)
        end
      else (url, EmptyString) in
    Some (mkParseResult scheme netloc url params query fragment).

Definition hex_value (c : ascii) : option nat :=
  if is_digit c then Some (code c - 48)%nat
  else if in_range 97 102 c then Some (code c - 87)%nat
  else if in_range 65 70 c then Some (code c - 55)%nat
  else None.

(** [unquote(s)]: [%XX] stands for the byte [XX] of the UTF-8 text;
    [skip] counts the hex digits still to pass over. *)
Fixpoint unquote_aux (skip : nat) (s : string) : string :=
  match s with
  | EmptyString => EmptyString
  | String c r =>
      match skip with
      | S k => unquote_aux k r
      | O =>
          if is_char 37 c then
            match r with
            | String h (String l _) =>
                match hex_value h, hex_value l with
                | Some a, Some b =>
                    String (ascii_of_nat (16 * a + b)) (unquote_aux 2 r)
                | _, _ => String c (unquote_aux 0 r)
                end
            | _ => String c (unquote_aux 0 r)
            end
          else String c (unquote_aux 0 r)
      end
  end.

Definition unquote (s : string) : string := unquote_aux 0 s.

(** [s.replace('+', ' ')]. *)
Definition plus_to_space (s : string) : string :=
  Py.str_map (fun c => if is_char 43 c then " "%char else c) s.

(** [parse_qsl(qs)]: the fields between [&]; a field without [=] or with
    nothing after it is dropped. *)
Definition parse_qsl (qs : string) : list (string * string) :=
  flat_map
    (fun name_value =>
       match split_once (is_char 61) name_value with
       | Some (name, value) =>
           match value with
           | EmptyString => []
           | _ => [(unquote (plus_to_space name), unquote (plus_to_space value))]
           end
       | None => []
       end)
    (split_all (is_char 38) qs).

(** [parse_qs(qs)[name][0]], [None] when [name not in parse_qs(qs)]. *)
Fixpoint first_value (name : string) (pairs : list (string * string))
  : option string :=
  match pairs with
  | [] => None
  | (n, v) :: r => if String.eqb n name then Some v else first_value name r
  end.

End PyLib.

(** [page = int(query_params['p'][0])] when ['p' in query_params], the
    initial [page = 1] otherwise; [None] when [int] raises. *)
Definition page_of_query (query : string) : option Z :=
  match PyLib.first_value "p" (PyLib.parse_qsl query) with
  | Some v => PyLib.int v
  | None => Some 1
  end.

(** [(bvid, aid, page)]. Whatever is raised inside the [try] leads to the
    final [return None, None, 1]. *)
Definition parse_video_url (url : string) : option string * option Z * Z :=
  let url := PyStr.strip PyLib.is_space url in
  if Py.startswith (Py.upper url) "BV" && Z.leb (PyStr.len url) 12 then
    (Some url, None, 1)
  else
    match PyLib.match_av url with
    | Some digits => (None, Some (PyLib.digits_value 0 digits), 1)
    | None =>
        match PyLib.urlparse url with
        | None => (None, None, 1)
        | Some parsed =>
            match PyLib.search_bv (PyLib.path parsed) with
            | Some bvid =>
                match page_of_query (PyLib.query parsed) with
                | Some page => (Some bvid, None, page)
                | None => (None, None, 1)
                end
            | None =>
                match PyLib.search_av (PyLib.path parsed) with
                | Some digits =>
                    match page_of_query (PyLib.query parsed) with
                    | Some page => (None, Some (PyLib.digits_value 0 digits), page)
                    | None => (None, None, 1)
                    end
                | None => (None, None, 1)
                end
            end
        end
    end.

(** [if url_page > 1: self.page = url_page], in both coordinators. *)
Definition effective_page (page url_page : Z) : Z :=
  if Z.ltb 1 url_page then url_page else page.

(** ** The environment: files, the HTTP client, [ffmpeg], the cancel flag *)

(** The outcome of a call that may raise; [Raise e] carries the text of the
    exception. *)
Inductive result (A : Type) : Type :=
| Ret (a : A)
| Raise (e : string).
Arguments Ret {A} a.
Arguments Raise {A} e.

Abbreviation bytes := (list Byte.byte).

(** One answer of [client.download_chunk]: bytes, or an exception. An empty
    chunk is the end of the stream, and so is the end of the script. *)
Inductive chunk_event : Type :=
| Chunk (data : bytes)
| ChunkRaises (e : string).

(** A download session: what [download_create] followed by
    [download_content_length] gives (the total, or an exception), and the
    chunks to come. *)
Record Session := mkSession {
  create : result Z;
  events : list chunk_event
}.

(** What [subprocess.run(["ffmpeg", "-version"])] does. *)
Inductive version_run : Type :=
| VersionNotFound                  (* FileNotFoundError *)
| VersionRaises (e : string)       (* any other exception *)
| VersionExited (returncode : Z).

(** What the merge command does: it raises, or it exits with a return code
    and [stderr], having left [output] (if any) at the output path. *)
Inductive merge_run : Type :=
| MergeRaises (e : string)
| MergeExited (returncode : Z) (stderr : string) (output : option bytes).

(** The world a job runs in. [cancel_in] is the cancel flag seen from the
    download thread: [None] when [cancel()] never comes, [Some n] when the
    next [n] reads of [self._cancelled] still give [False] and all later
    ones give [True]. *)
Record World := mkWorld {
  files : gmap string bytes;
  cancel_in : option nat
}.

(** A small state-and-exception monad over the world. *)
Definition M (A : Type) : Type := World -> result A * World.

Definition ret {A} (a : A) : M A := fun w => (Ret a, w).
Definition raise {A} (e : string) : M A := fun w => (Raise e, w).
Definition bind {A B} (m : M A) (k : A -> M B) : M B :=
  fun w =>
    match m w with
    | (Ret a, w') => k a w'
    | (Raise e, w') => (Raise e, w')
    end.

Declare Scope job_scope.
Delimit Scope job_scope with job.
Notation "x <- m ;; k" := (bind m (fun x => k))
  (at level 100, m at next level, right associativity) : job_scope.
Notation "m ;;; k" := (bind m (fun _ => k))
  (at level 100, right associativity) : job_scope.

(** [try: m except Exception as e: handler(e)]. *)
Definition try_except {A} (m : M A) (handler : string -> M A) : M A :=
  fun w =>
    match m w with
    | (Ret a, w') => (Ret a, w')
    | (Raise e, w') => handler e w'
    end.

Definition lift {A} (r : result A) : M A := fun w => (r, w).

(** Reading [self._cancelled]. *)
Definition read_cancelled : M bool :=
  fun w =>
    match cancel_in w with
    | None => (Ret false, w)
    | Some O => (Ret true, w)
    | Some (S n) => (Ret false, mkWorld (files w) (Some n))
    end.

(** [open(path, 'wb')] followed by the writes and the close: the file holds
    exactly [data]. *)
Definition write_file (path : string) (data : bytes) : M unit :=
  fun w => (Ret tt, mkWorld (<[path := data]> (files w)) (cancel_in w)).

(** [path.unlink(missing_ok=True)]. *)
Definition unlink (path : string) : M unit :=
  fun w => (Ret tt, mkWorld (delete path (files w)) (cancel_in w)).

(** [src.rename(dst)]; a missing [src] is [FileNotFoundError]. *)
Definition rename (src dst : string) : M unit :=
  fun w =>
    match files w !! src with
    | Some data =>
        (Ret tt, mkWorld (<[dst := data]> (delete src (files w))) (cancel_in w))
    | None => (Raise "FileNotFoundError", w)
    end.

(** [path.stat().st_size] when [path.exists()]. *)
Definition size_if_exists (path : string) : M (option Z) :=
  fun w => (Ret (Z.of_nat <$> (length <$> files w !! path)), w).

(** [Path(dir) / name]. *)
Definition path_join (dir name : string) : string :=
  String.append dir (String.append "/" name).

(** ** Chunked download *)

(** How the chunk loop was left. *)
Inductive loop_exit : Type :=
| ReachedTotal      (* [current < total] is false *)
| EndOfStream       (* [if not chunk: break] *)
| ChunkFailed (e : string)   (* [download_chunk] raised *)
| SawCancel.        (* [if self._cancelled: return False] *)

Record LoopEnd := mkLoopEnd {
  exit : loop_exit;
  written : bytes;          (* what [f.write] put in the file *)
  received : Z;             (* [current] *)
  reads : nat;              (* calls of [download_chunk] made *)
  progress : list (Z * Z)   (* [progress_updated.emit(current, total)] *)
}.

Definition blen (data : bytes) : Z := Z.of_nat (length data).

(** The loop of [download_stream]. *)
Fixpoint chunk_loop (total current : Z) (written : bytes) (reads : nat)
    (events : list chunk_event) : LoopEnd :=
  if Z.ltb current total then
    match events with
    | [] => mkLoopEnd EndOfStream written current (S reads) []
    | ChunkRaises e :: _ => mkLoopEnd (ChunkFailed e) written current (S reads) []
    | Chunk [] :: _ => mkLoopEnd EndOfStream written current (S reads) []
    | Chunk chunk :: rest =>
        chunk_loop total (current + blen chunk) (written ++ chunk) (S reads) rest
    end
  else mkLoopEnd ReachedTotal written current reads [].

(** [download_stream(url, output_path, desc)]; the progress bar is left
    out, and directories are not part of the file model. *)
Definition download_stream (http : option string -> Session)
    (url : option string) (output_path : string) : M bool :=
  match create (http url) with
  | Raise e => ret false
  | Ret total =>
      let e := chunk_loop total 0 [] 0 (events (http url)) in
      (write_file output_path (written e) ;;;
       match exit e with
       | ChunkFailed _ => ret false
       | _ => ret true
       end)%job
  end.

(** The loop of [_download_stream_with_progress]: the flag is read before
    each chunk; the speed signal, which depends on the clock, is left
    out. *)
Fixpoint chunk_loop_with_progress (total current : Z) (written : bytes)
    (reads : nat) (progress : list (Z * Z)) (events : list chunk_event)
    (cancel : option nat) : LoopEnd * option nat :=
  if Z.ltb current total then
    match cancel with
    | Some O => (mkLoopEnd SawCancel written current reads progress, cancel)
    | _ =>
        let cancel' := match cancel with Some (S n) => Some n | _ => cancel end in
        match events with
        | [] => (mkLoopEnd EndOfStream written current (S reads) progress, cancel')
        | ChunkRaises e :: _ =>
            (mkLoopEnd (ChunkFailed e) written current (S reads) progress, cancel')
        | Chunk [] :: _ =>
            (mkLoopEnd EndOfStream written current (S reads) progress, cancel')
        | Chunk chunk :: rest =>
            let current' := current + blen chunk in
            chunk_loop_with_progress total current' (written ++ chunk) (S reads)
              (progress ++ [(current', total)]) rest cancel'
        end
    end
  else (mkLoopEnd ReachedTotal written current reads progress, cancel).

Definition _download_stream_with_progress (http : option string -> Session)
    (url : option string) (output_path : string) : M bool :=
  match create (http url) with
  | Raise e => ret false
  | Ret total =>
      fun w =>
        let '(e, cancel') :=
          chunk_loop_with_progress total 0 [] 0 [] (events (http url)) (cancel_in w) in
        (Ret (match exit e with
              | ChunkFailed _ | SawCancel => false
              | _ => true
              end),
         mkWorld (<[output_path := written e]> (files w)) cancel')
  end.

(** ** Merging ([check_ffmpeg], [merge_video_audio]) *)

Record Tool := mkTool {
  ffmpeg_version : version_run;
  (** the merge command, given what the two input files hold *)
  ffmpeg_merge : option bytes -> option bytes -> merge_run
}.

Definition check_ffmpeg (tool : Tool) : M bool :=
  match ffmpeg_version tool with
  | VersionNotFound => ret false
  | VersionRaises e => raise e
  | VersionExited returncode => ret (Z.eqb returncode 0)
  end.

(** What [merge_video_audio] prints. *)
Inductive merge_print : Type :=
| PrintNoFfmpeg                      (* ffmpeg not found, install it first *)
| PrintMerging
| PrintFfmpegError (stderr : string)
| PrintMergeFailed (e : string).

Definition merge_video_audio (tool : Tool)
    (video_path audio_path output_path : string) : M (bool * list merge_print) :=
  (ok <- check_ffmpeg tool ;;
   if negb ok then ret (false, [PrintNoFfmpeg])
   else
     fun w =>
       match ffmpeg_merge tool (files w !! video_path) (files w !! audio_path) with
       | MergeRaises e => (Ret (false, [PrintMerging; PrintMergeFailed e]), w)
       | MergeExited returncode stderr output =>
           let w1 :=
             match output with
             | Some data => mkWorld (<[output_path := data]> (files w)) (cancel_in w)
             | None => w
             end in
           if negb (Z.eqb returncode 0) then
             (Ret (false, [PrintMerging; PrintFfmpegError stderr]), w1)
           else
             (unlink video_path ;;; unlink audio_path ;;;
              ret (true, [PrintMerging]))%job w1
       end)%job.

(** ** Job coordination ([DownloadThread._download], [download_video_async]) *)

(** Truth values: a string or a list is true when not empty, an int when
    not 0, [None] is false. *)
Definition str_truthy (o : option string) : bool :=
  match o with
  | Some (String _ _) => true
  | _ => false
  end.

Definition int_truthy (o : option Z) : bool :=
  match o with
  | Some n => negb (Z.eqb n 0)
  | None => false
  end.

Definition list_truthy {A} (o : option (list A)) : bool :=
  match o with
  | Some (_ :: _) => true
  | _ => false
  end.

(** [a or b] on two optional values. *)
Definition py_or {A} (truthy : option A -> bool) (a b : option A) : option A :=
  if truthy a then a else b.

Definition get_stream_url (stream : Stream) : option string :=
  let url := py_or str_truthy (stream_base_url stream) (stream_baseUrl stream) in
  if str_truthy url then url
  else
    let backup_urls :=
      py_or list_truthy (stream_backup_url stream) (stream_backupUrl stream) in
    match backup_urls with
    | Some (first :: _) => Some first
    | _ => None
    end.

(** [xs[i]] with Python's negative indices; out of range is [IndexError]. *)
Definition getitem {A} (xs : list A) (i : Z) : result A :=
  let n := Z.of_nat (length xs) in
  let j := if Z.ltb i 0 then i + n else i in
  if Z.ltb j 0 then Raise "IndexError"
  else match nth_error xs (Z.to_nat j) with
       | Some x => Ret x
       | None => Raise "IndexError"
       end.

Record PageInfo := mkPage { page_part : option string }.

Record Info := mkInfo {
  info_title : option string;
  info_pages : option (list PageInfo)
}.

Record Durl := mkDurl { durl_url : option string }.

Record DownloadUrlData := mkUrlData {
  data_dash : option DashData;
  data_durl : option (list Durl)
}.

(** Truth value of the dash dict. *)
Definition dash_truthy (d : DashData) : bool :=
  present (dash_video d) || present (dash_audio d)
  || present (dash_flac d) || present (dash_dolby d).

(** What the job talks to. *)
Record Service := mkService {
  new_video : result unit;                        (* [video.Video(...)] *)
  get_info : result Info;                         (* [v.get_info()] *)
  get_download_url : Z -> result DownloadUrlData; (* by [page_index] *)
  http : option string -> Session;
  tool : Tool;
  CACHE_DIR : string;
  uuid4 : nat -> string                           (* the n-th [uuid.uuid4()] *)
}.

(** The message a job ends with. *)
Inductive message : Type :=
| MsgCancelled                          (* 下载已取消 *)
| MsgCannotParse (url : string)         (* 无法解析视频地址: {url} *)
| MsgInfoFailed (e : string)            (* 获取视频信息失败: {e} *)
| MsgNoSuchPage (page : Z) (count : nat)  (* 分P {page} 不存在，共 {count} P *)
| MsgUrlFailed (e : string)             (* 获取下载地址失败: {e} *)
| MsgNoStream                           (* 未找到视频流 *)
| MsgVideoFailed                        (* 下载视频失败 *)
| MsgNoVideoUrl                         (* 无法获取视频流 URL *)
| MsgVideoStreamFailed                  (* 下载视频流失败 *)
| MsgAudioStreamFailed                  (* 下载音频流失败 *)
| MsgMergeFailed                        (* 合并音视频失败 *)
| MsgDone (path : string) (size : option Z)   (* 下载完成！ ... *)
| MsgError (e : string).                (* 下载出错: {e} *)

Definition UNKNOWN_TITLE : string := "未知".

(** [f"{title}_P{page}_{part_name}"] when there are several pages. *)
Definition output_name (title : string) (count : nat) (page : Z)
    (part_name : string) : string :=
  let filename :=
    if Nat.ltb 1 count then
      String.append title
        (String.append "_P" (String.append (pretty page) (String.append "_" part_name)))
    else title in
  sanitize_filename_default filename.

Definition finish (final_output : string) : M (bool * message) :=
  (size <- size_if_exists final_output ;;
   ret (true, MsgDone final_output size))%job.

(** [DownloadThread._download]; [page] and [quality] are [self.page] and
    [self.quality]. The status signals are left out. *)
Definition _download (s : Service) (url output_dir : string) (page quality : Z)
  : M (bool * message) :=
  (c <- read_cancelled ;;
   if c : bool then ret (false, MsgCancelled) else
   let '(bvid, aid, url_page) := parse_video_url url in
   if negb (str_truthy bvid) && negb (int_truthy aid) then
     ret (false, MsgCannotParse url)
   else
   let page := effective_page page url_page in
   _ <- lift (new_video s) ;;
   match get_info s with
   | Raise e => ret (false, MsgInfoFailed e)
   | Ret info =>
   c <- read_cancelled ;;
   if c : bool then ret (false, MsgCancelled) else
   let title := default UNKNOWN_TITLE (info_title info) in
   let pages := default [] (info_pages info) in
   if Z.ltb (Z.of_nat (length pages)) page then
     ret (false, MsgNoSuchPage page (length pages))
   else
   page_info <- lift (getitem pages (page - 1)) ;;
   let part_name := default (String.append "P" (pretty page)) (page_part page_info) in
   match get_download_url s (page - 1) with
   | Raise e => ret (false, MsgUrlFailed e)
   | Ret download_url_data =>
   c <- read_cancelled ;;
   if c : bool then ret (false, MsgCancelled) else
   let filename := output_name title (length pages) page part_name in
   let final_output := path_join output_dir (String.append filename ".mp4") in
   let single :=
     match default [] (data_durl download_url_data) with
     | [] => ret (false, MsgNoStream)
     | first :: _ =>
         success <- _download_stream_with_progress (http s) (durl_url first) final_output ;;
         if negb success then ret (false, MsgVideoFailed)
         else finish final_output
     end in
   match data_dash download_url_data with
   | Some dash_data =>
     if dash_truthy dash_data then
       let video_stream := _select_video_stream quality dash_data in
       let audio_stream := select_best_audio_stream dash_data in
       match video_stream with
       | None => ret (false, MsgNoStream)
       | Some video_stream =>
         let video_url := get_stream_url video_stream in
         let audio_url :=
           match audio_stream with
           | Some a => if stream_truthy a then get_stream_url a else None
           | None => None
           end in
         if negb (str_truthy video_url) then ret (false, MsgNoVideoUrl) else
         let temp_video := path_join (CACHE_DIR s) (String.append (uuid4 s 0) ".m4v") in
         let temp_audio := path_join (CACHE_DIR s) (String.append (uuid4 s 1) ".m4a") in
         success <- _download_stream_with_progress (http s) video_url temp_video ;;
         if negb success then
           unlink temp_video ;;; ret (false, MsgVideoStreamFailed)
         else
         c <- read_cancelled ;;
         if c : bool then unlink temp_video ;;; ret (false, MsgCancelled) else
         if str_truthy audio_url then
           success <- _download_stream_with_progress (http s) audio_url temp_audio ;;
           if negb success then
             unlink temp_video ;;; unlink temp_audio ;;;
             ret (false, MsgAudioStreamFailed)
           else
           c <- read_cancelled ;;
           if c : bool then
             unlink temp_video ;;; unlink temp_audio ;;; ret (false, MsgCancelled)
           else
           merged <- merge_video_audio (tool s) temp_video temp_audio final_output ;;
           if negb (fst merged) then ret (false, MsgMergeFailed)
           else finish final_output
         else
           rename temp_video final_output ;;; finish final_output
       end
     else single
   | None => single
   end
   end
   end)%job.

(** [DownloadThread.run]: what [finished] is emitted with. *)
Definition run (s : Service) (url output_dir : string) (page quality : Z)
  : M (bool * message) :=
  try_except (_download s url output_dir page quality)
             (fun e => ret (false, MsgError e)).

(** What [MainWindow._on_download_finished] shows: the completion box, the
    failure status with its warning box, or, when the message has the word
    for cancelling in it, the failure status without the warning. *)
Inductive shown : Type :=
| ShownCompleted
| ShownCancelled
| ShownFailed.

Definition CANCEL_WORD : string := "取消".

Definition mentions_cancel (m : message) : bool :=
  match m with
  | MsgCancelled => true
  | MsgCannotParse url => Py.contains CANCEL_WORD url
  | MsgInfoFailed e | MsgUrlFailed e | MsgError e => Py.contains CANCEL_WORD e
  | MsgDone path _ => Py.contains CANCEL_WORD path
  | _ => false
  end.

Definition _on_download_finished (success : bool) (m : message) : shown :=
  if success then ShownCompleted
  else if mentions_cancel m then ShownCancelled
  else ShownFailed.

(** [download_video_async]; what it prints is left out. *)
Definition download_video_async (s : Service) (url output_dir : string) (page : Z)
  : M bool :=
  (let '(bvid, aid, url_page) := parse_video_url url in
   if negb (str_truthy bvid) && negb (int_truthy aid) then ret false else
   let page := effective_page page url_page in
   _ <- lift (new_video s) ;;
   match get_info s with
   | Raise e => ret false
   | Ret info =>
   let title := default UNKNOWN_TITLE (info_title info) in
   let pages := default [] (info_pages info) in
   if Z.ltb (Z.of_nat (length pages)) page then ret false else
   page_info <- lift (getitem pages (page - 1)) ;;
   let part_name := default (String.append "P" (pretty page)) (page_part page_info) in
   match get_download_url s (page - 1) with
   | Raise e => ret false
   | Ret download_url_data =>
   let filename := output_name title (length pages) page part_name in
   let final_output := path_join output_dir (String.append filename ".mp4") in
   let single :=
     match default [] (data_durl download_url_data) with
     | [] => ret false
     | first :: _ =>
         success <- download_stream (http s) (durl_url first) final_output ;;
         ret success
     end in
   match data_dash download_url_data with
   | Some dash_data =>
     if dash_truthy dash_data then
       let video_stream := select_best_video_stream dash_data in
       let audio_stream := select_best_audio_stream dash_data in
       match video_stream with
       | None => ret false
       | Some video_stream =>
         let video_url := get_stream_url video_stream in
         let audio_url :=
           match audio_stream with
           | Some a => if stream_truthy a then get_stream_url a else None
           | None => None
           end in
         if negb (str_truthy video_url) then ret false else
         let temp_video := path_join (CACHE_DIR s) (String.append (uuid4 s 0) ".m4v") in
         let temp_audio := path_join (CACHE_DIR s) (String.append (uuid4 s 1) ".m4a") in
         success <- download_stream (http s) video_url temp_video ;;
         if negb success then ret false else
         if str_truthy audio_url then
           success <- download_stream (http s) audio_url temp_audio ;;
           if negb success then unlink temp_video ;;; ret false
           else
           merged <- merge_video_audio (tool s) temp_video temp_audio final_output ;;
           if negb (fst merged) then ret false else ret true
         else
           rename temp_video final_output ;;; ret true
       end
     else single
   | None => single
   end
   end
   end)%job.

(** ** Vocabulary of the properties *)

(** The result is ascending: no element is smaller than one before it. *)
Definition ascending {A K} (key : A -> K) (ltb : K -> K -> bool) (l : list A)
  : Prop :=
  Sorted (fun a b => ltb (key b) (key a) = false) l.

Definition lex_le (a b : nat * nat) : Prop :=
  (fst a < fst b)%nat \/ (fst a = fst b /\ (snd a <= snd b)%nat).

Definition known_quality (s : Stream) : Prop :=
  is_Some (Py.index (default 0 (stream_id s)) VIDEO_QUALITY_PRIORITY).

Definition known_codec (s : Stream) : Prop :=
  is_Some (Py.first_index
             (fun codec => Py.contains codec (Py.lower (default "" (stream_codecs s))))
             CODEC_PRIORITY).






Definition legal (c : ascii) : bool := negb (illegal_chars c).

(** Taking the illegal characters out, as opposed to replacing them. *)
Fixpoint remove_illegal (s : string) : string :=
  match s with
  | EmptyString => EmptyString
  | String c r =>
      if illegal_chars c then remove_illegal r else String c (remove_illegal r)
  end.

(** *** Sample transports *)



(** Gives one byte of ten, then the connection breaks. *)
Definition http_breaks (_ : option string) : Session :=
  mkSession (Ret 10) [Chunk [Byte.x61]; ChunkRaises "connection reset"].

Definition empty_world : World := mkWorld ∅ None.

(** *** Sample jobs *)

Definition sample_video : Stream :=
  mkStream (Some 80) (Some "avc1.640032") (Some "v") None None None.

Definition sample_audio : Stream :=
  mkStream (Some 30280) (Some "mp4a.40.2") (Some "a") None None None.

Definition sample_dash : DashData :=
  mkDash (Some [sample_video]) (Some [sample_audio]) None None.

Definition sample_tool : Tool :=
  mkTool (VersionExited 0) (fun _ _ => MergeExited 0 "" (Some [Byte.x6d])).

(** One page, separate video and audio; the video has six bytes in two
    chunks, the audio two bytes. *)
Definition sample_service (http : option string -> Session) : Service :=
  mkService (Ret tt)
    (Ret (mkInfo (Some "clip") (Some [mkPage (Some "one")])))
    (fun _ => Ret (mkUrlData (Some sample_dash) None))
    http sample_tool "cache"
    (fun n => String.append "u" (pretty n)).

Definition http_good (url : option string) : Session :=
  if str_truthy url && String.eqb (default "" url) "v" then
    mkSession (Ret 6) [Chunk [Byte.x61; Byte.x62; Byte.x63];
                       Chunk [Byte.x64; Byte.x65; Byte.x66]]
  else mkSession (Ret 2) [Chunk [Byte.x67; Byte.x68]].

(** The video is fine, the audio breaks after one byte. *)
Definition http_audio_breaks (url : option string) : Session :=
  if str_truthy url && String.eqb (default "" url) "v" then http_good url
  else http_breaks url.

(** One page, a single combined stream. *)
Definition single_service (http : option string -> Session) : Service :=
  mkService (Ret tt)
    (Ret (mkInfo (Some "clip") (Some [mkPage (Some "one")])))
    (fun _ => Ret (mkUrlData None (Some [mkDurl (Some "v")])))
    http sample_tool "cache"
    (fun n => String.append "u" (pretty n)).

(** Four video streams: 1080P in AVC and in HEVC, and 720P in HEVC twice
    over, the two alike but for the address. *)
Definition ranked_dash : DashData :=
  mkDash
    (Some [mkStream (Some 80) (Some "avc1.640032") (Some "a1") None None None;
           mkStream (Some 64) (Some "hev1.1.6.L120.90") (Some "h1") None None None;
           mkStream (Some 80) (Some "HEV1.1.6.L120.90") (Some "h2") None None None;
           mkStream (Some 64) (Some "hev1.1.6.L120.90") (Some "h3") None None None])
    None None None.

(** The two temporary paths of a job. *)
Definition temp_video_path (s : Service) : string :=
  path_join (CACHE_DIR s) (String.append (uuid4 s 0) ".m4v").

Definition temp_audio_path (s : Service) : string :=
  path_join (CACHE_DIR s) (String.append (uuid4 s 1) ".m4a").

(** *** Sample audio manifests *)

Definition audio_of (id : option Z) (url : string) : Stream :=
  mkStream id None (Some url) None None None.

(** Two standard tracks and a flac track that carries no id. *)
Definition flac_dash : DashData :=
  mkDash None (Some [audio_of (Some 30216) "a64"; audio_of (Some 30280) "a192"])
         (Some (mkFlac (Some (audio_of None "flac")))) None.

(** A standard track and a dolby track, both with id 30250. *)
Definition tie_dash : DashData :=
  mkDash None (Some [audio_of (Some 30250) "std"]) None
         (Some (mkDolby (Some [audio_of (Some 30250) "dolby"]))).

(** Two tracks with ids that are not in the table. *)
Definition unranked_dash : DashData :=
  mkDash None (Some [audio_of (Some 1) "x"; audio_of (Some 2) "y"]) None None.

(** A video and an audio file waiting to be merged. *)
Definition two_files : World :=
  mkWorld (<["v.m4v" := [Byte.x61]]> (<["a.m4a" := [Byte.x62]]> ∅)) None.


(** *** Further vocabulary *)


(** ** What the window offers ([FetchInfoThread._fetch_info], [config.py]) *)

(** [VIDEO_QUALITY_NAME] of [config.py]. *)
Definition VIDEO_QUALITY_NAME : gmap Z string :=
  list_to_map
    [(6, "240P 极速"); (16, "360P 流畅"); (32, "480P 清晰"); (64, "720P 高清");
     (74, "720P60 高帧率"); (80, "1080P 高清"); (112, "1080P+ 高码率");
     (116, "1080P60 高帧率"); (120, "4K 超清"); (125, "HDR 真彩色");
     (126, "杜比视界"); (127, "8K 超高清")].

(** [VIDEO_QUALITY_NAME.get(qid, f"qn={qid}")]. *)
Definition quality_name (qid : Z) : string :=
  default (String.append "qn=" (pretty qid)) (VIDEO_QUALITY_NAME !! qid).

(** Body of [for stream in video_streams], on
    [(quality_ids, available_qualities)]. *)
Definition collect_quality (acc : gset Z * list (Z * string)) (stream : Stream)
  : gset Z * list (Z * string) :=
  let qid := default 0 (stream_id stream) in
  if decide (qid ∈ fst acc) then acc
  else ({[qid]} ∪ fst acc, (snd acc ++ [(qid, quality_name qid)])%list).

(** The key of [available_qualities.sort]. *)
Definition quality_sort_key (x : Z * string) : nat :=
  match Py.index (fst x) VIDEO_QUALITY_PRIORITY with
  | Some i => i
  | None => 999%nat
  end.

(** The list [available_qualities] that [_fetch_info] builds from
    [download_url_data.get("dash")]. *)
Definition available_qualities (dash : option DashData) : list (Z * string) :=
  match dash with
  | Some dash_data =>
      if dash_truthy dash_data then
        let video_streams := default [] (dash_video dash_data) in
        let collected := fold_left collect_quality video_streams (∅, []) in
        sorted_by quality_sort_key Nat.ltb (snd collected)
      else []
  | None => []
  end.

(** [enumerate(xs)] from a starting index. *)
Fixpoint enumerate_from {A} (i : nat) (xs : list A) : list (nat * A) :=
  match xs with
  | [] => []
  | x :: r => (i, x) :: enumerate_from (S i) r
  end.

(** The ["pages"] entry: [[(i+1, p.get("part", f"P{i+1}")) for i, p in
    enumerate(pages)]]. *)
Definition page_entries (pages : list PageInfo) : list (Z * string) :=
  map (fun ip : nat * PageInfo =>
         let n := Z.of_nat (fst ip) + 1 in
         (n, default (String.append "P" (pretty n)) (page_part (snd ip))))
      (enumerate_from 0 pages).

(** The stream ids of a manifest, as [_fetch_info] reads them. *)
Definition stream_qid (s : Stream) : Z := default 0 (stream_id s).

(** What the loop over the video streams keeps true. *)
Definition collect_inv (seen : list Stream) (acc : gset Z * list (Z * string)) : Prop :=
  (forall q, q ∈ fst acc <-> In q (map fst (snd acc))) /\
  (forall q, In q (map fst (snd acc)) <-> exists s, In s seen /\ stream_qid s = q) /\
  NoDup (map fst (snd acc)) /\
  (forall q n, In (q, n) (snd acc) -> n = quality_name q).



(** What holds of the progress reports [pr] when [current] bytes have been
    received. *)
Definition progress_inv (total current : Z) (pr : list (Z * Z)) : Prop :=
  Forall (fun p => snd p = total /\ 0 < fst p <= current) pr /\
  StronglySorted Z.lt (map fst pr) /\
  Forall (fun p => fst p < total) (removelast pr) /\
  (forall p, last pr = Some p -> fst p = current).

(** The outcome [r] and world [w1] of the command-line job, read as an
    outcome [g] of the thread's job: the same success flag (and, on
    success, the same world), or the same exception in the same world. *)
Definition agrees (r : result bool) (w1 : World) (g : result (bool * message) * World)
  : Prop :=
  match r with
  | Ret b => exists m w2, g = (Ret (b, m), w2) /\ (b = true -> w2 = w1)
  | Raise e => g = (Raise e, w1)
  end.

(** ** Fetching the information shown ([FetchInfoThread]) *)










(** ** Vocabulary of the parser's properties *)

(** Text made of ASCII characters only. *)
Definition ascii_text (s : string) : bool := PyStr.all_chars PyLib.is_ascii s.

(** The test of a bare BV id: [url.upper().startswith("BV") and
    len(url) <= 12]. *)
Definition bare_bvid (u : string) : bool :=
  Py.startswith (Py.upper u) "BV" && Z.leb (PyStr.len u) 12.

(** The id the two searches find in the path of a URL, the BV id first. *)
Definition id_in_path (path : string) : option (option string * option Z) :=
  match PyLib.search_bv path with
  | Some bvid => Some (Some bvid, None)
  | None =>
      match PyLib.search_av path with
      | Some digits => Some (None, Some (PyLib.digits_value 0 digits))
      | None => None
      end
  end.
(** * Properties *)

(** ** Facts about the built-ins *)

Module PyFacts.
Import Py.

Lemma first_index_from_Some {A} (p : A -> bool) xs i j :
  first_index_from i p xs = Some j ->
  (i <= j)%nat /\
  exists x, xs !! (j - i)%nat = Some x /\ p x = true /\
    forall k y, (k < j - i)%nat -> xs !! k = Some y -> p y = false.
Proof.
  revert i. induction xs as [|x r IH]; simpl; intros i H; [discriminate|].
  destruct (p x) eqn:E.
  - injection H as <-. split; [lia|]. exists x. rewrite Nat.sub_diag.
    repeat split; auto. intros k y Hk. lia.
  - apply IH in H as (Hle & y & Hy & Hp & Hbefore). split; [lia|].
    exists y. replace (j - i)%nat with (S (j - S i)) by lia.
    repeat split; auto. intros [|k] z Hk Hz; simpl in Hz.
    + congruence.
    + apply (Hbefore k); [lia|exact Hz].
Qed.

Lemma first_index_from_None {A} (p : A -> bool) xs i :
  first_index_from i p xs = None -> Forall (fun x => p x = false) xs.
Proof.
  revert i. induction xs as [|x r IH]; simpl; intros i H; [constructor|].
  destruct (p x) eqn:E; [discriminate|]. constructor; eauto.
Qed.

Lemma first_index_Some {A} (p : A -> bool) xs j :
  first_index p xs = Some j ->
  (j < length xs)%nat /\
  exists x, xs !! j = Some x /\ p x = true /\
    forall k y, (k < j)%nat -> xs !! k = Some y -> p y = false.
Proof.
  intros H. apply first_index_from_Some in H as (_ & x & Hx & Hp & Hb).
  rewrite Nat.sub_0_r in *. split; [now apply lookup_lt_Some in Hx|eauto].
Qed.

Lemma index_Some x xs j :
  index x xs = Some j -> (j < length xs)%nat /\ xs !! j = Some x.
Proof.
  intros H. apply first_index_Some in H as (Hlt & y & Hy & Hp & _).
  apply Z.eqb_eq in Hp. subst. auto.
Qed.

Lemma index_None x xs : index x xs = None -> ~ In x xs.
Proof.
  intros H Hin. apply first_index_from_None in H.
  rewrite Forall_forall in H. apply list_elem_of_In in Hin.
  specialize (H _ Hin). rewrite Z.eqb_refl in H. discriminate.
Qed.

End PyFacts.

(** ** Facts about stable sorting *)

Section StableSortFacts.
Context {A K : Type}.
Variable key : A -> K.
Variable ltb : K -> K -> bool.

Local Abbreviation insert_by := (insert_by key ltb).
Local Abbreviation sorted_by := (sorted_by key ltb).
Local Abbreviation ascending := (ascending key ltb).

Lemma insert_by_perm x l : Permutation (x :: l) (insert_by x l).
Proof.
  induction l as [|y r IH]; simpl; [reflexivity|].
  destruct (ltb (key y) (key x)); [|reflexivity].
  rewrite perm_swap. now constructor.
Qed.

Lemma sorted_by_perm l : Permutation l (sorted_by l).
Proof.
  induction l as [|x r IH]; simpl; [constructor|].
  etransitivity; [|apply insert_by_perm]. now constructor.
Qed.

Lemma sorted_by_nil_inv l : sorted_by l = [] -> l = [].
Proof.
  intros H. apply Permutation_nil. rewrite <- H. symmetry. apply sorted_by_perm.
Qed.

Hypothesis ltb_irrefl : forall a, ltb a a = false.
Hypothesis ltb_trans :
  forall a b c, ltb a b = true -> ltb b c = true -> ltb a c = true.
Hypothesis ltb_neg_trans :
  forall a b c, ltb a b = false -> ltb b c = false -> ltb a c = false.

Lemma ltb_asym a b : ltb a b = true -> ltb b a = false.
Proof.
  intros H. destruct (ltb b a) eqn:E; [|reflexivity].
  rewrite <- (ltb_irrefl a). symmetry. eauto.
Qed.

Lemma insert_by_ascending x l : ascending l -> ascending (insert_by x l).
Proof.
  unfold ascending. induction l as [|y r IH]; simpl; intros Hs.
  - repeat constructor.
  - destruct (ltb (key y) (key x)) eqn:E.
    + inversion Hs as [|? ? Hr Hhd]; subst. constructor; [now apply IH|].
      destruct r as [|z r']; simpl.
      * constructor. now apply ltb_asym.
      * destruct (ltb (key z) (key x)).
        -- inversion Hhd; subst. now constructor.
        -- constructor. now apply ltb_asym.
    + constructor; [exact Hs|]. now constructor.
Qed.

Lemma sorted_by_ascending l : ascending (sorted_by l).
Proof.
  induction l as [|x r IH]; simpl; [constructor|].
  now apply insert_by_ascending.
Qed.

(** The head of the sorted list is the first element of the input among
    those of least key. *)
Lemma sorted_by_head l :
  l <> [] ->
  exists l1 s l2,
    l = l1 ++ s :: l2 /\
    hd_error (sorted_by l) = Some s /\
    Forall (fun y => ltb (key s) (key y) = true) l1 /\
    Forall (fun y => ltb (key y) (key s) = false) l2.
Proof.
  induction l as [|x r IH]; [congruence|]. intros _.
  destruct r as [|x' r'].
  - exists [], x, []. simpl. repeat split; constructor.
  - destruct IH as (l1 & s & l2 & Hl & Hhd & H1 & H2); [congruence|].
    change (sorted_by (x :: x' :: r')) with (insert_by x (sorted_by (x' :: r'))).
    destruct (sorted_by (x' :: r')) as [|h t] eqn:Es; [discriminate|].
    simpl in Hhd. injection Hhd as ->. simpl.
    destruct (ltb (key s) (key x)) eqn:E.
    + exists (x :: l1), s, l2. rewrite Hl. repeat split; auto.
    + exists [], x, (x' :: r'). repeat split; auto.
      rewrite Hl. apply Forall_app. split.
      * eapply Forall_impl; [exact H1|]. simpl. intros y Hy.
        destruct (ltb (key y) (key x)) eqn:E'; [|reflexivity].
        rewrite (ltb_trans _ _ _ Hy E') in E. discriminate.
      * constructor; [exact E|].
        eapply Forall_impl; [exact H2|]. simpl. intros y Hy. eauto.
Qed.

End StableSortFacts.

(** ** Video selection *)

Section VideoSelection.

Lemma pair_ltb_true a b :
  pair_ltb a b = true <->
  (fst a < fst b)%nat \/ (fst a = fst b /\ (snd a < snd b)%nat).
Proof.
  unfold pair_ltb. rewrite orb_true_iff, andb_true_iff.
  rewrite !Nat.ltb_lt, Nat.eqb_eq. tauto.
Qed.

Lemma pair_ltb_false a b : pair_ltb b a = false <-> lex_le a b.
Proof.
  unfold lex_le. destruct (pair_ltb b a) eqn:E.
  - apply pair_ltb_true in E. split; [discriminate|lia].
  - split; [intros _|reflexivity].
    assert (~ ((fst b < fst a)%nat \/ (fst b = fst a /\ (snd b < snd a)%nat))) as H.
    { rewrite <- pair_ltb_true. congruence. }
    lia.
Qed.

Lemma pair_ltb_irrefl a : pair_ltb a a = false.
Proof. apply pair_ltb_false. unfold lex_le. lia. Qed.

Lemma pair_ltb_trans a b c :
  pair_ltb a b = true -> pair_ltb b c = true -> pair_ltb a c = true.
Proof. rewrite !pair_ltb_true. lia. Qed.

Lemma pair_ltb_neg_trans a b c :
  pair_ltb a b = false -> pair_ltb b c = false -> pair_ltb a c = false.
Proof. rewrite !pair_ltb_false. unfold lex_le. lia. Qed.

Lemma nat_ltb_irrefl a : Nat.ltb a a = false.
Proof. apply Nat.ltb_irrefl. Qed.

Lemma nat_ltb_trans a b c :
  Nat.ltb a b = true -> Nat.ltb b c = true -> Nat.ltb a c = true.
Proof. rewrite !Nat.ltb_lt. lia. Qed.

Lemma nat_ltb_neg_trans a b c :
  Nat.ltb a b = false -> Nat.ltb b c = false -> Nat.ltb a c = false.
Proof. rewrite !Nat.ltb_ge. lia. Qed.

Lemma quality_rank_known s :
  known_quality s ->
  (quality_rank s < length VIDEO_QUALITY_PRIORITY)%nat /\
  VIDEO_QUALITY_PRIORITY !! quality_rank s = Some (default 0 (stream_id s)).
Proof.
  unfold known_quality, quality_rank. intros [i Hi]. rewrite Hi.
  now apply PyFacts.index_Some.
Qed.

Lemma quality_rank_unknown s :
  ~ known_quality s ->
  quality_rank s = 999%nat /\ ~ In (default 0 (stream_id s)) VIDEO_QUALITY_PRIORITY.
Proof.
  unfold known_quality, quality_rank. intros H.
  destruct (Py.index _ _) eqn:E; [destruct H; eauto|].
  split; [reflexivity|now apply PyFacts.index_None].
Qed.

Lemma codec_rank_known s :
  known_codec s ->
  (codec_rank s < length CODEC_PRIORITY)%nat /\
  exists codec,
    CODEC_PRIORITY !! codec_rank s = Some codec /\
    Py.contains codec (Py.lower (default "" (stream_codecs s))) = true /\
    forall k c, (k < codec_rank s)%nat -> CODEC_PRIORITY !! k = Some c ->
      Py.contains c (Py.lower (default "" (stream_codecs s))) = false.
Proof.
  unfold known_codec, codec_rank. intros [i Hi]. rewrite Hi.
  now apply PyFacts.first_index_Some in Hi.
Qed.

Lemma codec_rank_unknown s :
  ~ known_codec s ->
  codec_rank s = 999%nat /\
  Forall (fun c => Py.contains c (Py.lower (default "" (stream_codecs s))) = false)
         CODEC_PRIORITY.
Proof.
  unfold known_codec, codec_rank. intros H.
  destruct (Py.first_index _ _) eqn:E; [destruct H; eauto|].
  split; [reflexivity|now apply PyFacts.first_index_from_None in E].
Qed.

Lemma known_quality_dec s : known_quality s \/ ~ known_quality s.
Proof.
  unfold known_quality. destruct (Py.index _ _); [left; eauto|right].
  intros [? ?]; discriminate.
Qed.

Lemma known_codec_dec s : known_codec s \/ ~ known_codec s.
Proof.
  unfold known_codec. destruct (Py.first_index _ _); [left; eauto|right].
  intros [? ?]; discriminate.
Qed.

(** The stream automatic selection returns, with its place in the list. *)
Lemma select_best_video_stream_head d :
  default [] (dash_video d) <> [] ->
  exists l1 s l2,
    default [] (dash_video d) = (l1 ++ s :: l2)%list /\
    select_best_video_stream d = Some s /\
    Forall (fun y => pair_ltb (sort_key s) (sort_key y) = true) l1 /\
    Forall (fun y => pair_ltb (sort_key y) (sort_key s) = false) l2.
Proof.
  intros Hne. unfold select_best_video_stream.
  destruct (sorted_by_head sort_key pair_ltb pair_ltb_trans pair_ltb_neg_trans
              (default [] (dash_video d)) Hne) as (l1 & s & l2 & Hl & Hhd & H1 & H2).
  exists l1, s, l2. destruct (default [] (dash_video d)); [congruence|]. auto.
Qed.

(** C4: automatic video selection returns a stream of least
    [(quality_rank, codec_rank)] in lexicographic order, the ranks being
    the index in the priority table or 999, which is above every index; so
    a stream of unknown quality id is not returned when one of known id is
    there, nor, at equal quality rank, one of unknown codec when one of
    known codec is there; an empty or absent list gives [None]. *)
Theorem select_best_video_stream_lex_min (d : DashData) :
  match default [] (dash_video d) with
  | [] => select_best_video_stream d = None
  | vs =>
    exists s,
      select_best_video_stream d = Some s /\ In s vs /\
      (forall s', In s' vs -> lex_le (sort_key s) (sort_key s')) /\
      (forall s', In s' vs -> known_quality s' -> known_quality s) /\
      (forall s', In s' vs -> quality_rank s' = quality_rank s ->
                  known_codec s' -> known_codec s)
  end /\
  (forall s, known_quality s ->
     (quality_rank s < length VIDEO_QUALITY_PRIORITY)%nat /\
     VIDEO_QUALITY_PRIORITY !! quality_rank s = Some (default 0 (stream_id s))) /\
  (forall s, ~ known_quality s -> quality_rank s = 999%nat) /\
  (forall s, known_codec s ->
     (codec_rank s < length CODEC_PRIORITY)%nat /\
     exists codec,
       CODEC_PRIORITY !! codec_rank s = Some codec /\
       Py.contains codec (Py.lower (default "" (stream_codecs s))) = true /\
       forall k c, (k < codec_rank s)%nat -> CODEC_PRIORITY !! k = Some c ->
         Py.contains c (Py.lower (default "" (stream_codecs s))) = false) /\
  (forall s, ~ known_codec s -> codec_rank s = 999%nat) /\
  (length VIDEO_QUALITY_PRIORITY < 999)%nat /\
  (length CODEC_PRIORITY < 999)%nat.
Proof.
  split;
    [|split; [exact quality_rank_known|];
      split; [intros s Hs; now apply quality_rank_unknown|];
      split; [exact codec_rank_known|];
      split; [intros s Hs; now apply codec_rank_unknown|];
      simpl; lia].
  destruct (default [] (dash_video d)) as [|v0 vr] eqn:Evs.
  - unfold select_best_video_stream. now rewrite Evs.
  - destruct (select_best_video_stream_head d) as (l1 & s & l2 & Hl & Hsel & H1 & H2).
    { rewrite Evs. discriminate. }
    rewrite Evs in Hl. rewrite Hl.
    assert (forall s', In s' (l1 ++ s :: l2)%list -> lex_le (sort_key s) (sort_key s'))
      as Hmin.
    { intros s' Hin. apply pair_ltb_false. apply in_app_or in Hin as [Hin|[<-|Hin]].
      - rewrite Forall_forall in H1. apply list_elem_of_In in Hin.
        specialize (H1 _ Hin). apply pair_ltb_true in H1.
        apply pair_ltb_false. unfold lex_le. lia.
      - apply pair_ltb_irrefl.
      - rewrite Forall_forall in H2. apply list_elem_of_In in Hin. auto. }
    exists s. split; [exact Hsel|]. split; [apply in_or_app; right; now left|].
    split; [exact Hmin|]. split.
    + intros s' Hin Hk. specialize (Hmin _ Hin). unfold lex_le, sort_key in Hmin.
      simpl in Hmin. destruct (known_quality_dec s) as [|Hn]; [assumption|].
      apply quality_rank_unknown in Hn as [Hn _].
      apply quality_rank_known in Hk as [Hk _]. simpl in Hk. lia.
    + intros s' Hin Heq Hk. specialize (Hmin _ Hin). unfold lex_le, sort_key in Hmin.
      simpl in Hmin. destruct (known_codec_dec s) as [|Hn]; [assumption|].
      apply codec_rank_unknown in Hn as [Hn _].
      apply codec_rank_known in Hk as [Hk _]. simpl in Hk. lia.
Qed.

Lemma filter_split {A} (p : A -> bool) (l : list A) m1 s m2 :
  List.filter p l = (m1 ++ s :: m2)%list ->
  exists l1 l2,
    l = (l1 ++ s :: l2)%list /\ List.filter p l1 = m1 /\ List.filter p l2 = m2.
Proof.
  revert m1. induction l as [|x r IH]; simpl; intros m1 H.
  - destruct m1; discriminate.
  - destruct (p x) eqn:E.
    + destruct m1 as [|y m1']; simpl in H; injection H as Hx H; subst.
      * exists [], r. auto.
      * destruct (IH _ H) as (l1 & l2 & -> & <- & <-).
        exists (y :: l1), l2. simpl. rewrite E. auto.
    + destruct (IH _ H) as (l1 & l2 & -> & <- & <-).
      exists (x :: l1), l2. simpl. rewrite E. auto.
Qed.

Lemma id_is_true quality s : id_is quality s = true <-> stream_id s = Some quality.
Proof.
  unfold id_is. destruct (stream_id s) as [i|]; [|split; discriminate].
  rewrite Z.eqb_eq. split; congruence.
Qed.

(** The stream the specific-quality branch returns, with its place in the
    list of all video streams. *)
Lemma select_video_stream_head quality d :
  quality <> 0 ->
  List.filter (id_is quality) (default [] (dash_video d)) <> [] ->
  exists l1 s l2,
    default [] (dash_video d) = (l1 ++ s :: l2)%list /\
    _select_video_stream quality d = Some s /\
    id_is quality s = true /\
    Forall (fun y => id_is quality y = true -> (codec_rank s < codec_rank y)%nat) l1 /\
    Forall (fun y => id_is quality y = true -> (codec_rank s <= codec_rank y)%nat) l2.
Proof.
  intros Hq Hne. unfold _select_video_stream.
  apply Z.eqb_neq in Hq. rewrite Hq.
  destruct (sorted_by_head codec_rank Nat.ltb nat_ltb_trans nat_ltb_neg_trans
              _ Hne) as (m1 & s & m2 & Hm & Hhd & H1 & H2).
  destruct (filter_split _ _ _ _ _ Hm) as (l1 & l2 & Hl & Hf1 & Hf2).
  exists l1, s, l2. split; [exact Hl|]. split.
  { destruct (List.filter _ _); [congruence|exact Hhd]. }
  split.
  { assert (In s (List.filter (id_is quality) (default [] (dash_video d)))) as Hin.
    { rewrite Hm. apply in_or_app. right. now left. }
    now apply filter_In in Hin. }
  split; apply Forall_forall; intros y Hy Hid; apply list_elem_of_In in Hy.
  - assert (In y m1) as Hin by (rewrite <- Hf1; apply filter_In; auto).
    rewrite Forall_forall in H1. apply list_elem_of_In in Hin.
    now apply Nat.ltb_lt, H1.
  - assert (In y m2) as Hin by (rewrite <- Hf2; apply filter_In; auto).
    rewrite Forall_forall in H2. apply list_elem_of_In in Hin.
    now apply Nat.ltb_ge, H2.
Qed.


(** C10: ties go to the stream that comes first in the manifest.  In
    automatic selection no stream in front of the returned one has its
    [(quality_rank, codec_rank)] pair (all of them rank strictly worse), and
    none behind it ranks better; with a requested quality that is present,
    the same holds for the codec rank among the streams of that quality. *)
Theorem video_selection_earliest_of_ties (d : DashData) (quality : Z) :
  default [] (dash_video d) <> [] ->
  (exists l1 s l2,
     default [] (dash_video d) = (l1 ++ s :: l2)%list /\
     select_best_video_stream d = Some s /\
     Forall (fun y => sort_key y <> sort_key s /\
                      lex_le (sort_key s) (sort_key y)) l1 /\
     Forall (fun y => lex_le (sort_key s) (sort_key y)) l2) /\
  (quality <> 0 ->
   List.filter (id_is quality) (default [] (dash_video d)) <> [] ->
   exists l1 s l2,
     default [] (dash_video d) = (l1 ++ s :: l2)%list /\
     _select_video_stream quality d = Some s /\
     stream_id s = Some quality /\
     Forall (fun y => stream_id y = Some quality ->
                      codec_rank y <> codec_rank s /\
                      (codec_rank s <= codec_rank y)%nat) l1 /\
     Forall (fun y => stream_id y = Some quality ->
                      (codec_rank s <= codec_rank y)%nat) l2).
Proof.
  intros Hne. split.
  - destruct (select_best_video_stream_head d Hne) as (l1 & s & l2 & Hl & Hsel & H1 & H2).
    exists l1, s, l2. repeat split; auto.
    + eapply Forall_impl; [exact H1|]. simpl. intros y Hy.
      apply pair_ltb_true in Hy. unfold lex_le. split; [|lia].
      intros Heq. rewrite Heq in Hy. lia.
    + eapply Forall_impl; [exact H2|]. simpl. intros y Hy.
      now apply pair_ltb_false.
  - intros Hq Hm.
    destruct (select_video_stream_head quality d Hq Hm)
      as (l1 & s & l2 & Hl & Hsel & Hid & H1 & H2).
    exists l1, s, l2. split; [exact Hl|]. split; [exact Hsel|].
    split; [now apply id_is_true|]. split.
    + eapply Forall_impl; [exact H1|]. simpl. intros y Hy Hid'.
      apply id_is_true in Hid'. specialize (Hy Hid'). lia.
    + eapply Forall_impl; [exact H2|]. simpl. intros y Hy Hid'.
      apply id_is_true in Hid'. auto.
Qed.

Example ranked_dash_auto :
  select_best_video_stream ranked_dash
  = Some (mkStream (Some 80) (Some "HEV1.1.6.L120.90") (Some "h2") None None None).
Proof. reflexivity. Qed.

Example ranked_dash_720 :
  _select_video_stream 64 ranked_dash
  = Some (mkStream (Some 64) (Some "hev1.1.6.L120.90") (Some "h1") None None None).
Proof. reflexivity. Qed.

Example ranked_dash_fallback :
  _select_video_stream 120 ranked_dash = select_best_video_stream ranked_dash.
Proof. reflexivity. Qed.


Lemma video_selection_earliest_of_ties_witness :
  default [] (dash_video ranked_dash) <> [] /\
  exists l1 s l2,
    default [] (dash_video ranked_dash) = (l1 ++ s :: l2)%list /\
    select_best_video_stream ranked_dash = Some s /\
    Forall (fun y => sort_key y <> sort_key s /\ lex_le (sort_key s) (sort_key y)) l1 /\
    Forall (fun y => lex_le (sort_key s) (sort_key y)) l2.
Proof.
  assert (default [] (dash_video ranked_dash) <> []) as Hne by (simpl; discriminate).
  split; [exact Hne|].
  exact (proj1 (video_selection_earliest_of_ties ranked_dash 64 Hne)).
Defined.

End VideoSelection.

(** ** Audio selection *)

Section AudioSelection.

















Example flac_preferred :
  select_best_audio_stream flac_dash = Some (audio_of None "flac").
Proof. reflexivity. Qed.

Example tie_keeps_standard :
  select_best_audio_stream tie_dash = Some (audio_of (Some 30250) "std").
Proof. reflexivity. Qed.

Example first_unranked_kept :
  select_best_audio_stream unranked_dash = Some (audio_of (Some 1) "x").
Proof. reflexivity. Qed.

Example no_audio : select_best_audio_stream (mkDash None None None None) = None.
Proof. reflexivity. Qed.

End AudioSelection.

(** ** File names *)

Section Sanitize.

Example sanitize_plain : sanitize_filename_default "video title" = "video title".
Proof. reflexivity. Qed.

Example sanitize_dots : sanitize_filename_default " ..name. " = "name".
Proof. reflexivity. Qed.

Example sanitize_only_dots : sanitize_filename_default " .. " = "video".
Proof. reflexivity. Qed.

(** Length and cut count characters, not bytes. *)
Example sanitize_counts_characters :
  PyStr.len "视频标题合集" = 6 /\
  sanitize_filename "视频标题合集" 4 = "视频标题" /\
  sanitize_filename_default " .视频: 标题. " = "视频_ 标题".
Proof. repeat split. Qed.

(** Cutting comes after trimming: the cut may end on a space. *)
Example sanitize_cut_after_trim : sanitize_filename "ab cd" 3 = "ab ".
Proof. reflexivity. Qed.

Lemma all_chars_lstrip p q s :
  PyStr.all_chars p s = true -> PyStr.all_chars p (PyStr.lstrip q s) = true.
Proof.
  induction s as [|c r IH]; simpl; [auto|]. intros H.
  destruct (q c); [|exact H]. apply andb_true_iff in H as [_ H]. auto.
Qed.

Lemma all_chars_rstrip p q s :
  PyStr.all_chars p s = true -> PyStr.all_chars p (PyStr.rstrip q s) = true.
Proof.
  induction s as [|c r IH]; simpl; [auto|]. intros H.
  apply andb_true_iff in H as [Hc H]. specialize (IH H).
  destruct (PyStr.rstrip q r) as [|d r'].
  - destruct (q c); simpl; [reflexivity|now rewrite Hc].
  - change (PyStr.all_chars p (String c (String d r')))
      with (p c && PyStr.all_chars p (String d r')).
    now rewrite Hc, IH.
Qed.

Lemma all_chars_prefix p n s :
  PyStr.all_chars p s = true -> PyStr.all_chars p (String.substring 0 n s) = true.
Proof.
  revert s. induction n as [|n IH]; intros [|c r]; simpl; auto.
  intros H. apply andb_true_iff in H as [Hc H]. now rewrite Hc, IH.
Qed.

Lemma all_chars_take_chars p n s :
  PyStr.all_chars p s = true -> PyStr.all_chars p (PyStr.take_chars n s) = true.
Proof.
  revert n. induction s as [|c r IH]; intros n; simpl; [auto|].
  intros H. apply andb_true_iff in H as [Hc H].
  destruct (PyStr.continuation c); [simpl; now rewrite Hc, IH|].
  destruct n; simpl; [reflexivity|now rewrite Hc, IH].
Qed.

Lemma all_chars_slice_to p n s :
  PyStr.all_chars p s = true -> PyStr.all_chars p (PyStr.slice_to n s) = true.
Proof.
  intros H. unfold PyStr.slice_to. destruct (Z.leb 0 n); now apply all_chars_take_chars.
Qed.

Lemma all_chars_replace s :
  PyStr.all_chars legal
    (Py.str_map (fun c => if illegal_chars c then "_"%char else c) s) = true.
Proof.
  induction s as [|c r IH]; simpl; [reflexivity|]. rewrite IH, andb_true_r.
  unfold legal. destruct (illegal_chars c) eqn:E; [reflexivity|now rewrite E].
Qed.

Lemma first_char_lstrip q s c :
  PyStr.first_char (PyStr.lstrip q s) = Some c -> q c = false.
Proof.
  induction s as [|d r IH]; simpl; [discriminate|].
  destruct (q d) eqn:E; [exact IH|]. simpl. congruence.
Qed.

Lemma first_char_rstrip q s c :
  PyStr.first_char (PyStr.rstrip q s) = Some c -> PyStr.first_char s = Some c.
Proof.
  destruct s as [|d r]; simpl; [auto|].
  destruct (PyStr.rstrip q r); [destruct (q d)|]; simpl; congruence.
Qed.

Lemma first_char_prefix n s c :
  PyStr.first_char (String.substring 0 n s) = Some c -> PyStr.first_char s = Some c.
Proof. destruct n, s; simpl; congruence. Qed.

Lemma first_char_take_chars n s c :
  PyStr.first_char (PyStr.take_chars n s) = Some c -> PyStr.first_char s = Some c.
Proof.
  destruct s as [|d r]; simpl; [congruence|].
  destruct (PyStr.continuation d); [simpl; congruence|].
  destruct n; simpl; congruence.
Qed.

Lemma first_char_slice_to n s c :
  PyStr.first_char (PyStr.slice_to n s) = Some c -> PyStr.first_char s = Some c.
Proof. unfold PyStr.slice_to. destruct (Z.leb 0 n); apply first_char_take_chars. Qed.

(** The first [n] characters are a prefix of the text, and what is left
    starts where a character starts. *)
Lemma take_chars_prefix n s :
  exists rest,
    s = String.append (PyStr.take_chars n s) rest /\
    (forall c, PyStr.first_char rest = Some c -> PyStr.continuation c = false).
Proof.
  revert n. induction s as [|c r IH]; intros n.
  - exists EmptyString. split; [reflexivity|discriminate].
  - simpl. destruct (PyStr.continuation c) eqn:Ec.
    + destruct (IH n) as (rest & Heq & Hrest). exists rest. split; [|exact Hrest].
      change (String c r = String c (String.append (PyStr.take_chars n r) rest)).
      congruence.
    + destruct n as [|k].
      * exists (String c r). split; [reflexivity|]. simpl. congruence.
      * destruct (IH k) as (rest & Heq & Hrest). exists rest. split; [|exact Hrest].
        change (String c r = String c (String.append (PyStr.take_chars k r) rest)).
      congruence.
Qed.

Lemma count_chars_take_chars n s :
  PyStr.count_chars (PyStr.take_chars n s) = Nat.min n (PyStr.count_chars s).
Proof.
  revert n. induction s as [|c r IH]; intros n; simpl; [lia|].
  destruct (PyStr.continuation c) eqn:Ec.
  - simpl. rewrite Ec. apply IH.
  - destruct n as [|k]; simpl; [reflexivity|]. rewrite Ec, IH. reflexivity.
Qed.

Lemma len_slice_to n s :
  0 <= n -> PyStr.len (PyStr.slice_to n s) = Z.min n (PyStr.len s).
Proof.
  intros Hn. unfold PyStr.slice_to, PyStr.len.
  apply Z.leb_le in Hn. rewrite Hn. apply Z.leb_le in Hn.
  rewrite count_chars_take_chars. lia.
Qed.

Lemma last_char_rstrip q s c :
  PyStr.last_char (PyStr.rstrip q s) = Some c -> q c = false.
Proof.
  induction s as [|d r IH]; simpl; [discriminate|].
  destruct (PyStr.rstrip q r) as [|e r'] eqn:E.
  - destruct (q d) eqn:Eq; simpl; congruence.
  - change (PyStr.last_char (String d (String e r')))
      with (match PyStr.last_char (String e r') with
            | Some c' => Some c' | None => Some d end).
    destruct (PyStr.last_char (String e r')) eqn:El; [|simpl in El].
    + intros [= ->]. auto.
    + destruct (PyStr.last_char r'); discriminate.
Qed.

Lemma lstrip_split p s :
  exists pre, s = String.append pre (PyStr.lstrip p s) /\ PyStr.all_chars p pre = true.
Proof.
  induction s as [|c r IH]; [exists EmptyString; split; reflexivity|].
  simpl. destruct (p c) eqn:E.
  - destruct IH as (pre & Heq & Hall). exists (String c pre). split.
    + change (String c r = String c (String.append pre (PyStr.lstrip p r))). congruence.
    + simpl. now rewrite E.
  - exists EmptyString. split; reflexivity.
Qed.

Lemma rstrip_split p s :
  exists post, s = String.append (PyStr.rstrip p s) post /\ PyStr.all_chars p post = true.
Proof.
  induction s as [|c r IH]; [exists EmptyString; split; reflexivity|].
  destruct IH as (post & Heq & Hall).
  change (PyStr.rstrip p (String c r))
    with (match PyStr.rstrip p r with
          | EmptyString => if p c then EmptyString else String c EmptyString
          | String d r' => String c (String d r')
          end).
  destruct (PyStr.rstrip p r) as [|d r'] eqn:E.
  - destruct (p c) eqn:Ec.
    + exists (String c post). split.
      * change (String.append EmptyString post) with post in Heq.
        change (String c r = String c post). congruence.
      * simpl. now rewrite Ec.
    + exists post. split; [|exact Hall].
      change (String.append EmptyString post) with post in Heq.
      change (String c r = String c post). congruence.
  - exists post. split; [|exact Hall].
    change (String c r = String c (String.append (String d r') post)). congruence.
Qed.

Lemma replaced_get filename i c :
  String.get i filename = Some c ->
  String.get i (Py.str_map (fun c => if illegal_chars c then "_"%char else c) filename)
  = Some (if illegal_chars c then "_"%char else c).
Proof.
  revert i. induction filename as [|d r IH]; intros i; [destruct i; discriminate|].
  destruct i as [|i]; simpl.
  - intros [= ->]. reflexivity.
  - apply IH.
Qed.

(** C7, as the code has it: each illegal character is replaced by an
    underscore (none is taken out), then leading and trailing spaces and
    dots are trimmed, then a name of more than [max_length] characters is
    cut to its first [max_length] characters, and an empty outcome becomes
    the default name [video].  So the result holds no illegal character,
    is never empty, and does not start with a space or a dot; it does not
    end with one when the trimmed name fits in [max_length]. *)
Theorem sanitize_filename_spec (filename : string) (max_length : Z) :
  let replaced := Py.str_map (fun c => if illegal_chars c then "_"%char else c) filename in
  let trimmed := PyStr.strip space_or_dot replaced in
  let cut := PyStr.slice_to max_length trimmed in
  let result := sanitize_filename filename max_length in
  String.length replaced = String.length filename /\
  PyStr.all_chars legal result = true /\
  result <> EmptyString /\
  (forall c, PyStr.first_char result = Some c -> space_or_dot c = false) /\
  (PyStr.len trimmed <= max_length ->
   forall c, PyStr.last_char result = Some c -> space_or_dot c = false) /\
  (PyStr.len trimmed <= max_length -> trimmed <> EmptyString -> result = trimmed) /\
  sanitize_filename_default "a<b>c?.mp4" = "a_b_c_.mp4" /\
  (* the replacement, character by character *)
  (forall i c, String.get i filename = Some c ->
     String.get i replaced = Some (if illegal_chars c then "_"%char else c)) /\
  (* the trimming: only spaces and dots go, at the two ends *)
  (exists pre post,
     replaced = String.append pre (String.append trimmed post) /\
     PyStr.all_chars space_or_dot pre = true /\
     PyStr.all_chars space_or_dot post = true) /\
  (forall c, PyStr.first_char trimmed = Some c -> space_or_dot c = false) /\
  (forall c, PyStr.last_char trimmed = Some c -> space_or_dot c = false) /\
  (* the cut *)
  (max_length < PyStr.len trimmed -> cut <> EmptyString -> result = cut) /\
  (0 <= max_length < PyStr.len trimmed ->
   PyStr.len cut = max_length /\
   exists rest,
     trimmed = String.append cut rest /\
     forall c, PyStr.first_char rest = Some c -> PyStr.continuation c = false) /\
  (0 < max_length < PyStr.len trimmed -> PyStr.len result = max_length) /\
  (* the default name *)
  (trimmed = EmptyString -> result = "video") /\
  (max_length < PyStr.len trimmed -> cut = EmptyString -> result = "video").
Proof.
  intros replaced trimmed cut result.
  assert (PyStr.all_chars legal trimmed = true) as Hlegal.
  { apply all_chars_rstrip, all_chars_lstrip, all_chars_replace. }
  assert (forall c, PyStr.first_char trimmed = Some c -> space_or_dot c = false)
    as Hfirst.
  { intros c Hc. apply first_char_rstrip in Hc. now apply first_char_lstrip in Hc. }
  assert (forall c, PyStr.last_char trimmed = Some c -> space_or_dot c = false)
    as Hlast by (intros c; apply last_char_rstrip).
  assert (max_length < PyStr.len trimmed -> cut <> EmptyString -> result = cut) as Hcut.
  { intros Hlt Hne. unfold result, sanitize_filename. fold replaced. fold trimmed.
    apply Z.ltb_lt in Hlt. rewrite Hlt. fold cut. destruct cut; congruence. }
  assert (0 <= max_length < PyStr.len trimmed -> PyStr.len cut = max_length) as Hlen.
  { intros [H0 Hlt]. unfold cut. rewrite len_slice_to by exact H0. lia. }
  split; [|split; [|split; [|split; [|split; [|split; [|split]]]]]].
  - unfold replaced. clear. induction filename; simpl; congruence.
  - unfold result, sanitize_filename. fold replaced. fold trimmed.
    destruct (Z.ltb max_length (PyStr.len trimmed)).
    + pose proof (all_chars_slice_to legal max_length _ Hlegal) as H.
      destruct (PyStr.slice_to max_length trimmed); [reflexivity|exact H].
    + destruct trimmed; [reflexivity|exact Hlegal].
  - unfold result, sanitize_filename.
    destruct (if Z.ltb _ _ then _ else _); discriminate.
  - intros c. unfold result, sanitize_filename. fold replaced. fold trimmed.
    destruct (Z.ltb max_length (PyStr.len trimmed)).
    + destruct (PyStr.slice_to max_length trimmed) eqn:E.
      * simpl. intros [= <-]. reflexivity.
      * rewrite <- E. intros Hc. apply first_char_slice_to in Hc. auto.
    + destruct trimmed eqn:E.
      * simpl. intros [= <-]. reflexivity.
      * apply Hfirst.
  - intros Hfit c. unfold result, sanitize_filename. fold replaced. fold trimmed.
    apply Z.ltb_ge in Hfit. rewrite Hfit.
    destruct trimmed eqn:E.
    + simpl. intros [= <-]. reflexivity.
    + apply Hlast.
  - intros Hfit Hne. unfold result, sanitize_filename. fold replaced. fold trimmed.
    apply Z.ltb_ge in Hfit. rewrite Hfit. destruct trimmed; congruence.
  - reflexivity.
  - split; [intros i c; apply replaced_get|].
    split.
    { destruct (lstrip_split space_or_dot replaced) as (pre & Hpre & Hallpre).
      destruct (rstrip_split space_or_dot (PyStr.lstrip space_or_dot replaced))
        as (post & Hpost & Hallpost).
      exists pre, post. split; [|split; assumption].
      unfold trimmed, PyStr.strip. rewrite <- Hpost. exact Hpre. }
    split; [exact Hfirst|]. split; [exact Hlast|]. split; [exact Hcut|].
    split.
    { intros Hr. split; [now apply Hlen|].
      unfold cut, PyStr.slice_to. destruct Hr as [H0 _]. apply Z.leb_le in H0.
      rewrite H0. apply take_chars_prefix. }
    split.
    { intros [H0 Hlt].
      assert (PyStr.len cut = max_length) as Hl by (apply Hlen; lia).
      rewrite Hcut; [exact Hl|exact Hlt|].
      intros Hc. rewrite Hc in Hl. unfold PyStr.len in Hl. simpl in Hl. lia. }
    split.
    { intros He. unfold result, sanitize_filename. fold replaced. fold trimmed.
      rewrite He. destruct (Z.ltb max_length (PyStr.len EmptyString)); [|reflexivity].
      unfold PyStr.slice_to. destruct (Z.leb 0 max_length); reflexivity. }
    intros Hlt Hc. unfold result, sanitize_filename. fold replaced. fold trimmed.
    apply Z.ltb_lt in Hlt. rewrite Hlt. fold cut. now rewrite Hc.
Qed.

(** C7 as worded fails on its own example: the illegal characters are not
    taken out of the name, an underscore stands in for each. *)
Lemma sanitize_filename_keeps_length :
  sanitize_filename_default "a<b>c?.mp4" = "a_b_c_.mp4" /\
  remove_illegal "a<b>c?.mp4" = "abc.mp4" /\
  sanitize_filename_default "a<b>c?.mp4" <> remove_illegal "a<b>c?.mp4".
Proof. repeat split. discriminate. Qed.

End Sanitize.

(** ** Identifier parsing *)

Section Parser.

Example parse_bvid :
  parse_video_url "BV1xx411c7mD" = (Some "BV1xx411c7mD", None, 1).
Proof. reflexivity. Qed.

Example parse_url_page :
  parse_video_url "https://x/video/BV1xx411c7mD?p=3" = (Some "BV1xx411c7mD", None, 3).
Proof. vm_compute. reflexivity. Qed.

Example parse_aid : parse_video_url "av170001" = (None, Some 170001, 1).
Proof. vm_compute. reflexivity. Qed.

Example parse_url_aid :
  parse_video_url " https://www.bilibili.com/video/av170001/?spm=1&p=2#c "
  = (None, Some 170001, 2).
Proof. vm_compute. reflexivity. Qed.

Example parse_negative_page :
  parse_video_url "https://x/video/av170001?p=-3" = (None, Some 170001, -3).
Proof. vm_compute. reflexivity. Qed.

(** A host in brackets has to be an IPv6 (or IPvFuture) address:
    [urlparse] raises otherwise, and the parser gives no id. *)
Example parse_bracketed_host :
  parse_video_url "http://[x]/video/BV1xx411c7mD?p=2" = (None, None, 1) /\
  parse_video_url "http://[::1]/video/BV1xx411c7mD?p=2" = (Some "BV1xx411c7mD", None, 2).
Proof. split; vm_compute; reflexivity. Qed.

(** What [int] reads: the unit separator is no blank of ASCII text; a
    no-break space and an Arabic-Indic digit, written as percent-escapes,
    are a blank and a digit. *)
Example parse_page_texts :
  parse_video_url "https://x/video/BV1xx411c7mD?p=2%1F" = (None, None, 1) /\
  parse_video_url "https://x/video/BV1xx411c7mD?p=%C2%A02" = (Some "BV1xx411c7mD", None, 2) /\
  parse_video_url "https://x/video/BV1xx411c7mD?p=%D9%A2" = (Some "BV1xx411c7mD", None, 2).
Proof. repeat split; vm_compute; reflexivity. Qed.

Example parse_garbage : parse_video_url "hello" = (None, None, 1).
Proof. vm_compute. reflexivity. Qed.

Example parse_bad_page :
  parse_video_url "https://x/video/BV1xx411c7mD?p=abc" = (None, None, 1).
Proof. vm_compute. reflexivity. Qed.

Lemma effective_page_ge_1 requested url_page :
  1 <= requested -> 1 <= effective_page requested url_page.
Proof.
  intros H. unfold effective_page. destruct (Z.ltb 1 url_page) eqn:E; [|exact H].
  apply Z.ltb_lt in E. lia.
Qed.

Lemma page_of_query_cases q page :
  page_of_query q = Some page ->
  page = 1 \/
  exists v, PyLib.first_value "p" (PyLib.parse_qsl q) = Some v /\ PyLib.int v = Some page.
Proof.
  unfold page_of_query. destruct (PyLib.first_value _ _) as [v|].
  - intros H. right. eauto.
  - intros [= <-]. now left.
Qed.

Lemma parse_video_url_ids (url : string) :
  let '(bvid, aid, page) := parse_video_url url in
  ((bvid = None /\ aid = None /\ page = 1) \/
   (is_Some bvid /\ aid = None) \/
   (bvid = None /\ is_Some aid)) /\
  (page = 1 \/
   exists parsed v,
     PyLib.urlparse (PyStr.strip PyLib.is_space url) = Some parsed /\
     PyLib.first_value "p" (PyLib.parse_qsl (PyLib.query parsed)) = Some v /\
     PyLib.int v = Some page) /\
  (forall requested, 1 <= requested -> 1 <= effective_page requested page).
Proof.
  unfold parse_video_url.
  set (u := PyStr.strip PyLib.is_space url).
  destruct (Py.startswith (Py.upper u) "BV" && Z.leb (PyStr.len u) 12).
  { split; [right; left; eauto|]. split; [now left|]. intros; now apply effective_page_ge_1. }
  destruct (PyLib.match_av u) as [digits|].
  { split; [right; right; eauto|]. split; [now left|]. intros; now apply effective_page_ge_1. }
  destruct (PyLib.urlparse u) as [parsed|] eqn:Eparse.
  2:{ split; [now left|]. split; [now left|]. intros; now apply effective_page_ge_1. }
  destruct (PyLib.search_bv (PyLib.path parsed)) as [bvid|].
  - destruct (page_of_query (PyLib.query parsed)) as [page|] eqn:Epage.
    + split; [right; left; eauto|]. split.
      * apply page_of_query_cases in Epage as [->|(v & Hv & Hint)]; [now left|].
        right. eauto.
      * intros; now apply effective_page_ge_1.
    + split; [now left|]. split; [now left|]. intros; now apply effective_page_ge_1.
  - destruct (PyLib.search_av (PyLib.path parsed)) as [digits|].
    + destruct (page_of_query (PyLib.query parsed)) as [page|] eqn:Epage.
      * split; [right; right; eauto|]. split.
        -- apply page_of_query_cases in Epage as [->|(v & Hv & Hint)]; [now left|].
           right. eauto.
        -- intros; now apply effective_page_ge_1.
      * split; [now left|]. split; [now left|]. intros; now apply effective_page_ge_1.
    + split; [now left|]. split; [now left|]. intros; now apply effective_page_ge_1.
Qed.

Lemma parse_video_url_cases (url : string) :
  let u := PyStr.strip PyLib.is_space url in
  (bare_bvid u = true -> parse_video_url url = (Some u, None, 1)) /\
  (forall digits,
     bare_bvid u = false -> PyLib.match_av u = Some digits ->
     parse_video_url url = (None, Some (PyLib.digits_value 0 digits), 1)) /\
  (bare_bvid u = false -> PyLib.match_av u = None -> PyLib.urlparse u = None ->
   parse_video_url url = (None, None, 1)) /\
  (forall parsed,
     bare_bvid u = false -> PyLib.match_av u = None ->
     PyLib.urlparse u = Some parsed ->
     let p := PyLib.first_value "p" (PyLib.parse_qsl (PyLib.query parsed)) in
     (id_in_path (PyLib.path parsed) = None ->
      parse_video_url url = (None, None, 1)) /\
     (forall bvid aid,
        id_in_path (PyLib.path parsed) = Some (bvid, aid) ->
        (p = None -> parse_video_url url = (bvid, aid, 1)) /\
        (forall v n, p = Some v -> PyLib.int v = Some n ->
                     parse_video_url url = (bvid, aid, n)) /\
        (forall v, p = Some v -> PyLib.int v = None ->
                   parse_video_url url = (None, None, 1)))).
Proof.
  intros u. unfold parse_video_url, bare_bvid, id_in_path, page_of_query. fold u.
  split; [intros ->; reflexivity|].
  split; [intros digits -> ->; reflexivity|].
  split; [intros -> -> ->; reflexivity|].
  intros parsed -> -> ->. cbv zeta. split.
  - destruct (PyLib.search_bv _); [discriminate|].
    destruct (PyLib.search_av _); [discriminate|reflexivity].
  - intros bvid aid Hid. split; [|split].
    + intros ->. destruct (PyLib.search_bv _); [now injection Hid as <- <-|].
      destruct (PyLib.search_av _); [now injection Hid as <- <-|discriminate].
    + intros v n -> ->. destruct (PyLib.search_bv _); [now injection Hid as <- <-|].
      destruct (PyLib.search_av _); [now injection Hid as <- <-|discriminate].
    + intros v -> ->. destruct (PyLib.search_bv _); [reflexivity|].
      destruct (PyLib.search_av _); reflexivity.
Qed.

(** C8, as the code has it: of the two ids at most one is set, and exactly
    one whenever an id is recognised; the coordinators use the page of the
    URL only when it is above 1, so the page they work with is at least 1
    when the requested one is.  On ASCII text of at most 4300 characters
    (the most digits [int] reads): a bare BV id and a bare av id come back with page 1; for a URL, the id
    is the one found in its path, and the page is 1 when the query has no
    [p] parameter and otherwise the integer the first [p] parameter reads
    as, of any sign; when that parameter is no integer, or the URL has no
    id in its path or does not parse, no id is returned and the page
    is 1. *)
Theorem parse_video_url_spec (url : string) :
  let u := PyStr.strip PyLib.is_space url in
  let '(bvid, aid, page) := parse_video_url url in
  ((bvid = None /\ aid = None /\ page = 1) \/
   (is_Some bvid /\ aid = None) \/
   (bvid = None /\ is_Some aid)) /\
  (page = 1 \/
   exists parsed v,
     PyLib.urlparse u = Some parsed /\
     PyLib.first_value "p" (PyLib.parse_qsl (PyLib.query parsed)) = Some v /\
     PyLib.int v = Some page) /\
  (forall requested, 1 <= requested -> 1 <= effective_page requested page) /\
  (ascii_text url = true -> PyStr.len url <= 4300 ->
   (bare_bvid u = true -> parse_video_url url = (Some u, None, 1)) /\
   (forall digits,
      bare_bvid u = false -> PyLib.match_av u = Some digits ->
      parse_video_url url = (None, Some (PyLib.digits_value 0 digits), 1)) /\
   (bare_bvid u = false -> PyLib.match_av u = None -> PyLib.urlparse u = None ->
    parse_video_url url = (None, None, 1)) /\
   (forall parsed,
      bare_bvid u = false -> PyLib.match_av u = None ->
      PyLib.urlparse u = Some parsed ->
      let p := PyLib.first_value "p" (PyLib.parse_qsl (PyLib.query parsed)) in
      (id_in_path (PyLib.path parsed) = None ->
       parse_video_url url = (None, None, 1)) /\
      (forall bvid aid,
         id_in_path (PyLib.path parsed) = Some (bvid, aid) ->
         (p = None -> parse_video_url url = (bvid, aid, 1)) /\
         (forall v n, p = Some v -> PyLib.int v = Some n ->
                      parse_video_url url = (bvid, aid, n)) /\
         (forall v, p = Some v -> PyLib.int v = None ->
                    parse_video_url url = (None, None, 1))))).
Proof.
  intros u. pose proof (parse_video_url_ids url) as Hids.
  pose proof (parse_video_url_cases url) as Hcases. fold u in Hcases.
  destruct (parse_video_url url) as [[bvid aid] page].
  destruct Hids as (H1 & H2 & H3).
  split; [exact H1|]. split; [exact H2|]. split; [exact H3|].
  intros _ _. exact Hcases.
Qed.

(** C8 as worded fails: an id is recognised and the page, read from the
    [p] parameter, is 0. *)
Lemma parse_video_url_page_zero :
  parse_video_url "https://x/video/BV1xx411c7mD?p=0" = (Some "BV1xx411c7mD", None, 0)
  /\ ~ (1 <= 0).
Proof. split; [vm_compute; reflexivity|lia]. Qed.

End Parser.

(** ** Chunked download *)

Section Download.

Variable http : option string -> Session.


Lemma chunk_loop_cons total current wr n b d r :
  chunk_loop total current wr n (Chunk (b :: d) :: r)
  = if Z.ltb current total
    then chunk_loop total (current + blen (b :: d)) (wr ++ b :: d) (S n) r
    else mkLoopEnd ReachedTotal wr current n [].
Proof. reflexivity. Qed.

(** How the loop of [download_stream] can end, and what it has counted. *)
Lemma chunk_loop_spec total evs :
  forall current wr n,
    let e := chunk_loop total current wr n evs in
    (exit e = ReachedTotal -> total <= received e) /\
    (exit e = EndOfStream -> received e < total) /\
    (forall err, exit e = ChunkFailed err -> received e < total) /\
    exit e <> SawCancel /\
    received e - current = blen (written e) - blen wr /\
    (n <= reads e)%nat.
Proof.
  induction evs as [|ev r IH]; intros current wr n.
  - simpl. destruct (Z.ltb current total) eqn:E; simpl;
      [apply Z.ltb_lt in E|apply Z.ltb_ge in E];
      repeat split; try discriminate; try lia.
  - destruct ev as [[|b d]|err].
    + simpl. destruct (Z.ltb current total) eqn:E; simpl;
        [apply Z.ltb_lt in E|apply Z.ltb_ge in E];
        repeat split; try discriminate; try lia.
    + rewrite chunk_loop_cons.
      destruct (Z.ltb current total) eqn:E.
      * destruct (IH (current + blen (b :: d)) (wr ++ b :: d)%list (S n))
          as (H1 & H2 & H3 & H4 & H5 & H6).
        repeat split; auto; [|lia].
        unfold blen in *. rewrite length_app in H5. lia.
      * apply Z.ltb_ge in E. simpl. repeat split; try discriminate; try lia.
    + simpl. destruct (Z.ltb current total) eqn:E; simpl;
        [apply Z.ltb_lt in E|apply Z.ltb_ge in E];
        repeat split; try discriminate; try lia.
Qed.


Lemma chunk_loop_with_progress_cons total current wr n pr b d r c :
  chunk_loop_with_progress total current wr n pr (Chunk (b :: d) :: r) c
  = if Z.ltb current total
    then match c with
         | Some O => (mkLoopEnd SawCancel wr current n pr, c)
         | _ =>
             chunk_loop_with_progress total (current + blen (b :: d)) (wr ++ b :: d)
               (S n) (pr ++ [(current + blen (b :: d), total)]) r
               (match c with Some (S k) => Some k | _ => c end)
         end
    else (mkLoopEnd ReachedTotal wr current n pr, c).
Proof. reflexivity. Qed.




End Download.

Section DownloadCases.



End DownloadCases.

(** ** Merging *)

Section Merge.

Variable tool : Tool.

Lemma check_ffmpeg_world w r w' : check_ffmpeg tool w = (r, w') -> w' = w.
Proof.
  unfold check_ffmpeg, ret, raise. destruct (ffmpeg_version tool); congruence.
Qed.

(** [check_ffmpeg] answers [False] when the program is not found or its
    version run exits with another code than 0. *)
Lemma check_ffmpeg_false w :
  check_ffmpeg tool w = (Ret false, w) <->
  ffmpeg_version tool = VersionNotFound \/
  exists rc, ffmpeg_version tool = VersionExited rc /\ rc <> 0.
Proof.
  unfold check_ffmpeg, ret, raise. destruct (ffmpeg_version tool) as [|e|rc].
  - split; auto.
  - split; [discriminate|]. intros [|(rc & ? & _)]; discriminate.
  - destruct (Z.eqb rc 0) eqn:E.
    + apply Z.eqb_eq in E. split; [discriminate|].
      intros [|(rc' & [= <-] & Hne)]; [discriminate|contradiction].
    + apply Z.eqb_neq in E. split; [|reflexivity]. intros _. right. eauto.
Qed.

(** C9, as the code has it: when [ffmpeg] is not found, or its version run
    exits with a code other than 0, the merge fails, saying the tool is
    missing, and no file is touched; when the version run raises anything
    but [FileNotFoundError] (the program is there and cannot be run), the
    exception leaves [merge_video_audio], the check standing outside its
    [try], and no file is touched; when the merge command exits with a
    code other than 0, the merge fails with the diagnostic of the tool, and
    every file that was there is still there, the two inputs unchanged
    unless the output path is one of them; when the merge command raises,
    the merge fails and no file is touched; when it exits with 0, the merge
    succeeds and both input files are gone. *)
Theorem merge_video_audio_outcomes (video_path audio_path output_path : string)
    (w : World) :
  (check_ffmpeg tool w = (Ret false, w) ->
   merge_video_audio tool video_path audio_path output_path w
   = (Ret (false, [PrintNoFfmpeg]), w)) /\
  (forall rc stderr output,
     check_ffmpeg tool w = (Ret true, w) ->
     ffmpeg_merge tool (files w !! video_path) (files w !! audio_path)
     = MergeExited rc stderr output ->
     rc <> 0 ->
     exists w',
       merge_video_audio tool video_path audio_path output_path w
       = (Ret (false, [PrintMerging; PrintFfmpegError stderr]), w') /\
       (forall p, is_Some (files w !! p) -> is_Some (files w' !! p)) /\
       (forall p, p <> output_path -> files w' !! p = files w !! p)) /\
  (forall stderr output,
     check_ffmpeg tool w = (Ret true, w) ->
     ffmpeg_merge tool (files w !! video_path) (files w !! audio_path)
     = MergeExited 0 stderr output ->
     exists w',
       merge_video_audio tool video_path audio_path output_path w
       = (Ret (true, [PrintMerging]), w') /\
       files w' !! video_path = None /\
       files w' !! audio_path = None /\
       (forall p, p <> video_path -> p <> audio_path -> p <> output_path ->
                  files w' !! p = files w !! p) /\
       (output_path <> video_path -> output_path <> audio_path ->
        files w' !! output_path
        = match output with Some data => Some data | None => files w !! output_path end)) /\
  (* the tool cannot be invoked: the three ways *)
  (ffmpeg_version tool = VersionNotFound ->
   merge_video_audio tool video_path audio_path output_path w
   = (Ret (false, [PrintNoFfmpeg]), w)) /\
  (forall rc,
     ffmpeg_version tool = VersionExited rc -> rc <> 0 ->
     merge_video_audio tool video_path audio_path output_path w
     = (Ret (false, [PrintNoFfmpeg]), w)) /\
  (forall e,
     ffmpeg_version tool = VersionRaises e ->
     merge_video_audio tool video_path audio_path output_path w = (Raise e, w)) /\
  (* the tool can be invoked exactly when its version run exits with 0 *)
  (check_ffmpeg tool w = (Ret true, w) <-> ffmpeg_version tool = VersionExited 0) /\
  (* the merge command raises *)
  (forall e,
     ffmpeg_version tool = VersionExited 0 ->
     ffmpeg_merge tool (files w !! video_path) (files w !! audio_path) = MergeRaises e ->
     merge_video_audio tool video_path audio_path output_path w
     = (Ret (false, [PrintMerging; PrintMergeFailed e]), w)).
Proof.
  split; [|split; [|split]].
  - intros Hc. unfold merge_video_audio, bind. now rewrite Hc.
  - intros rc stderr output Hc Hm Hrc.
    unfold merge_video_audio, bind. rewrite Hc. simpl. rewrite Hm.
    apply Z.eqb_neq in Hrc. rewrite Hrc. simpl.
    eexists. split; [reflexivity|]. destruct output as [data|]; simpl.
    + split.
      * intros p Hp. destruct (decide (output_path = p)) as [->|Hne].
        -- rewrite lookup_insert_eq. eauto.
        -- now rewrite lookup_insert_ne.
      * intros p Hne. now rewrite lookup_insert_ne.
    + auto.
  - intros stderr output Hc Hm.
    unfold merge_video_audio, bind. rewrite Hc. simpl. rewrite Hm. simpl.
    eexists. split; [reflexivity|]. simpl.
    split; [|split; [|split]].
    + destruct (decide (audio_path = video_path)) as [->|Hne].
      * apply lookup_delete_eq.
      * rewrite lookup_delete_ne by exact Hne. apply lookup_delete_eq.
    + apply lookup_delete_eq.
    + intros p Hv Ha Ho. rewrite !lookup_delete_ne by congruence.
      destruct output; simpl; [now rewrite lookup_insert_ne|reflexivity].
    + intros Hv Ha. rewrite !lookup_delete_ne by congruence.
      destruct output; simpl; [apply lookup_insert_eq|reflexivity].
  - split; [|split; [|split; [|split]]].
    + intros Hv. unfold merge_video_audio, check_ffmpeg, bind. now rewrite Hv.
    + intros rc Hv Hrc. unfold merge_video_audio, check_ffmpeg, bind, ret.
      rewrite Hv. apply Z.eqb_neq in Hrc. now rewrite Hrc.
    + intros e Hv. unfold merge_video_audio, check_ffmpeg, bind, raise.
      now rewrite Hv.
    + unfold check_ffmpeg, ret, raise.
      destruct (ffmpeg_version tool) as [|e|rc]; split; try discriminate.
      * intros [= H]. apply Z.eqb_eq in H. now subst rc.
      * intros [= ->]. reflexivity.
    + intros e Hv Hm. unfold merge_video_audio, check_ffmpeg, bind, ret.
      rewrite Hv. simpl. now rewrite Hm.
Qed.

End Merge.

Section MergeCases.

(** C9 as worded fails: [ffmpeg] is there but cannot be run, its version
    run raising [PermissionError]; the merge does not fail with the
    tool-missing result, the exception leaves [merge_video_audio]. *)
Lemma merge_video_audio_check_escapes :
  merge_video_audio
    (mkTool (VersionRaises "PermissionError") (fun _ _ => MergeRaises "unused"))
    "v.m4v" "a.m4a" "o.mp4" two_files
  = (Raise "PermissionError", two_files) /\
  forall r w',
    merge_video_audio
      (mkTool (VersionRaises "PermissionError") (fun _ _ => MergeRaises "unused"))
      "v.m4v" "a.m4a" "o.mp4" two_files
    <> (Ret r, w').
Proof. split; [reflexivity|]. intros r w'. discriminate. Qed.

Example merge_without_ffmpeg :
  merge_video_audio (mkTool VersionNotFound (fun _ _ => MergeRaises "unused"))
    "v.m4v" "a.m4a" "o.mp4" two_files
  = (Ret (false, [PrintNoFfmpeg]), two_files).
Proof. reflexivity. Qed.

Example merge_tool_error :
  merge_video_audio (mkTool (VersionExited 0) (fun _ _ => MergeExited 1 "bad input" None))
    "v.m4v" "a.m4a" "o.mp4" two_files
  = (Ret (false, [PrintMerging; PrintFfmpegError "bad input"]), two_files).
Proof. reflexivity. Qed.

Example merge_success :
  merge_video_audio sample_tool "v.m4v" "a.m4a" "o.mp4" two_files
  = (Ret (true, [PrintMerging]), mkWorld (<["o.mp4" := [Byte.x6d]]> ∅) None).
Proof. vm_compute. reflexivity. Qed.

End MergeCases.

(** ** Job coordination *)

Section Jobs.

Lemma bind_inv {A B} (m : M A) (k : A -> M B) w r w' :
  bind m k w = (r, w') ->
  (exists a w1, m w = (Ret a, w1) /\ k a w1 = (r, w')) \/
  (exists e, m w = (Raise e, w') /\ r = Raise e).
Proof.
  unfold bind. destruct (m w) as [[a|e] w1]; intros H.
  - left. eauto.
  - right. injection H as <- <-. eauto.
Qed.

Ltac step H :=
  match type of H with
  | bind _ _ _ = _ =>
      let a := fresh "a" in let w1 := fresh "w" in let e := fresh "e" in
      let H1 := fresh "Hm" in
      apply bind_inv in H as [(a & w1 & H1 & H)|(e & H1 & H)]
  | (if ?b then _ else _) _ = _ => destruct b eqn:?
  | (match ?x with _ => _ end) _ = _ => destruct x eqn:?
  | (let '(_, _) := ?x in _) _ = _ => destruct x eqn:?
  end.

(** When the thread's job ends with the message of a failed video or audio
    download, the temporary files are gone. *)
Lemma gui_download_failure_removes_temps s url output_dir page quality w m w' :
  _download s url output_dir page quality w = (Ret (false, m), w') ->
  (m = MsgVideoStreamFailed -> files w' !! temp_video_path s = None) /\
  (m = MsgAudioStreamFailed ->
   files w' !! temp_video_path s = None /\ files w' !! temp_audio_path s = None).
Proof.
  intros H. unfold _download in H.
  fold (temp_video_path s) in H. fold (temp_audio_path s) in H.
  repeat (step H; try discriminate);
    unfold ret, unlink, lift, finish, raise in *; simpl in *.
  all: try (injection H as <- <-).
  all: try (split; [discriminate|discriminate]).
  all: repeat match goal with
         | Hr : (Ret _, _) = (Ret _, _) |- _ => injection Hr as ? ?; subst
         end; simpl.
  - split; [intros _|discriminate]. apply lookup_delete_eq.
  - split; [discriminate|intros _]. split; [|apply lookup_delete_eq].
    destruct (decide (temp_audio_path s = temp_video_path s)) as [->|Hne].
    + apply lookup_delete_eq.
    + rewrite lookup_delete_ne by exact Hne. apply lookup_delete_eq.
Qed.


(** Without interference the sample job completes and leaves the merged
    file only. *)
Example sample_job_completes :
  run (sample_service http_good) "BV1xx411c7mD" "out" 1 0 empty_world
  = (Ret (true, MsgDone "out/clip.mp4" (Some 1)),
     mkWorld (<["out/clip.mp4" := [Byte.x6d]]> ∅) None).
Proof. vm_compute. reflexivity. Qed.

(** A cancel that is seen inside the chunk loop of the video download ends
    the job with the message of a failed video download, which the window
    shows as a failure, while a cancel seen between the stages ends it with
    the cancel message; the temporary file is removed in both cases. *)
Example gui_cancel_between_stages :
  run (sample_service http_good) "BV1xx411c7mD" "out" 1 0 (mkWorld ∅ (Some 5%nat))
  = (Ret (false, MsgCancelled), mkWorld ∅ (Some 0%nat)) /\
  _on_download_finished false MsgCancelled = ShownCancelled.
Proof. split; vm_compute; reflexivity. Qed.

(** The thread's job removes both temporary files when the audio download
    fails. *)
Example gui_audio_failure_cleans :
  run (sample_service http_audio_breaks) "BV1xx411c7mD" "out" 1 0 empty_world
  = (Ret (false, MsgAudioStreamFailed), empty_world).
Proof. vm_compute. reflexivity. Qed.

(** C2 on the code: (1) in the thread's job, a cancel seen inside the chunk
    loop of the video download is reported with the message of a failed
    video download and shown as a failure; (2) the command-line job leaves
    the partial temporary video file when the video download fails, and
    (3) the partial temporary audio file when the audio download fails;
    (4) the thread's job leaves the partial output file when the download
    of a single-stream item fails. *)
Theorem download_job_cancel_and_residue :
  (run (sample_service http_good) "BV1xx411c7mD" "out" 1 0 (mkWorld ∅ (Some 4%nat))
   = (Ret (false, MsgVideoStreamFailed), mkWorld ∅ (Some 0%nat)) /\
   exit (fst (chunk_loop_with_progress 6 0 [] 0 [] (events (http_good (Some "v")))
                (Some 1%nat))) = SawCancel /\
   _on_download_finished false MsgVideoStreamFailed = ShownFailed) /\
  (fst (download_video_async (sample_service http_breaks) "BV1xx411c7mD" "out" 1
          empty_world) = Ret false /\
   files (snd (download_video_async (sample_service http_breaks) "BV1xx411c7mD"
                 "out" 1 empty_world)) !! "cache/u0.m4v" = Some [Byte.x61]) /\
  (fst (download_video_async (sample_service http_audio_breaks) "BV1xx411c7mD" "out" 1
          empty_world) = Ret false /\
   files (snd (download_video_async (sample_service http_audio_breaks) "BV1xx411c7mD"
                 "out" 1 empty_world)) !! "cache/u0.m4v" = None /\
   files (snd (download_video_async (sample_service http_audio_breaks) "BV1xx411c7mD"
                 "out" 1 empty_world)) !! "cache/u1.m4a" = Some [Byte.x61]) /\
  (fst (run (single_service http_breaks) "BV1xx411c7mD" "out" 1 0 empty_world)
   = Ret (false, MsgVideoFailed) /\
   files (snd (run (single_service http_breaks) "BV1xx411c7mD" "out" 1 0 empty_world))
     !! "out/clip.mp4" = Some [Byte.x61]).
Proof. repeat split; vm_compute; reflexivity. Qed.

End Jobs.

(** * Further properties *)

(** ** Stream addresses and selection *)

Section SelectionMore.

(** X1: [get_stream_url] takes the first non-empty of [base_url] and
    [baseUrl], else the first entry of the first non-empty of [backup_url]
    and [backupUrl]; it gives [None] exactly when all four are missing or
    empty. *)
Theorem get_stream_url_priority (s : Stream) :
  (str_truthy (stream_base_url s) = true ->
   get_stream_url s = stream_base_url s) /\
  (str_truthy (stream_base_url s) = false ->
   str_truthy (stream_baseUrl s) = true ->
   get_stream_url s = stream_baseUrl s) /\
  (str_truthy (stream_base_url s) = false ->
   str_truthy (stream_baseUrl s) = false ->
   forall first rest,
     (stream_backup_url s = Some (first :: rest) \/
      (list_truthy (stream_backup_url s) = false /\
       stream_backupUrl s = Some (first :: rest))) ->
     get_stream_url s = Some first) /\
  (get_stream_url s = None <->
   str_truthy (stream_base_url s) = false /\
   str_truthy (stream_baseUrl s) = false /\
   list_truthy (stream_backup_url s) = false /\
   list_truthy (stream_backupUrl s) = false).
Proof.
  unfold get_stream_url, py_or.
  destruct (stream_base_url s) as [[|c r]|]; simpl;
    destruct (stream_baseUrl s) as [[|c' r']|]; simpl;
    destruct (stream_backup_url s) as [[|b bs]|]; simpl;
    destruct (stream_backupUrl s) as [[|b' bs']|]; simpl;
    (split; [|split; [|split]]);
    try (intros; discriminate); try reflexivity;
    try (intros _ _ first rest [H|[H1 H2]]; congruence);
    try (split; [intros; discriminate|intros (? & ? & ? & ?); discriminate]);
    try (split; [auto|reflexivity]).
Qed.

(** X2: whatever quality is asked for, video selection gives [None] exactly
    when the manifest has no video stream, and a stream it gives is one of
    the manifest. *)
Theorem select_video_stream_none_iff (quality : Z) (d : DashData) :
  (_select_video_stream quality d = None <-> default [] (dash_video d) = []) /\
  (forall s, _select_video_stream quality d = Some s ->
             In s (default [] (dash_video d))).
Proof.
  assert (default [] (dash_video d) = [] -> _select_video_stream quality d = None)
    as Hnil.
  { intros H. unfold _select_video_stream, select_best_video_stream. rewrite H.
    simpl. now destruct (Z.eqb quality 0). }
  assert (default [] (dash_video d) <> [] ->
          exists s, _select_video_stream quality d = Some s /\
                    In s (default [] (dash_video d))) as Hsome.
  { intros Hne.
    destruct (select_best_video_stream_head d Hne) as (l1 & s & l2 & Hl & Hsel & _).
    assert (In s (default [] (dash_video d))) as Hin.
    { rewrite Hl. apply in_or_app. right. now left. }
    destruct (Z.eq_dec quality 0) as [->|Hq].
    { exists s. split; [exact Hsel|exact Hin]. }
    destruct (List.filter (id_is quality) (default [] (dash_video d))) eqn:Ef.
    - exists s. split; [|exact Hin]. unfold _select_video_stream.
      apply Z.eqb_neq in Hq. now rewrite Hq, Ef.
    - destruct (select_video_stream_head quality d Hq)
        as (m1 & s' & m2 & Hl' & Hsel' & _); [rewrite Ef; discriminate|].
      exists s'. split; [exact Hsel'|]. rewrite Hl'. apply in_or_app. right. now left. }
  assert (default [] (dash_video d) = [] \/ default [] (dash_video d) <> []) as Hdec.
  { destruct (default [] (dash_video d)); [now left|right; discriminate]. }
  split; [split; [|exact Hnil]|].
  - intros Hn. destruct Hdec as [H|H]; [exact H|].
    destruct (Hsome H) as (s & Hs & _). congruence.
  - intros s Hs. destruct Hdec as [H|H].
    + rewrite (Hnil H) in Hs. discriminate.
    + destruct (Hsome H) as (s' & Hs' & Hin). congruence.
Qed.

End SelectionMore.

(** ** Audio selection: order of the candidates *)

Section AudioOrder.









End AudioOrder.

(** ** What the window offers *)

Section Offered.

Lemma collect_quality_inv seen acc s :
  collect_inv seen acc -> collect_inv (seen ++ [s]) (collect_quality acc s).
Proof.
  intros (Hset & Hmem & Hnd & Hname). unfold collect_quality.
  fold (stream_qid s). destruct (decide (stream_qid s ∈ fst acc)) as [Hin|Hnin].
  - split; [exact Hset|]. split; [|split; [exact Hnd|exact Hname]].
    intros q. rewrite Hmem. split.
    + intros (s' & Hs' & Hq). exists s'. split; [|exact Hq].
      apply in_or_app. now left.
    + intros (s' & Hs' & Hq). apply in_app_or in Hs' as [Hs'|[<-|[]]].
      * eauto.
      * apply Hmem. apply Hset. now rewrite <- Hq.
  - unfold collect_inv. simpl. rewrite map_app. simpl. split; [|split; [|split]].
    + intros q. rewrite elem_of_union, elem_of_singleton, in_app_iff, Hset.
      simpl. intuition congruence.
    + intros q. rewrite in_app_iff, Hmem. simpl. split.
      * intros [(s' & Hs' & Hq)|[<-|[]]].
        -- exists s'. split; [apply in_or_app; now left|exact Hq].
        -- exists s. split; [apply in_or_app; right; now left|reflexivity].
      * intros (s' & Hs' & Hq). apply in_app_or in Hs' as [Hs'|[<-|[]]]; eauto.
    + apply NoDup_app. split; [exact Hnd|]. split.
      * intros q Hq Hk. apply list_elem_of_singleton in Hk. subst q.
        apply list_elem_of_In in Hq. apply Hnin. now apply Hset.
      * apply NoDup_singleton.
    + intros q n Hin. apply in_app_or in Hin as [Hin|[[= <- <-]|[]]]; eauto.
Qed.

Lemma collect_fold_inv l seen acc :
  collect_inv seen acc ->
  collect_inv (seen ++ l) (fold_left collect_quality l acc).
Proof.
  revert seen acc. induction l as [|s r IH]; simpl; intros seen acc Hinv.
  - now rewrite app_nil_r.
  - replace (seen ++ s :: r)%list with ((seen ++ [s]) ++ r)%list
      by (now rewrite <- app_assoc).
    apply IH. now apply collect_quality_inv.
Qed.

Lemma collected_inv (vs : list Stream) :
  collect_inv vs (fold_left collect_quality vs (∅, [])).
Proof.
  apply (collect_fold_inv vs [] (∅, [])).
  split; [|split; [|split]]; simpl.
  - intros q. split; [intros H; now apply not_elem_of_empty in H|intros []].
  - intros q. split; [intros []|intros (s & [] & _)].
  - constructor.
  - intros q n [].
Qed.

Lemma available_qualities_perm d :
  dash_truthy d = true ->
  Permutation (snd (fold_left collect_quality (default [] (dash_video d)) (∅, [])))
              (available_qualities (Some d)).
Proof.
  intros Ht. unfold available_qualities. rewrite Ht. apply sorted_by_perm.
Qed.

Lemma available_qualities_mem d q :
  dash_truthy d = true ->
  In q (map fst (available_qualities (Some d))) <->
  exists s, In s (default [] (dash_video d)) /\ stream_qid s = q.
Proof.
  intros Ht. destruct (collected_inv (default [] (dash_video d))) as (_ & Hmem & _).
  rewrite <- Hmem. pose proof (available_qualities_perm d Ht) as Hp.
  split; intros H; apply list_elem_of_In; apply list_elem_of_In in H.
  - now rewrite Hp.
  - now rewrite <- Hp.
Qed.

Lemma ascending_nat_le {A} (key : A -> nat) (l : list A) :
  ascending key Nat.ltb l -> Sorted (fun a b => (key a <= key b)%nat) l.
Proof.
  unfold ascending. induction 1 as [|a l Hs IH Hhd].
  - constructor.
  - constructor; [exact IH|].
    destruct Hhd as [|b l' Hb]; constructor. now apply Nat.ltb_ge in Hb.
Qed.

(** X4: the qualities offered for a manifest are the ids of its video
    streams (0 for a stream without id), each once, each with its name from
    [VIDEO_QUALITY_NAME] or [qn=id], in ascending order of priority rank. *)
Theorem available_qualities_spec (d : DashData) :
  dash_truthy d = true ->
  NoDup (map fst (available_qualities (Some d))) /\
  (forall q, In q (map fst (available_qualities (Some d))) <->
             exists s, In s (default [] (dash_video d)) /\ stream_qid s = q) /\
  (forall q n, In (q, n) (available_qualities (Some d)) -> n = quality_name q) /\
  Sorted (fun a b => (quality_sort_key a <= quality_sort_key b)%nat)
         (available_qualities (Some d)).
Proof.
  intros Ht. pose proof (available_qualities_perm d Ht) as Hp.
  destruct (collected_inv (default [] (dash_video d))) as (_ & _ & Hnd & Hname).
  split; [|split; [|split]].
  - now rewrite <- Hp.
  - intros q. now apply available_qualities_mem.
  - intros q n Hin. apply Hname. apply list_elem_of_In.
    apply list_elem_of_In in Hin. now rewrite Hp.
  - apply ascending_nat_le. unfold available_qualities. rewrite Ht.
    apply sorted_by_ascending.
    + exact nat_ltb_irrefl.
    + exact nat_ltb_trans.
Qed.

Lemma available_qualities_spec_witness :
  dash_truthy ranked_dash = true /\
  map fst (available_qualities (Some ranked_dash)) = [80; 64] /\
  NoDup (map fst (available_qualities (Some ranked_dash))).
Proof.
  split; [reflexivity|]. split; [reflexivity|].
  exact (proj1 (available_qualities_spec ranked_dash eq_refl)).
Defined.

(** X5: a quality offered for a manifest, other than 0, when asked of the
    same manifest gives a stream of exactly that quality. *)
Theorem offered_quality_is_selected (d : DashData) (q : Z) :
  dash_truthy d = true ->
  q <> 0 ->
  In q (map fst (available_qualities (Some d))) ->
  exists s, _select_video_stream q d = Some s /\ stream_id s = Some q.
Proof.
  intros Ht Hq Hin. apply (available_qualities_mem d q Ht) in Hin as (s & Hs & Hid).
  assert (id_is q s = true) as Hid'.
  { apply id_is_true. unfold stream_qid in Hid.
    destruct (stream_id s); simpl in Hid; congruence. }
  destruct (select_video_stream_head q d Hq) as (l1 & s' & l2 & _ & Hsel & Hs' & _).
  { intros Hnil. assert (In s (List.filter (id_is q) (default [] (dash_video d)))) as H
      by (apply filter_In; auto).
    rewrite Hnil in H. destruct H. }
  exists s'. split; [exact Hsel|now apply id_is_true].
Qed.

Lemma offered_quality_is_selected_witness :
  dash_truthy ranked_dash = true /\ 64 <> 0 /\
  In 64 (map fst (available_qualities (Some ranked_dash))) /\
  exists s, _select_video_stream 64 ranked_dash = Some s /\ stream_id s = Some 64.
Proof.
  assert (64 <> 0) as Hq by lia.
  assert (In 64 (map fst (available_qualities (Some ranked_dash)))) as Hin
    by (vm_compute; right; left; reflexivity).
  split; [reflexivity|]. split; [exact Hq|]. split; [exact Hin|].
  exact (offered_quality_is_selected ranked_dash 64 eq_refl Hq Hin).
Defined.

Lemma enumerate_from_nth {A} (xs : list A) n i :
  nth_error (enumerate_from n xs) i = (fun x => ((n + i)%nat, x)) <$> nth_error xs i.
Proof.
  revert n i. induction xs as [|x r IH]; intros n [|i]; simpl; auto.
  - now rewrite Nat.add_0_r.
  - rewrite IH. now replace (S n + i)%nat with (n + S i)%nat by lia.
Qed.

Lemma enumerate_from_length {A} (xs : list A) n :
  length (enumerate_from n xs) = length xs.
Proof. revert n. induction xs; simpl; auto. Qed.

Lemma getitem_nth {A} (xs : list A) i x :
  nth_error xs i = Some x -> getitem xs (Z.of_nat i) = Ret x.
Proof.
  intros H. unfold getitem. cbv zeta.
  assert (Z.ltb (Z.of_nat i) 0 = false) as Hlt by (apply Z.ltb_ge; lia).
  rewrite Hlt. cbv iota. rewrite Hlt, Nat2Z.id, H. reflexivity.
Qed.

(** X6: the page list offered has one entry for each page of the item, in
    order and numbered from 1; the job accepts each number offered, finds
    that very page under it, and uses the part name shown with it. *)
Theorem page_entries_match_job (pages : list PageInfo) :
  length (page_entries pages) = length pages /\
  forall i p,
    nth_error pages i = Some p ->
    let page := Z.of_nat i + 1 in
    nth_error (page_entries pages) i
    = Some (page, default (String.append "P" (pretty page)) (page_part p)) /\
    Z.ltb (Z.of_nat (length pages)) page = false /\
    getitem pages (page - 1) = Ret p.
Proof.
  split.
  - unfold page_entries. now rewrite length_map, enumerate_from_length.
  - intros i p Hp page. split; [|split].
    + unfold page_entries. rewrite nth_error_map, enumerate_from_nth, Hp. reflexivity.
    + apply Z.ltb_ge. assert (i < length pages)%nat as Hlt
        by (apply nth_error_Some; congruence).
      unfold page. lia.
    + unfold page. replace (Z.of_nat i + 1 - 1) with (Z.of_nat i) by lia.
      now apply getitem_nth.
Qed.

End Offered.

(** ** Identifier parsing: blanks and the shape of the ids *)

Section ParserMore.









Lemma ascii_of_code c n : PyLib.is_char n c = true -> c = ascii_of_nat n.
Proof.
  unfold PyLib.is_char, PyLib.code. intros H. apply Nat.eqb_eq in H.
  rewrite <- H. symmetry. apply ascii_nat_embedding.
Qed.

Lemma digits_value_nonneg s :
  forall acc, 0 <= acc -> PyStr.all_chars PyLib.is_digit s = true ->
              0 <= PyLib.digits_value acc s.
Proof.
  induction s as [|c r IH]; simpl; intros acc Hacc H; [exact Hacc|].
  apply andb_true_iff in H as [Hc Hr]. apply IH; [|exact Hr].
  unfold PyLib.is_digit, PyLib.in_range in Hc.
  apply andb_true_iff in Hc as [Hlo Hhi]. apply Nat.leb_le in Hlo, Hhi.
  unfold PyLib.digit_value. lia.
Qed.

Lemma take_while_all p s : PyStr.all_chars p (PyLib.take_while p s) = true.
Proof.
  induction s as [|c r IH]; simpl; [reflexivity|].
  destruct (p c) eqn:E; simpl; [now rewrite E|reflexivity].
Qed.

Lemma match_av_digits s ds :
  PyLib.match_av s = Some ds -> PyStr.all_chars PyLib.is_digit ds = true.
Proof.
  unfold PyLib.match_av. destruct s as [|a [|v [|d r]]]; try discriminate.
  destruct (_ && _ && PyStr.all_chars _ _) eqn:E; [|discriminate].
  intros [= <-]. now apply andb_true_iff in E as [_ E].
Qed.

Lemma search_av_digits s ds :
  PyLib.search_av s = Some ds -> PyStr.all_chars PyLib.is_digit ds = true.
Proof.
  induction s as [|c r IH]; [discriminate|].
  change (PyLib.search_av (String c r))
    with (match PyLib.av_here (String c r) with
          | Some ds => Some ds
          | None => PyLib.search_av r
          end).
  destruct (PyLib.av_here (String c r)) as [ds'|] eqn:E; [|exact IH].
  intros [= <-]. unfold PyLib.av_here in E. destruct r as [|v r']; [discriminate|].
  destruct (_ && _); [|discriminate].
  destruct (PyLib.take_while PyLib.is_digit r') eqn:Et; [discriminate|].
  injection E as <-. rewrite <- Et. apply take_while_all.
Qed.

Lemma substring_length_le n s : (String.length (String.substring 0 n s) <= n)%nat.
Proof.
  revert s. induction n as [|n IH]; intros [|c r]; simpl; try lia.
  specialize (IH r). lia.
Qed.

Lemma substring_drop n s :
  s = String.append (String.substring 0 n s) (PyStr.drop n s).
Proof.
  revert s. induction n as [|n IH]; intros [|c r]; try reflexivity.
  change (String c r
          = String c (String.append (String.substring 0 n r) (PyStr.drop n r))).
  now rewrite <- IH.
Qed.

Lemma bv_here_shape s :
  PyLib.bv_here s = true ->
  String.length (String.substring 0 12 s) = 12%nat /\
  PyStr.all_chars PyLib.is_alnum (String.substring 0 12 s) = true /\
  Py.startswith (Py.upper (String.substring 0 12 s)) "BV" = true.
Proof.
  intros E. destruct s as [|c [|v r']]; try discriminate.
  change (String.substring 0 12 (String c (String v r')))
    with (String c (String v (String.substring 0 10 r'))).
  unfold PyLib.bv_here in E.
  apply andb_true_iff in E as [E Hal]. apply andb_true_iff in E as [E Hlen].
  apply andb_true_iff in E as [Hb Hv]. apply Nat.eqb_eq in Hlen.
  assert (PyLib.is_alnum c = true /\ PyLib.is_alnum v = true /\
          Py.ascii_upper c = "B"%char /\ Py.ascii_upper v = "V"%char)
    as (Hc1 & Hv1 & Hc2 & Hv2).
  { apply orb_true_iff in Hb as [Hb|Hb]; apply ascii_of_code in Hb; subst c;
      apply orb_true_iff in Hv as [Hv|Hv]; apply ascii_of_code in Hv; subst v;
      repeat split; reflexivity. }
  split; [simpl; now rewrite Hlen|]. split.
  - simpl. now rewrite Hc1, Hv1, Hal.
  - unfold Py.startswith, Py.upper.
    change (Py.str_map Py.ascii_upper (String c (String v (String.substring 0 10 r'))))
      with (String (Py.ascii_upper c)
              (String (Py.ascii_upper v)
                 (Py.str_map Py.ascii_upper (String.substring 0 10 r')))).
    rewrite Hc2, Hv2. simpl. now destruct (Py.str_map _ _).
Qed.

(** What [re.search] finds is the leftmost match, as it stands in the
    text. *)
Lemma search_bv_found s b :
  PyLib.search_bv s = Some b ->
  exists pre post,
    s = String.append pre (String.append b post) /\
    PyLib.bv_here (PyStr.drop (String.length pre) s) = true /\
    (forall k, (k < String.length pre)%nat -> PyLib.bv_here (PyStr.drop k s) = false) /\
    String.length b = 12%nat /\
    PyStr.all_chars PyLib.is_alnum b = true /\
    Py.startswith (Py.upper b) "BV" = true.
Proof.
  induction s as [|c r IH]; [discriminate|].
  change (PyLib.search_bv (String c r))
    with (if PyLib.bv_here (String c r)
          then Some (String.substring 0 12 (String c r))
          else PyLib.search_bv r).
  destruct (PyLib.bv_here (String c r)) eqn:E.
  - intros [= <-]. exists EmptyString, (PyStr.drop 12 (String c r)).
    split; [apply (substring_drop 12 (String c r))|].
    split; [exact E|]. split; [intros k Hk; simpl in Hk; lia|].
    exact (bv_here_shape (String c r) E).
  - intros Hb. destruct (IH Hb) as (pre & post & Heq & Hat & Hleft & Hshape).
    exists (String c pre), post. split; [|split; [|split]].
    + change (String c r = String c (String.append pre (String.append b post))).
      congruence.
    + exact Hat.
    + intros [|k] Hk; [exact E|]. simpl in Hk. apply Hleft. lia.
    + exact Hshape.
Qed.

Lemma search_bv_shape s b :
  PyLib.search_bv s = Some b ->
  String.length b = 12%nat /\
  PyStr.all_chars PyLib.is_alnum b = true /\
  Py.startswith (Py.upper b) "BV" = true.
Proof.
  intros H. destruct (search_bv_found s b H) as (_ & _ & _ & _ & _ & Hs). exact Hs.
Qed.

Lemma ascii_not_continuation c :
  PyLib.is_ascii c = true -> PyStr.continuation c = false.
Proof.
  unfold PyLib.is_ascii, PyLib.code, PyStr.continuation. intros H.
  apply Nat.ltb_lt in H. apply andb_false_iff. left. apply Nat.leb_gt. lia.
Qed.

(** In ASCII text a character is a byte. *)
Lemma ascii_text_len s :
  ascii_text s = true -> PyStr.len s = Z.of_nat (String.length s).
Proof.
  unfold ascii_text, PyStr.len. intros H. f_equal.
  induction s as [|c r IH]; [reflexivity|]. simpl in *.
  apply andb_true_iff in H as [Hc Hr].
  rewrite (ascii_not_continuation _ Hc). now rewrite IH.
Qed.

Lemma ascii_text_strip p s :
  ascii_text s = true -> ascii_text (PyStr.strip p s) = true.
Proof. intros H. apply all_chars_rstrip, all_chars_lstrip, H. Qed.

Lemma all_chars_app_inv p a b :
  PyStr.all_chars p (String.append a b) = true ->
  PyStr.all_chars p a = true /\ PyStr.all_chars p b = true.
Proof.
  induction a as [|c r IH].
  - change (String.append EmptyString b) with b. auto.
  - change (String.append (String c r) b) with (String c (String.append r b)).
    simpl. intros H. apply andb_true_iff in H as [Hc H].
    destruct (IH H) as [Ha Hb]. now rewrite Hc, Ha.
Qed.

Lemma parse_video_url_shape_aux (url : string) :
  (forall b, fst (fst (parse_video_url url)) = Some b ->
     Py.startswith (Py.upper b) "BV" = true /\
     PyStr.len b <= 12 /\
     (b = PyStr.strip PyLib.is_space url \/
      (String.length b = 12%nat /\ PyStr.all_chars PyLib.is_alnum b = true /\
       exists parsed pre post,
         PyLib.urlparse (PyStr.strip PyLib.is_space url) = Some parsed /\
         PyLib.path parsed = String.append pre (String.append b post) /\
         forall k, (k < String.length pre)%nat ->
                   PyLib.bv_here (PyStr.drop k (PyLib.path parsed)) = false))) /\
  (forall a, snd (fst (parse_video_url url)) = Some a -> 0 <= a).
Proof.
  unfold parse_video_url.
  set (u := PyStr.strip PyLib.is_space url).
  destruct (Py.startswith (Py.upper u) "BV" && Z.leb (PyStr.len u) 12) eqn:E1.
  { apply andb_true_iff in E1 as [Hp Hl]. apply Z.leb_le in Hl.
    simpl. split; [|discriminate].
    intros b [= <-]. split; [exact Hp|]. split; [lia|now left]. }
  destruct (PyLib.match_av u) as [digits|] eqn:E2.
  { simpl. split; [discriminate|]. intros a [= <-].
    apply digits_value_nonneg; [lia|]. eapply match_av_digits; eauto. }
  destruct (PyLib.urlparse u) as [parsed|]; [|simpl; split; discriminate].
  destruct (PyLib.search_bv (PyLib.path parsed)) as [bvid|] eqn:E3.
  - destruct (page_of_query _); simpl; (split; [|discriminate]); [|discriminate].
    intros b [= <-].
    destruct (search_bv_found _ _ E3) as (pre & post & Heq & _ & Hleft & Hlen & Hal & Hp).
    assert (PyStr.len bvid = 12) as Hl.
    { rewrite ascii_text_len; [lia|]. unfold ascii_text.
      clear - Hal. induction bvid as [|c r IH]; [reflexivity|]. simpl in *.
      apply andb_true_iff in Hal as [Hc Hr]. rewrite (IH Hr), andb_true_r.
      unfold PyLib.is_ascii. apply Nat.ltb_lt.
      unfold PyLib.is_alnum, PyLib.is_alpha, PyLib.is_digit, PyLib.in_range in Hc.
      repeat (apply orb_true_iff in Hc as [Hc|Hc]);
        apply andb_true_iff in Hc as [_ Hc]; apply Nat.leb_le in Hc; lia. }
    split; [exact Hp|]. split; [lia|]. right.
    split; [exact Hlen|]. split; [exact Hal|]. eauto 6.
  - destruct (PyLib.search_av (PyLib.path parsed)) as [digits|] eqn:E4;
      [|simpl; split; discriminate].
    destruct (page_of_query _); simpl; (split; [discriminate|]); [|discriminate].
    intros a [= <-]. apply digits_value_nonneg; [lia|]. eapply search_av_digits; eauto.
Qed.

(** X8: for ASCII text, a [bvid] the parser returns begins with BV in
    either case and has at most 12 characters: it is the whole trimmed
    input, or the leftmost run of BV and ten ASCII letters and digits in
    the path of the URL, kept as written; an [aid] it returns is never
    negative. *)
Theorem parse_video_url_id_shape (url : string) :
  ascii_text url = true ->
  (forall b, fst (fst (parse_video_url url)) = Some b ->
     Py.startswith (Py.upper b) "BV" = true /\
     (String.length b <= 12)%nat /\
     (b = PyStr.strip PyLib.is_space url \/
      (String.length b = 12%nat /\ PyStr.all_chars PyLib.is_alnum b = true /\
       exists parsed pre post,
         PyLib.urlparse (PyStr.strip PyLib.is_space url) = Some parsed /\
         PyLib.path parsed = String.append pre (String.append b post) /\
         forall k, (k < String.length pre)%nat ->
                   PyLib.bv_here (PyStr.drop k (PyLib.path parsed)) = false))) /\
  (forall a, snd (fst (parse_video_url url)) = Some a -> 0 <= a).
Proof.
  intros Hascii. destruct (parse_video_url_shape_aux url) as [Hb Ha].
  split; [|exact Ha]. intros b Hr.
  destruct (Hb b Hr) as (Hp & Hl & Hcases). split; [exact Hp|].
  split; [|exact Hcases].
  destruct Hcases as [->|(Hlen & _)]; [|lia].
  rewrite ascii_text_len in Hl by now apply ascii_text_strip. lia.
Qed.

Lemma parse_video_url_id_shape_witness :
  ascii_text "https://x/video/BV1xx411c7mD?p=3" = true /\
  fst (fst (parse_video_url "https://x/video/BV1xx411c7mD?p=3")) = Some "BV1xx411c7mD" /\
  Py.startswith (Py.upper "BV1xx411c7mD") "BV" = true /\
  (String.length "BV1xx411c7mD" <= 12)%nat.
Proof.
  assert (ascii_text "https://x/video/BV1xx411c7mD?p=3" = true) as H1 by reflexivity.
  assert (fst (fst (parse_video_url "https://x/video/BV1xx411c7mD?p=3"))
          = Some "BV1xx411c7mD") as H2 by (vm_compute; reflexivity).
  split; [exact H1|]. split; [exact H2|].
  destruct (proj1 (parse_video_url_id_shape _ H1) _ H2) as (Hp & Hl & _).
  split; [exact Hp|exact Hl].
Defined.

End ParserMore.

(** ** File names: length, repeated cleaning, the output path *)

Section SanitizeMore.

Local Abbreviation replaced f :=
  (Py.str_map (fun c => if illegal_chars c then "_"%char else c) f).

Lemma str_map_length g s : String.length (Py.str_map g s) = String.length s.
Proof. induction s; simpl; congruence. Qed.

Lemma lstrip_length p s : (String.length (PyStr.lstrip p s) <= String.length s)%nat.
Proof. induction s as [|c r IH]; simpl; [lia|]. destruct (p c); simpl; lia. Qed.

Lemma rstrip_length p s : (String.length (PyStr.rstrip p s) <= String.length s)%nat.
Proof.
  induction s as [|c r IH]; simpl; [lia|].
  destruct (PyStr.rstrip p r) as [|d r'] eqn:E.
  - destruct (p c); simpl; lia.
  - change (String.length (String c (String d r')))
      with (S (String.length (String d r'))). lia.
Qed.

Lemma strip_length p s : (String.length (PyStr.strip p s) <= String.length s)%nat.
Proof.
  unfold PyStr.strip. pose proof (rstrip_length p (PyStr.lstrip p s)).
  pose proof (lstrip_length p s). lia.
Qed.

Lemma substring_prefix_length n s :
  (String.length (String.substring 0 n s) <= Nat.min n (String.length s))%nat.
Proof.
  revert s. induction n as [|n IH]; intros [|c r]; simpl; try lia.
  specialize (IH r). lia.
Qed.

Lemma sanitize_filename_cases filename max_length :
  let trimmed := PyStr.strip space_or_dot (replaced filename) in
  sanitize_filename filename max_length = "video" \/
  (sanitize_filename filename max_length = trimmed /\ PyStr.len trimmed <= max_length) \/
  (sanitize_filename filename max_length = PyStr.slice_to max_length trimmed /\
   max_length < PyStr.len trimmed).
Proof.
  intros trimmed. unfold sanitize_filename. fold trimmed.
  destruct (Z.ltb max_length (PyStr.len trimmed)) eqn:E.
  - apply Z.ltb_lt in E. destruct (PyStr.slice_to max_length trimmed); auto.
  - apply Z.ltb_ge in E. destruct trimmed; auto.
Qed.

Lemma illegal_not_continuation c :
  illegal_chars c = true -> PyStr.continuation c = false.
Proof.
  unfold illegal_chars, PyStr.continuation. intros E.
  apply andb_false_iff. left. apply Nat.leb_gt.
  apply orb_true_iff in E as [E|E]; [apply Nat.leb_le in E; lia|].
  simpl in E.
  repeat (apply orb_true_iff in E as [E|E]; [apply Nat.eqb_eq in E; lia|]).
  discriminate.
Qed.

Lemma replaced_count s : PyStr.count_chars (replaced s) = PyStr.count_chars s.
Proof.
  induction s as [|c r IH]; [reflexivity|]. simpl. rewrite IH.
  destruct (illegal_chars c) eqn:E; [|reflexivity].
  now rewrite (illegal_not_continuation c E).
Qed.

Lemma lstrip_count p s :
  (PyStr.count_chars (PyStr.lstrip p s) <= PyStr.count_chars s)%nat.
Proof.
  induction s as [|c r IH]; simpl; [lia|].
  destruct (p c); simpl; destruct (PyStr.continuation c); lia.
Qed.

Lemma rstrip_count p s :
  (PyStr.count_chars (PyStr.rstrip p s) <= PyStr.count_chars s)%nat.
Proof.
  induction s as [|c r IH]; [simpl; lia|].
  change (PyStr.rstrip p (String c r))
    with (match PyStr.rstrip p r with
          | EmptyString => if p c then EmptyString else String c EmptyString
          | String d r' => String c (String d r')
          end).
  destruct (PyStr.rstrip p r) as [|d r'] eqn:E.
  - destruct (p c); simpl; destruct (PyStr.continuation c); lia.
  - change (PyStr.count_chars (String c (String d r')))
      with (if PyStr.continuation c then PyStr.count_chars (String d r')
            else S (PyStr.count_chars (String d r'))).
    change (PyStr.count_chars (String c r))
      with (if PyStr.continuation c then PyStr.count_chars r
            else S (PyStr.count_chars r)).
    destruct (PyStr.continuation c); lia.
Qed.

Lemma strip_count p s :
  (PyStr.count_chars (PyStr.strip p s) <= PyStr.count_chars s)%nat.
Proof.
  unfold PyStr.strip. pose proof (rstrip_count p (PyStr.lstrip p s)).
  pose proof (lstrip_count p s). lia.
Qed.

(** X9: a cleaned name is never longer than the input or five characters,
    and, the limit not being negative, never longer than the limit or five
    characters; with the default limit it has at most 200 characters. *)
Theorem sanitize_filename_length (filename : string) (max_length : Z) :
  0 <= max_length ->
  PyStr.len (sanitize_filename filename max_length) <= Z.max max_length 5 /\
  PyStr.len (sanitize_filename filename max_length) <= Z.max (PyStr.len filename) 5 /\
  PyStr.len (sanitize_filename_default filename) <= 200.
Proof.
  assert (forall m, 0 <= m ->
            PyStr.len (sanitize_filename filename m) <= Z.max m 5 /\
            PyStr.len (sanitize_filename filename m) <= Z.max (PyStr.len filename) 5)
    as H.
  { intros m Hm.
    pose proof (strip_count space_or_dot (replaced filename)) as Hs.
    rewrite replaced_count in Hs.
    destruct (sanitize_filename_cases filename m) as [->|[[-> Hle]|[-> Hlt]]].
    - unfold PyStr.len. simpl. lia.
    - unfold PyStr.len in *. lia.
    - rewrite len_slice_to by exact Hm. unfold PyStr.len in *. lia. }
  intros Hm. destruct (H max_length Hm) as [H1 H2].
  split; [exact H1|]. split; [exact H2|].
  unfold sanitize_filename_default. destruct (H 200 ltac:(lia)) as [H3 _]. lia.
Qed.

Lemma sanitize_filename_length_witness :
  0 <= 3 /\ PyStr.len (sanitize_filename "ab cd" 3) <= Z.max 3 5.
Proof.
  assert (0 <= 3) as H by lia. split; [exact H|].
  exact (proj1 (sanitize_filename_length "ab cd" 3 H)).
Defined.

Lemma str_map_legal_id s :
  PyStr.all_chars legal s = true -> replaced s = s.
Proof.
  induction s as [|c r IH]; simpl; [reflexivity|].
  intros H. apply andb_true_iff in H as [Hc Hr]. rewrite (IH Hr).
  unfold legal in Hc. apply negb_true_iff in Hc. now rewrite Hc.
Qed.

Lemma lstrip_noop p s :
  (forall c, PyStr.first_char s = Some c -> p c = false) -> PyStr.lstrip p s = s.
Proof.
  destruct s as [|c r]; simpl; [reflexivity|]. intros H.
  now rewrite (H c eq_refl).
Qed.

Lemma rstrip_idem p s : PyStr.rstrip p (PyStr.rstrip p s) = PyStr.rstrip p s.
Proof.
  induction s as [|c r IH]; [reflexivity|].
  change (PyStr.rstrip p (String c r))
    with (match PyStr.rstrip p r with
          | EmptyString => if p c then EmptyString else String c EmptyString
          | String d r' => String c (String d r')
          end).
  destruct (PyStr.rstrip p r) as [|d r'] eqn:E.
  - destruct (p c) eqn:Ec; [reflexivity|]. simpl. now rewrite Ec.
  - change (PyStr.rstrip p (String c (String d r')))
      with (match PyStr.rstrip p (String d r') with
            | EmptyString => if p c then EmptyString else String c EmptyString
            | String d' r'' => String c (String d' r'')
            end).
    now rewrite IH.
Qed.

Lemma strip_idem p s : PyStr.strip p (PyStr.strip p s) = PyStr.strip p s.
Proof.
  unfold PyStr.strip.
  rewrite (lstrip_noop p (PyStr.rstrip p (PyStr.lstrip p s))).
  - apply rstrip_idem.
  - intros c Hc. apply first_char_rstrip in Hc. now apply first_char_lstrip in Hc.
Qed.

(** X10: cleaning a cleaned name changes nothing, provided the first
    cleaning did not have to cut (the trimmed name fits in the limit) and
    the limit leaves room for the default name. *)
Theorem sanitize_filename_idempotent (filename : string) (max_length : Z) :
  PyStr.len (PyStr.strip space_or_dot (replaced filename)) <= max_length ->
  5 <= max_length ->
  sanitize_filename (sanitize_filename filename max_length) max_length
  = sanitize_filename filename max_length.
Proof.
  intros Hfit Hm.
  set (trimmed := PyStr.strip space_or_dot (replaced filename)) in *.
  assert (sanitize_filename filename max_length
          = match trimmed with EmptyString => "video" | _ => trimmed end) as Hr.
  { unfold sanitize_filename. fold trimmed. apply Z.ltb_ge in Hfit. now rewrite Hfit. }
  rewrite Hr. destruct trimmed as [|c r] eqn:Et.
  - unfold sanitize_filename.
    change (PyStr.strip space_or_dot (replaced "video")) with "video".
    change (PyStr.len "video") with 5.
    assert (Z.ltb max_length 5 = false) as -> by (apply Z.ltb_ge; lia). reflexivity.
  - rewrite <- Et in *. unfold sanitize_filename.
    assert (PyStr.all_chars legal trimmed = true) as Hlegal.
    { unfold trimmed. apply all_chars_rstrip, all_chars_lstrip, all_chars_replace. }
    rewrite (str_map_legal_id _ Hlegal).
    replace (PyStr.strip space_or_dot trimmed) with trimmed
      by (unfold trimmed; now rewrite strip_idem).
    apply Z.ltb_ge in Hfit. rewrite Hfit. now rewrite Et.
Qed.

Lemma sanitize_filename_idempotent_witness :
  PyStr.len (PyStr.strip space_or_dot (replaced " a<b>.mp4 ")) <= 200 /\
  5 <= 200 /\
  sanitize_filename (sanitize_filename " a<b>.mp4 " 200) 200
  = sanitize_filename " a<b>.mp4 " 200.
Proof.
  assert (PyStr.len (PyStr.strip space_or_dot (replaced " a<b>.mp4 ")) <= 200) as H1
    by (vm_compute; discriminate).
  assert (5 <= 200) as H2 by lia.
  split; [exact H1|]. split; [exact H2|].
  exact (sanitize_filename_idempotent " a<b>.mp4 " 200 H1 H2).
Defined.

End SanitizeMore.

(** ** Chunked download: content, reports, cancelling *)

Section DownloadMore.

Variable http : option string -> Session.


(** With the flag never set, the loop of the thread does what the loop of
    the command line does. *)
Lemma loops_agree total evs :
  forall current wr n pr,
    let r := chunk_loop_with_progress total current wr n pr evs None in
    let e := chunk_loop total current wr n evs in
    snd r = None /\ exit (fst r) = exit e /\ written (fst r) = written e /\
    received (fst r) = received e /\ reads (fst r) = reads e.
Proof.
  induction evs as [|ev r IH]; intros current wr n pr.
  - simpl. destruct (Z.ltb current total); simpl; auto.
  - destruct ev as [[|b d]|err].
    + simpl. destruct (Z.ltb current total); simpl; auto.
    + rewrite chunk_loop_with_progress_cons, chunk_loop_cons.
      destruct (Z.ltb current total); [apply IH|simpl; auto].
    + simpl. destruct (Z.ltb current total); simpl; auto.
Qed.

Lemma download_with_progress_eq (url : option string) (output_path : string)
    (w : World) :
  cancel_in w = None ->
  _download_stream_with_progress http url output_path w
  = download_stream http url output_path w.
Proof.
  intros Hc. unfold _download_stream_with_progress, download_stream.
  destruct (create (http url)) as [total|err]; [|reflexivity].
  rewrite Hc.
  destruct (loops_agree total (events (http url)) 0 [] 0%nat [])
    as (H1 & H2 & H3 & _).
  destruct (chunk_loop_with_progress total 0 [] 0 [] (events (http url)) None)
    as [e c'] eqn:E.
  simpl in *. subst c'. unfold bind, write_file, ret. simpl.
  rewrite H2, H3, Hc.
  destruct (exit (chunk_loop total 0 [] 0 (events (http url)))) eqn:Ex;
    try reflexivity.
  exfalso. destruct (chunk_loop_spec total (events (http url)) 0 [] 0%nat)
    as (_ & _ & _ & H & _). contradiction.
Qed.

(** X11: when [cancel()] never comes, [_download_stream_with_progress] and
    [download_stream] return the same result and leave the same files. *)
Theorem download_with_progress_refines (url : option string) (output_path : string)
    (w : World) :
  cancel_in w = None ->
  _download_stream_with_progress http url output_path w
  = download_stream http url output_path w.
Proof. apply download_with_progress_eq. Qed.



Lemma chunk_loop_with_progress_reads total evs :
  forall current wr n pr m,
    let r := chunk_loop_with_progress total current wr n pr evs (Some m) in
    (reads (fst r) <= n + m)%nat /\
    (exit (fst r) = SawCancel -> snd r = Some 0%nat).
Proof.
  induction evs as [|ev r IH]; intros current wr n pr m.
  - simpl. destruct (Z.ltb current total); destruct m; simpl;
      (split; [lia|try discriminate; auto]).
  - destruct ev as [[|b d]|err].
    + simpl. destruct (Z.ltb current total); destruct m; simpl;
        (split; [lia|try discriminate; auto]).
    + rewrite chunk_loop_with_progress_cons. destruct (Z.ltb current total).
      * destruct m as [|m].
        -- simpl. split; [lia|auto].
        -- destruct (IH (current + blen (b :: d)) (wr ++ b :: d)%list (S n)
                        (pr ++ [(current + blen (b :: d), total)])%list m)
             as [H1 H2].
           split; [lia|exact H2].
      * simpl. split; [lia|discriminate].
    + simpl. destruct (Z.ltb current total); destruct m; simpl;
        (split; [lia|try discriminate; auto]).
Qed.

(** X13: when the [n] next reads of the cancel flag are the last to see it
    unset, [_download_stream_with_progress] reads at most [n] chunks; a
    loop left on the flag returns [False]; and with the flag set from the
    start and a positive total it reads nothing and leaves an empty
    file. *)
Theorem download_cancel_halts_reads (url : option string) (output_path : string)
    (w : World) (total : Z) (n : nat) :
  create (http url) = Ret total ->
  cancel_in w = Some n ->
  let r := chunk_loop_with_progress total 0 [] 0 [] (events (http url)) (Some n) in
  (reads (fst r) <= n)%nat /\
  (exit (fst r) = SawCancel ->
   _download_stream_with_progress http url output_path w
   = (Ret false, mkWorld (<[output_path := written (fst r)]> (files w)) (Some 0%nat))) /\
  (n = 0%nat -> 0 < total ->
   _download_stream_with_progress http url output_path w
   = (Ret false, mkWorld (<[output_path := []]> (files w)) (Some 0%nat))).
Proof.
  intros Hc Hn r.
  destruct (chunk_loop_with_progress_reads total (events (http url)) 0 [] 0%nat [] n)
    as [H1 H2]. fold r in H1, H2.
  split; [exact H1|]. split.
  - intros Hx. unfold _download_stream_with_progress. rewrite Hc, Hn. fold r.
    specialize (H2 Hx). destruct r as [e c']. simpl in *. now rewrite Hx, H2.
  - intros -> Ht. unfold _download_stream_with_progress. rewrite Hc, Hn.
    apply Z.ltb_lt in Ht.
    destruct (events (http url)) as [|[[|b d]|err] evs]; simpl; now rewrite Ht.
Qed.

Lemma StronglySorted_snoc {A} (R : A -> A -> Prop) l x :
  StronglySorted R l -> Forall (fun y => R y x) l -> StronglySorted R (l ++ [x]).
Proof.
  induction 1 as [|a l Hs IH Ha]; intros Hall; simpl.
  - repeat constructor.
  - apply Forall_cons in Hall as [Hax Hall]. constructor; [now apply IH|].
    apply Forall_app. split; [exact Ha|]. now constructor.
Qed.

Lemma progress_inv_snoc total current pr c :
  progress_inv total current pr -> 0 <= current -> current < total -> current < c ->
  progress_inv total c (pr ++ [(c, total)]).
Proof.
  intros (Ha & Hs & _ & _) H0 Hlt Hc. split; [|split; [|split]].
  - apply Forall_app. split.
    + eapply Forall_impl; [exact Ha|]. simpl. intros p [? ?]. split; [auto|lia].
    + constructor; [simpl; split; [reflexivity|lia]|constructor].
  - rewrite map_app. simpl. apply StronglySorted_snoc; [exact Hs|].
    apply Forall_forall. intros y Hy. apply list_elem_of_In in Hy.
    apply in_map_iff in Hy as (p & <- & Hp). rewrite Forall_forall in Ha.
    apply list_elem_of_In in Hp. destruct (Ha _ Hp). lia.
  - rewrite removelast_last. eapply Forall_impl; [exact Ha|]. simpl. intros p [? ?]. lia.
  - intros p Hp. rewrite last_snoc in Hp. injection Hp as <-. reflexivity.
Qed.

Lemma chunk_loop_with_progress_reports total evs :
  forall current wr n pr c,
    0 <= current -> progress_inv total current pr ->
    let e := fst (chunk_loop_with_progress total current wr n pr evs c) in
    progress_inv total (received e) (progress e).
Proof.
  induction evs as [|ev r IH]; intros current wr n pr c H0 Hinv.
  - simpl. destruct (Z.ltb current total); destruct c as [[|m]|]; simpl; exact Hinv.
  - destruct ev as [[|b d]|err].
    + simpl. destruct (Z.ltb current total); destruct c as [[|m]|]; simpl; exact Hinv.
    + rewrite chunk_loop_with_progress_cons.
      destruct (Z.ltb current total) eqn:E; [|exact Hinv].
      apply Z.ltb_lt in E.
      assert (current < current + blen (b :: d)) as Hgrow
        by (unfold blen; simpl length; lia).
      destruct c as [[|m]|]; [exact Hinv| |];
        (apply IH; [lia|now apply (progress_inv_snoc total current)]).
    + simpl. destruct (Z.ltb current total); destruct c as [[|m]|]; simpl; exact Hinv.
Qed.

(** X14: the progress reports of a download all carry the reported total;
    their byte counts are positive and strictly increasing, the last one is
    the number of bytes received, and every report before the last is below
    the total. *)
Theorem progress_reports_increase (url : option string) (total : Z) (c : option nat) :
  let e := fst (chunk_loop_with_progress total 0 [] 0 [] (events (http url)) c) in
  Forall (fun p => snd p = total /\ 0 < fst p <= received e) (progress e) /\
  StronglySorted Z.lt (map fst (progress e)) /\
  Forall (fun p => fst p < total) (removelast (progress e)) /\
  (forall p, last (progress e) = Some p -> fst p = received e).
Proof.
  apply (chunk_loop_with_progress_reports total (events (http url)) 0 [] 0%nat [] c);
    [lia|].
  split; [constructor|]. split; [constructor|]. split; [constructor|].
  intros p Hp. discriminate.
Qed.

End DownloadMore.

Section DownloadMoreCases.

Lemma download_with_progress_refines_witness :
  cancel_in empty_world = None /\
  _download_stream_with_progress http_breaks (Some "u") "out" empty_world
  = download_stream http_breaks (Some "u") "out" empty_world.
Proof.
  split; [reflexivity|].
  exact (download_with_progress_refines http_breaks (Some "u") "out" empty_world eq_refl).
Defined.


Lemma download_cancel_halts_reads_witness :
  create (http_good (Some "v")) = Ret 6 /\
  cancel_in (mkWorld ∅ (Some 1%nat)) = Some 1%nat /\
  (reads (fst (chunk_loop_with_progress 6 0 [] 0 [] (events (http_good (Some "v")))
                 (Some 1%nat))) <= 1)%nat.
Proof.
  split; [reflexivity|]. split; [reflexivity|].
  exact (proj1 (download_cancel_halts_reads http_good (Some "v") "out"
                  (mkWorld ∅ (Some 1%nat)) 6 1 eq_refl eq_refl)).
Defined.

End DownloadMoreCases.

(** ** Merging: what a failed merge leaves *)

Section MergeMore.

Variable tool : Tool.

(** X15: a merge that does not return [True] deletes nothing: every file
    that was there is still there, and only the output path can have
    changed; it returns [True] only when the version check and the merge
    command both exited with 0, and it raises only when the version check
    raises. *)
Theorem merge_video_audio_failure_keeps_files
    (video_path audio_path output_path : string) (w : World) :
  let res := merge_video_audio tool video_path audio_path output_path w in
  ((forall l, fst res <> Ret (true, l)) ->
   (forall p, is_Some (files w !! p) -> is_Some (files (snd res) !! p)) /\
   (forall p, p <> output_path -> files (snd res) !! p = files w !! p)) /\
  (forall l, fst res = Ret (true, l) ->
   ffmpeg_version tool = VersionExited 0 /\
   exists stderr output,
     ffmpeg_merge tool (files w !! video_path) (files w !! audio_path)
     = MergeExited 0 stderr output) /\
  (forall e, fst res = Raise e -> ffmpeg_version tool = VersionRaises e /\ snd res = w) /\
  cancel_in (snd res) = cancel_in w.
Proof.
  unfold merge_video_audio, bind, check_ffmpeg, ret, raise.
  destruct (ffmpeg_version tool) as [|e|rc]; simpl.
  - split; [intros _; split; auto|].
    split; [intros l H; discriminate|].
    split; [intros e H; discriminate|reflexivity].
  - split; [intros _; split; auto|].
    split; [intros l H; discriminate|].
    split; [intros e' [= <-]; split; reflexivity|reflexivity].
  - destruct (Z.eqb rc 0) eqn:Erc; simpl.
    2:{ split; [intros _; split; auto|].
        split; [intros l H; discriminate|].
        split; [intros e H; discriminate|reflexivity]. }
    apply Z.eqb_eq in Erc. subst rc.
    destruct (ffmpeg_merge tool _ _) as [e|rc stderr output] eqn:Em; simpl.
    { split; [intros _; split; auto|].
      split; [intros l H; discriminate|].
      split; [intros e' H; discriminate|reflexivity]. }
    destruct (Z.eqb rc 0) eqn:Erc; simpl.
    + apply Z.eqb_eq in Erc. subst rc. split; [|split; [|split]].
      * intros Hn. exfalso. eapply Hn. reflexivity.
      * intros l _. split; [reflexivity|eauto].
      * intros e H. discriminate.
      * now destruct output.
    + split; [|split; [|split]].
      * intros _. destruct output as [data|]; simpl; [|auto]. split.
        -- intros p Hp. destruct (decide (output_path = p)) as [->|Hne].
           ++ rewrite lookup_insert_eq. eauto.
           ++ now rewrite lookup_insert_ne.
        -- intros p Hne. now rewrite lookup_insert_ne.
      * intros l H. discriminate.
      * intros e H. discriminate.
      * now destruct output.
Qed.

End MergeMore.

(** ** Job coordination: reports, exceptions, temporary files *)

Section JobsMore.

Ltac job_step H :=
  match type of H with
  | bind _ _ _ = _ =>
      let a := fresh "a" in let w1 := fresh "w" in let e := fresh "e" in
      let H1 := fresh "Hm" in
      apply bind_inv in H as [(a & w1 & H1 & H)|(e & H1 & H)]
  | (if ?b then _ else _) _ = _ => destruct b eqn:?
  | (match ?x with _ => _ end) _ = _ => destruct x eqn:?
  | (let '(_, _) := ?x in _) _ = _ => destruct x eqn:?
  end.

Lemma read_cancelled_inv w r w' :
  read_cancelled w = (r, w') ->
  files w' = files w /\ exists b, r = Ret b.
Proof.
  unfold read_cancelled. destruct (cancel_in w) as [[|n]|]; intros [= <- <-]; eauto.
Qed.

Lemma download_with_progress_inv http url p w r w' :
  _download_stream_with_progress http url p w = (r, w') ->
  (exists b, r = Ret b) /\
  (r = Ret true -> exists data, files w' = <[p := data]> (files w)) /\
  (forall q, q <> p -> files w' !! q = files w !! q).
Proof.
  unfold _download_stream_with_progress, ret.
  destruct (create (http url)) as [total|err].
  - destruct (chunk_loop_with_progress _ _ _ _ _ _ _) as [e c']. intros [= <- <-].
    simpl. split; [eauto|]. split; [eauto|].
    intros q Hq. now apply lookup_insert_ne.
  - intros [= <- <-]. split; [eauto|]. split; [discriminate|auto].
Qed.

Lemma sanitize_filename_legal filename max_length :
  PyStr.all_chars legal (sanitize_filename filename max_length) = true /\
  sanitize_filename filename max_length <> EmptyString.
Proof.
  assert (PyStr.all_chars legal
            (PyStr.strip space_or_dot
               (Py.str_map (fun c => if illegal_chars c then "_"%char else c) filename))
          = true) as Hlegal.
  { apply all_chars_rstrip, all_chars_lstrip, all_chars_replace. }
  unfold sanitize_filename. split.
  - destruct (Z.ltb _ _).
    + pose proof (all_chars_slice_to legal max_length _ Hlegal) as H.
      destruct (PyStr.slice_to _ _); [reflexivity|exact H].
    + destruct (PyStr.strip _ _); [reflexivity|exact Hlegal].
  - destruct (if Z.ltb _ _ then _ else _); discriminate.
Qed.

(** X16: whenever the thread's job reports success, its message names a
    file directly under the output directory whose name, before the
    [.mp4], is not empty and holds no illegal character (so no separator),
    together with the size of the file now at that path, if there is
    one. *)
Theorem job_success_report (s : Service) (url output_dir : string)
    (page quality : Z) (w w' : World) (m : message) :
  run s url output_dir page quality w = (Ret (true, m), w') ->
  exists name,
    m = MsgDone (path_join output_dir (String.append name ".mp4"))
                (Z.of_nat <$> (length <$> files w' !! path_join output_dir
                                                       (String.append name ".mp4"))) /\
    PyStr.all_chars legal name = true /\
    name <> EmptyString.
Proof.
  intros H. unfold run, try_except in H.
  destruct (_download s url output_dir page quality w) as [[[ok m']|e] w1] eqn:Hd;
    [|discriminate].
  injection H as -> -> ->. unfold _download in Hd.
  repeat (job_step Hd; try discriminate);
    unfold ret, unlink, lift, finish, raise, size_if_exists, bind in *; simpl in *.
  all: try discriminate.
  all: injection Hd as <- <-.
  all: eexists; split; [reflexivity|apply sanitize_filename_legal].
Qed.

Ltac chase_files :=
  repeat match goal with
         | |- None = None => reflexivity
         | H : ?x <> ?x |- _ => contradiction
         | H : files ?a = _ |- context [files ?a] => rewrite H
         | H : forall q, q <> _ -> files ?a !! q = _ |- context [files ?a !! ?k] =>
             rewrite (H k) by congruence
         end;
  try assumption.

(** X18: when the thread's job fails or is cancelled with another message
    than that of a failed merge or of a failed single-stream download, and
    its two temporary paths were free when it started, they are free when
    it ends. *)
Theorem job_failure_leaves_no_temps (s : Service) (url output_dir : string)
    (page quality : Z) (w w' : World) (m : message) :
  _download s url output_dir page quality w = (Ret (false, m), w') ->
  files w !! temp_video_path s = None ->
  files w !! temp_audio_path s = None ->
  m <> MsgMergeFailed -> m <> MsgVideoFailed ->
  files w' !! temp_video_path s = None /\ files w' !! temp_audio_path s = None.
Proof.
  intros Hd Hv Ha Hm1 Hm2. unfold _download in Hd.
  fold (temp_video_path s) in Hd. fold (temp_audio_path s) in Hd.
  repeat (job_step Hd; try discriminate);
    unfold ret, unlink, lift, finish, raise, size_if_exists in *; simpl in *.
  all: try discriminate.
  all: injection Hd as <- <-; try contradiction.
  all: repeat match goal with
         | H : read_cancelled _ = _ |- _ => apply read_cancelled_inv in H as [H _]
         | H : (_, _) = (Ret _, _) |- _ => injection H as ? ?; subst
         | H : _download_stream_with_progress _ _ _ _ = _ |- _ =>
             apply download_with_progress_inv in H as (_ & _ & H)
         end.
  all: simpl.
  all: rewrite ?lookup_delete; repeat case_decide.
  all: split; chase_files.
Qed.

Lemma read_cancelled_none w :
  cancel_in w = None -> read_cancelled w = (Ret false, w).
Proof. unfold read_cancelled. now intros ->. Qed.

Lemma download_stream_inv http url p w r w' :
  download_stream http url p w = (r, w') ->
  cancel_in w' = cancel_in w /\ exists b, r = Ret b.
Proof.
  unfold download_stream, bind, write_file, ret.
  destruct (create (http url)) as [total|err]; simpl.
  - destruct (exit _); intros [= <- <-]; simpl; eauto.
  - intros [= <- <-]. eauto.
Qed.

Lemma bind_eq {A B} (m : M A) (k : A -> M B) w a w1 :
  m w = (Ret a, w1) -> bind m k w = k a w1.
Proof. unfold bind. now intros ->. Qed.

Lemma bind_raise {A B} (m : M A) (k : A -> M B) w e w1 :
  m w = (Raise e, w1) -> bind m k w = (Raise e, w1).
Proof. unfold bind. now intros ->. Qed.

Ltac agree_leaf :=
  unfold ret, bind, unlink, finish, size_if_exists in *; simpl in *;
  match goal with
  | H : (Ret _, _) = (_, _) |- _ => injection H as <- <-
  end;
  simpl; eexists; eexists; split; [reflexivity|try discriminate; try reflexivity].

Ltac agree_download H Hc Hc' :=
  let a := fresh "ok" in let w1 := fresh "w" in let e := fresh "e" in
  let Hm := fresh "Hdl" in
  apply bind_inv in H as [(a & w1 & Hm & H)|(e & Hm & H)];
  [ erewrite bind_eq by (rewrite download_with_progress_eq by exact Hc; exact Hm);
    assert (cancel_in w1 = None) as Hc'
      by (destruct (download_stream_inv _ _ _ _ _ _ Hm) as [-> _]; exact Hc)
  | exfalso; destruct (download_stream_inv _ _ _ _ _ _ Hm) as [_ [? ?]]; discriminate ].

Ltac agree_raise H Hm :=
  subst; simpl; erewrite bind_raise by exact Hm; reflexivity.

(** X19: when [cancel()] never comes and the quality is left to the
    program, the thread's job and the command-line job agree: the one
    succeeds exactly when the other does, and then they leave the same
    files; the one fails when the other fails; and an exception that
    escapes the one escapes the other, in the same state. *)
Theorem jobs_agree_without_cancel (s : Service) (url output_dir : string)
    (page : Z) (w w1 : World) (r : result bool) :
  cancel_in w = None ->
  download_video_async s url output_dir page w = (r, w1) ->
  agrees r w1 (_download s url output_dir page 0 w).
Proof.
  intros Hc H. unfold agrees. unfold download_video_async in H. unfold _download.
  erewrite bind_eq by (apply read_cancelled_none; exact Hc). cbv iota.
  job_step H. job_step H. job_step H; [agree_leaf|].
  job_step H.
  2:{ unfold lift in Hm. injection Hm as Hnv <-. subst. simpl.
      erewrite bind_raise by (unfold lift; rewrite Hnv; reflexivity). reflexivity. }
  unfold lift in Hm. injection Hm as Hnv <-.
  erewrite bind_eq by (unfold lift; rewrite Hnv; reflexivity).
  job_step H; [|agree_leaf].
  erewrite bind_eq by (apply read_cancelled_none; exact Hc). cbv iota.
  job_step H; [agree_leaf|].
  job_step H.
  2:{ unfold lift in Hm. injection Hm as Hgi <-. subst. simpl.
      erewrite bind_raise by (unfold lift; rewrite Hgi; reflexivity). reflexivity. }
  unfold lift in Hm. injection Hm as Hgi <-.
  erewrite bind_eq by (unfold lift; rewrite Hgi; reflexivity).
  job_step H; [|agree_leaf].
  erewrite bind_eq by (apply read_cancelled_none; exact Hc). cbv iota.
  change (_select_video_stream 0) with select_best_video_stream.
  set (final_output :=
         path_join output_dir
           (String.append
              (output_name (default UNKNOWN_TITLE (info_title a0))
                 (length (default [] (info_pages a0))) (effective_page page z)
                 (default (String.append "P" (pretty (effective_page page z)))
                    (page_part a1))) ".mp4")) in *.
  assert (forall first,
            (success <- download_stream (http s) (durl_url first) final_output ;;
             ret success)%job w = (r, w1) ->
            match r with
            | Ret b =>
                exists m w2,
                  (success <- _download_stream_with_progress (http s) (durl_url first)
                                final_output ;;
                   if negb success then ret (false, MsgVideoFailed)
                   else finish final_output)%job w
                  = (Ret (b, m), w2) /\ (b = true -> w2 = w1)
            | Raise e =>
                (success <- _download_stream_with_progress (http s) (durl_url first)
                              final_output ;;
                 if negb success then ret (false, MsgVideoFailed)
                 else finish final_output)%job w
                = (Raise e, w1)
            end) as Hsingle.
  { intros first Hs. agree_download Hs Hc Hc5. destruct ok; agree_leaf. }
  job_step H.
  - job_step H.
    + job_step H; [|agree_leaf]. job_step H; [agree_leaf|].
      agree_download H Hc Hc5. job_step H; [agree_leaf|].
      erewrite bind_eq by (apply read_cancelled_none; exact Hc5). cbv iota.
      job_step H.
      * agree_download H Hc5 Hc7. job_step H.
        -- agree_leaf.
        -- erewrite bind_eq by (apply read_cancelled_none; exact Hc7). cbv iota.
           job_step H; [|agree_raise H Hm]. erewrite bind_eq by exact Hm.
           job_step H; agree_leaf.
      * job_step H; [|agree_raise H Hm]. erewrite bind_eq by exact Hm. agree_leaf.
    + job_step H; [agree_leaf|]. now apply Hsingle.
  - job_step H; [agree_leaf|]. now apply Hsingle.
Qed.

Lemma read_cancelled_true w w' :
  read_cancelled w = (Ret true, w') -> w' = w /\ cancel_in w = Some 0%nat.
Proof.
  unfold read_cancelled. destruct (cancel_in w) as [[|n]|] eqn:E; intros [= <-]; auto.
Qed.

Lemma download_with_progress_cancel_none http url p w r w' :
  cancel_in w = None ->
  _download_stream_with_progress http url p w = (r, w') -> cancel_in w' = None.
Proof.
  intros Hc H. rewrite download_with_progress_eq in H by exact Hc.
  destruct (download_stream_inv _ _ _ _ _ _ H) as [-> _]. exact Hc.
Qed.

Lemma download_with_progress_flag_set http url p w r w' :
  _download_stream_with_progress http url p w = (r, w') ->
  cancel_in w' = Some 0%nat -> cancel_in w <> None.
Proof.
  intros H Hs Hn. rewrite (download_with_progress_cancel_none _ _ _ _ _ _ Hn H) in Hs.
  discriminate.
Qed.

Lemma cancel_report_flag s url output_dir page quality w w' ok :
  _download s url output_dir page quality w = (Ret (ok, MsgCancelled), w') ->
  ok = false /\ cancel_in w' = Some 0%nat.
Proof.
  intros Hd. unfold _download in Hd.
  repeat (job_step Hd; try discriminate);
    unfold ret, unlink, lift, finish, raise, size_if_exists in *; simpl in *.
  all: try discriminate.
  all: injection Hd as <- <-.
  all: split; [reflexivity|].
  all: repeat match goal with
         | H : (_, _) = (Ret _, _) |- _ => injection H as ? ?; subst
         end.
  all: match goal with
       | H : read_cancelled _ = (Ret true, _) |- _ =>
           apply read_cancelled_true in H as [? H]; subst
       end.
  all: simpl; assumption.
Qed.

Lemma cancel_report_needs_flag s url output_dir page quality w w' ok :
  cancel_in w = None ->
  _download s url output_dir page quality w <> (Ret (ok, MsgCancelled), w').
Proof.
  intros Hnone Hd. unfold _download in Hd.
  repeat (job_step Hd; try discriminate);
    unfold ret, unlink, lift, finish, raise, size_if_exists in *; simpl in *.
  all: try discriminate.
  all: repeat match goal with
         | Hn : cancel_in ?a = None, H : read_cancelled ?a = (Ret true, _) |- _ =>
             rewrite (read_cancelled_none a Hn) in H; discriminate
         | Hn : cancel_in ?a = None, H : read_cancelled ?a = (Ret false, _) |- _ =>
             rewrite (read_cancelled_none a Hn) in H; injection H as ?; subst
         | H : (_, _) = (Ret _, _) |- _ => injection H as ? ?; subst
         | Hn : cancel_in ?a = None,
           H : _download_stream_with_progress _ _ _ ?a = (_, _) |- _ =>
             let Hb := fresh "Hb" in
             pose proof (download_with_progress_cancel_none _ _ _ _ _ _ Hn H) as Hb;
             clear H
         end.
Qed.

(** X20: the thread's job gives the cancel message only with [False], only
    with the flag set when it ends, and never when [cancel()] does not
    come. *)
Theorem cancel_report_sound (s : Service) (url output_dir : string)
    (page quality : Z) (w w' : World) (ok : bool) :
  _download s url output_dir page quality w = (Ret (ok, MsgCancelled), w') ->
  ok = false /\ cancel_in w' = Some 0%nat /\ cancel_in w <> None.
Proof.
  intros Hd. destruct (cancel_report_flag _ _ _ _ _ _ _ _ Hd) as [H1 H2].
  split; [exact H1|]. split; [exact H2|].
  intros Hn. eapply cancel_report_needs_flag; eauto.
Qed.

End JobsMore.

Section JobsMoreCases.

Lemma job_success_report_witness :
  run (sample_service http_good) "BV1xx411c7mD" "out" 1 0 empty_world
  = (Ret (true, MsgDone "out/clip.mp4" (Some 1)),
     mkWorld (<["out/clip.mp4" := [Byte.x6d]]> ∅) None) /\
  exists name,
    MsgDone "out/clip.mp4" (Some 1)
    = MsgDone (path_join "out" (String.append name ".mp4"))
        (Z.of_nat <$> (length <$> files (mkWorld (<["out/clip.mp4" := [Byte.x6d]]> ∅) None)
                                   !! path_join "out" (String.append name ".mp4"))) /\
    PyStr.all_chars legal name = true /\
    name <> EmptyString.
Proof.
  assert (run (sample_service http_good) "BV1xx411c7mD" "out" 1 0 empty_world
          = (Ret (true, MsgDone "out/clip.mp4" (Some 1)),
             mkWorld (<["out/clip.mp4" := [Byte.x6d]]> ∅) None)) as H
    by (vm_compute; reflexivity).
  split; [exact H|].
  exact (job_success_report _ _ _ _ _ _ _ _ H).
Defined.

Lemma job_failure_leaves_no_temps_witness :
  _download (sample_service http_good) "BV1xx411c7mD" "out" 1 0
            (mkWorld ∅ (Some 5%nat))
  = (Ret (false, MsgCancelled), mkWorld ∅ (Some 0%nat)) /\
  files (mkWorld ∅ (Some 0%nat)) !! temp_video_path (sample_service http_good) = None /\
  files (mkWorld ∅ (Some 0%nat)) !! temp_audio_path (sample_service http_good) = None.
Proof.
  assert (_download (sample_service http_good) "BV1xx411c7mD" "out" 1 0
                    (mkWorld ∅ (Some 5%nat))
          = (Ret (false, MsgCancelled), mkWorld ∅ (Some 0%nat))) as H
    by (vm_compute; reflexivity).
  split; [exact H|].
  apply (job_failure_leaves_no_temps _ _ _ _ _ _ _ _ H);
    [reflexivity|reflexivity|discriminate|discriminate].
Defined.

Lemma jobs_agree_without_cancel_witness :
  cancel_in empty_world = None /\
  download_video_async (sample_service http_good) "BV1xx411c7mD" "out" 1 empty_world
  = (Ret true, mkWorld (<["out/clip.mp4" := [Byte.x6d]]> ∅) None) /\
  agrees (Ret true) (mkWorld (<["out/clip.mp4" := [Byte.x6d]]> ∅) None)
         (_download (sample_service http_good) "BV1xx411c7mD" "out" 1 0 empty_world).
Proof.
  assert (download_video_async (sample_service http_good) "BV1xx411c7mD" "out" 1
            empty_world
          = (Ret true, mkWorld (<["out/clip.mp4" := [Byte.x6d]]> ∅) None)) as H
    by (vm_compute; reflexivity).
  split; [reflexivity|]. split; [exact H|].
  exact (jobs_agree_without_cancel (sample_service http_good) "BV1xx411c7mD" "out" 1
           empty_world _ _ eq_refl H).
Defined.

Lemma cancel_report_sound_witness :
  _download (sample_service http_good) "BV1xx411c7mD" "out" 1 0
            (mkWorld ∅ (Some 5%nat))
  = (Ret (false, MsgCancelled), mkWorld ∅ (Some 0%nat)) /\
  false = false /\ cancel_in (mkWorld ∅ (Some 0%nat)) = Some 0%nat /\
  cancel_in (mkWorld ∅ (Some 5%nat)) <> None.
Proof.
  assert (_download (sample_service http_good) "BV1xx411c7mD" "out" 1 0
                    (mkWorld ∅ (Some 5%nat))
          = (Ret (false, MsgCancelled), mkWorld ∅ (Some 0%nat))) as H
    by (vm_compute; reflexivity).
  split; [exact H|].
  exact (cancel_report_sound _ _ _ _ _ _ _ _ H).
Defined.

End JobsMoreCases.

(** ** Fetching the information shown *)

Section Fetch.

Lemma parse_bvid_truthy url b :
  fst (fst (parse_video_url url)) = Some b -> str_truthy (Some b) = true.
Proof.
  intros H.
  destruct (proj1 (parse_video_url_shape_aux url) b H) as [Hp _].
  destruct b; [discriminate|reflexivity].
Qed.

(** When the coordinators take the input as not parsed: no id, or the
    numeric id 0. *)
Lemma no_id_iff url :
  negb (str_truthy (fst (fst (parse_video_url url))))
  && negb (int_truthy (snd (fst (parse_video_url url)))) = true <->
  fst (fst (parse_video_url url)) = None /\
  (snd (fst (parse_video_url url)) = None \/ snd (fst (parse_video_url url)) = Some 0).
Proof.
  pose proof (parse_bvid_truthy url) as Hb.
  destruct (parse_video_url url) as [[bvid aid] page]. simpl in *.
  rewrite andb_true_iff, !negb_true_iff. split.
  - intros [H1 H2]. split.
    + destruct bvid as [b|]; [|reflexivity]. pose proof (Hb b eq_refl) as Ht.
      simpl in *. congruence.
    + destruct aid as [a|]; [|now left]. right. simpl in H2.
      apply negb_false_iff, Z.eqb_eq in H2. now subst.
  - intros [-> [->| ->]]; auto.
Qed.


End Fetch.

(** ** Inputs the coordinators do not take *)

Section Rejection.

Ltac reject_step H :=
  match type of H with
  | bind _ _ _ = _ =>
      let a := fresh "a" in let w1 := fresh "w" in let e := fresh "e" in
      let H1 := fresh "Hm" in
      apply bind_inv in H as [(a & w1 & H1 & H)|(e & H1 & H)]
  | (if ?b then _ else _) _ = _ => destruct b eqn:?
  | (match ?x with _ => _ end) _ = _ => destruct x eqn:?
  | (let '(_, _) := ?x in _) _ = _ => destruct x eqn:?
  end.

Lemma download_cannot_parse_inv s url output_dir page quality w ok u w' :
  _download s url output_dir page quality w = (Ret (ok, MsgCannotParse u), w') ->
  negb (str_truthy (fst (fst (parse_video_url url))))
  && negb (int_truthy (snd (fst (parse_video_url url)))) = true.
Proof.
  intros Hd. unfold _download in Hd.
  repeat (reject_step Hd; try discriminate);
    unfold ret, unlink, lift, finish, raise, size_if_exists in *; simpl in *.
  all: try discriminate.
  all: assumption.
Qed.

(** X22: with the cancel flag not yet set, the thread's job ends with the
    message that the address cannot be parsed exactly when the parser found
    no id or found the numeric id 0 (which counts as none); the
    command-line job then returns [False] and touches nothing. *)
Theorem job_rejects_unparsed (s : Service) (url output_dir : string)
    (page quality : Z) (w : World) :
  cancel_in w <> Some 0%nat ->
  ((exists w', run s url output_dir page quality w
               = (Ret (false, MsgCannotParse url), w')) <->
   fst (fst (parse_video_url url)) = None /\
   (snd (fst (parse_video_url url)) = None \/
    snd (fst (parse_video_url url)) = Some 0)) /\
  (fst (fst (parse_video_url url)) = None /\
   (snd (fst (parse_video_url url)) = None \/
    snd (fst (parse_video_url url)) = Some 0) ->
   download_video_async s url output_dir page w = (Ret false, w)).
Proof.
  intros Hc. pose proof (no_id_iff url) as Hno. split; [split|].
  - intros [w' H]. apply Hno. unfold run, try_except in H.
    destruct (_download s url output_dir page quality w) as [[[ok m]|e] w1] eqn:Hd;
      [|discriminate].
    injection H as -> -> ->. eapply download_cannot_parse_inv. exact Hd.
  - intros Hcond. apply Hno in Hcond. unfold run, try_except, _download, bind.
    assert (exists w0, read_cancelled w = (Ret false, w0)) as [w0 ->].
    { unfold read_cancelled. destruct (cancel_in w) as [[|n]|]; eauto. congruence. }
    destruct (parse_video_url url) as [[bvid aid] p]. simpl in Hcond.
    rewrite Hcond. unfold ret. eauto.
  - intros Hcond. apply Hno in Hcond. unfold download_video_async.
    destruct (parse_video_url url) as [[bvid aid] p]. simpl in Hcond.
    now rewrite Hcond.
Qed.

End Rejection.

Section RejectionCases.

Lemma job_rejects_unparsed_witness :
  cancel_in empty_world <> Some 0%nat /\
  download_video_async (sample_service http_good) "av0" "out" 1 empty_world
  = (Ret false, empty_world).
Proof.
  assert (cancel_in empty_world <> Some 0%nat) as Hc by discriminate.
  split; [exact Hc|].
  apply (proj2 (job_rejects_unparsed (sample_service http_good) "av0" "out" 1 0
                  empty_world Hc)).
  split; [reflexivity|right; reflexivity].
Defined.

End RejectionCases.

(** ** The quality list and automatic selection *)

Section OfferedMore.

Lemma ranked_quality_named q :
  In q VIDEO_QUALITY_PRIORITY -> VIDEO_QUALITY_NAME !! q = Some (quality_name q).
Proof.
  intros Hin. simpl in Hin.
  repeat (destruct Hin as [<-|Hin]; [vm_compute; reflexivity|]).
  destruct Hin.
Qed.

(** X23: every quality offered whose id is in the priority table is shown
    with its name from [VIDEO_QUALITY_NAME]; the [qn=id] form is only used
    for ids outside the table. *)
Theorem offered_ranked_quality_named (d : DashData) (q : Z) (n : string) :
  dash_truthy d = true ->
  In (q, n) (available_qualities (Some d)) ->
  In q VIDEO_QUALITY_PRIORITY ->
  VIDEO_QUALITY_NAME !! q = Some n.
Proof.
  intros Ht Hin Hq.
  destruct (collected_inv (default [] (dash_video d))) as (_ & _ & _ & Hname).
  pose proof (available_qualities_perm d Ht) as Hp.
  assert (n = quality_name q) as ->.
  { apply Hname. apply list_elem_of_In. apply list_elem_of_In in Hin. now rewrite Hp. }
  now apply ranked_quality_named.
Qed.

Lemma offered_ranked_quality_named_witness :
  dash_truthy ranked_dash = true /\
  In (80, quality_name 80) (available_qualities (Some ranked_dash)) /\
  In 80 VIDEO_QUALITY_PRIORITY /\
  VIDEO_QUALITY_NAME !! 80 = Some (quality_name 80).
Proof.
  assert (In (80, quality_name 80) (available_qualities (Some ranked_dash))) as H1
    by (vm_compute; left; reflexivity).
  assert (In 80 VIDEO_QUALITY_PRIORITY) as H2 by (simpl; tauto).
  split; [reflexivity|]. split; [exact H1|]. split; [exact H2|].
  exact (offered_ranked_quality_named ranked_dash 80 _ eq_refl H1 H2).
Defined.

Lemma sorted_head_least {A} (key : A -> nat) x l :
  Sorted (fun a b => (key a <= key b)%nat) (x :: l) ->
  forall y, In y (x :: l) -> (key x <= key y)%nat.
Proof.
  intros Hs. apply Sorted_StronglySorted in Hs.
  - apply StronglySorted_inv in Hs as [_ Hall]. rewrite Forall_forall in Hall.
    intros y [<-|Hy]; [lia|]. apply Hall. now apply list_elem_of_In.
  - intros a b c. lia.
Qed.

Lemma best_stream_least_rank d s :
  select_best_video_stream d = Some s ->
  In s (default [] (dash_video d)) /\
  forall s', In s' (default [] (dash_video d)) -> (quality_rank s <= quality_rank s')%nat.
Proof.
  intros Hs.
  assert (default [] (dash_video d) <> []) as Hne.
  { intros Hn. unfold select_best_video_stream in Hs. rewrite Hn in Hs. discriminate. }
  destruct (select_best_video_stream_head d Hne) as (l1 & s0 & l2 & Hl & Hsel & H1 & H2).
  rewrite Hsel in Hs. injection Hs as ->. rewrite Hl. split.
  - apply in_or_app. right. now left.
  - intros s' Hin. rewrite Forall_forall in H1, H2.
    apply in_app_or in Hin as [Hin|[<-|Hin]].
    + apply list_elem_of_In in Hin. specialize (H1 _ Hin).
      apply pair_ltb_true in H1. unfold sort_key in H1. simpl in H1. lia.
    + lia.
    + apply list_elem_of_In in Hin. specialize (H2 _ Hin).
      apply pair_ltb_false in H2. unfold lex_le, sort_key in H2. simpl in H2. lia.
Qed.

(** X24: when the stream automatic selection picks has a quality of the
    priority table, that quality is the first in the list of qualities
    offered for the same manifest. *)
Theorem first_offered_is_automatic (d : DashData) (s : Stream) :
  dash_truthy d = true ->
  select_best_video_stream d = Some s ->
  known_quality s ->
  exists rest,
    available_qualities (Some d) = (stream_qid s, quality_name (stream_qid s)) :: rest.
Proof.
  intros Ht Hs Hk. destruct (best_stream_least_rank d s Hs) as [Hin Hmin].
  assert (In (stream_qid s) (map fst (available_qualities (Some d)))) as Hoff.
  { apply (available_qualities_mem d _ Ht). eauto. }
  destruct (available_qualities (Some d)) as [|[q n] rest] eqn:Ea; [destruct Hoff|].
  assert (In (q, n) (available_qualities (Some d))) as Hhd by (rewrite Ea; now left).
  assert (n = quality_name q) as ->.
  { destruct (collected_inv (default [] (dash_video d))) as (_ & _ & _ & Hname).
    apply Hname. apply list_elem_of_In. apply list_elem_of_In in Hhd.
    now rewrite (available_qualities_perm d Ht). }
  assert (In q (map fst (available_qualities (Some d)))) as Hq
    by (rewrite Ea; now left).
  apply (available_qualities_mem d q Ht) in Hq as (s' & Hs' & Hqid).
  (* the head has the least key of the list, the best stream the least rank *)
  assert (Sorted (fun a b => (quality_sort_key a <= quality_sort_key b)%nat)
                 ((q, quality_name q) :: rest)) as Hsorted.
  { rewrite <- Ea. apply ascending_nat_le. unfold available_qualities. rewrite Ht.
    apply sorted_by_ascending; [exact nat_ltb_irrefl|exact nat_ltb_trans]. }
  apply in_map_iff in Hoff as ([q0 n0] & Hfst & Hin0). simpl in Hfst. subst q0.
  pose proof (sorted_head_least quality_sort_key _ _ Hsorted _ Hin0) as Hle.
  specialize (Hmin _ Hs').
  unfold quality_sort_key in Hle. simpl in Hle.
  unfold quality_rank in Hmin. fold (stream_qid s) in Hmin. fold (stream_qid s') in Hmin.
  rewrite Hqid in Hmin.
  unfold known_quality in Hk. fold (stream_qid s) in Hk. destruct Hk as [i Hi].
  rewrite Hi in Hmin, Hle.
  destruct (Py.index q VIDEO_QUALITY_PRIORITY) as [j|] eqn:Hj.
  - assert (i = j) as -> by lia.
    apply PyFacts.index_Some in Hi as [_ Hi]. apply PyFacts.index_Some in Hj as [_ Hj].
    assert (stream_qid s = q) as -> by congruence. eauto.
  - apply PyFacts.index_Some in Hi as [Hi _]. simpl in Hi. lia.
Qed.

Lemma first_offered_is_automatic_witness :
  dash_truthy ranked_dash = true /\
  exists rest, available_qualities (Some ranked_dash) = (80, quality_name 80) :: rest.
Proof.
  split; [reflexivity|].
  refine (first_offered_is_automatic ranked_dash
            (mkStream (Some 80) (Some "HEV1.1.6.L120.90") (Some "h2") None None None)
            eq_refl eq_refl _).
  vm_compute. eauto.
Defined.

End OfferedMore.
